(** * Kazhutha card game: the session state machine of [main.py]

    A shallow embedding of [GameSession] (cards, dealing, turn order,
    suit following, round resolution, the take-hand move, winner and
    game-over detection, disconnect and reconnect) and the properties
    the specification states about it.

    Conventions of the embedding.
    - A Python [dict] whose key order is observed ([self.players], the
      JSON object of a card) is an association list in insertion order;
      a well-formed dict has no duplicate key.
    - The [set] [connected_players] is a [gset string].
    - A method is a function from the session to an outcome that carries
      the session as the method left it: [Ok v s] for [return v],
      [Raise e s] for an exception escaping the method.  Mutations made
      before an exception are kept, as they are on the Python object.
    - [random.shuffle] is outside the repository: it is a parameter of
      the development, threaded through an abstract generator state. *)

From stdpp Require Import base list strings gmap pretty.
From Stdlib Require Import ZArith.

Open Scope string_scope.
Open Scope list_scope.
Open Scope nat_scope.

(** ** Cards *)

Inductive Suit : Type := HEARTS | DIAMONDS | CLUBS | SPADES.

Inductive Rank : Type :=
  | ACE | KING | QUEEN | JACK | TEN | NINE | EIGHT | SEVEN
  | SIX | FIVE | FOUR | THREE | TWO.

#[global] Instance Suit_eq_dec : EqDecision Suit.
Proof. solve_decision. Defined.

#[global] Instance Rank_eq_dec : EqDecision Rank.
Proof. solve_decision. Defined.

(** The members of the two enums, in definition order (the order in which
    [for suit in Suit] and [for rank in Rank] iterate). *)
Definition Suit_members : list Suit := [HEARTS; DIAMONDS; CLUBS; SPADES].

Definition Rank_members : list Rank :=
  [ACE; KING; QUEEN; JACK; TEN; NINE; EIGHT; SEVEN; SIX; FIVE; FOUR; THREE; TWO].

(** [suit.value] and [rank.value] of the [str] enums. *)
Definition Suit_value (s : Suit) : string :=
  match s with
  | HEARTS => "HEARTS" | DIAMONDS => "DIAMONDS" | CLUBS => "CLUBS" | SPADES => "SPADES"
  end.

Definition Rank_value (r : Rank) : string :=
  match r with
  | ACE => "ACE" | KING => "KING" | QUEEN => "QUEEN" | JACK => "JACK"
  | TEN => "10" | NINE => "9" | EIGHT => "8" | SEVEN => "7" | SIX => "6"
  | FIVE => "5" | FOUR => "4" | THREE => "3" | TWO => "2"
  end.

Record Card : Type := mkCard { suit : Suit; rank : Rank }.

#[global] Instance Card_eq_dec : EqDecision Card.
Proof. solve_decision. Defined.

(** [Card.value]: the table [rank_values]. *)
Definition value (c : Card) : Z :=
  match rank c with
  | ACE => 14 | KING => 13 | QUEEN => 12 | JACK => 11 | TEN => 10 | NINE => 9
  | EIGHT => 8 | SEVEN => 7 | SIX => 6 | FIVE => 5 | FOUR => 4 | THREE => 3
  | TWO => 2
  end%Z.

Definition ace_of_spades : Card := mkCard SPADES ACE.

(** ** Python containers *)

Section Containers.
Context {A : Type} `{EqDecision A}.

(** [l.index(x)]: position of the first occurrence, if any. *)
Fixpoint py_index (x : A) (l : list A) : option nat :=
  match l with
  | [] => None
  | y :: l' => if decide (y = x) then Some 0 else S <$> py_index x l'
  end.

(** [l.remove(x)]: the list without the first occurrence, if any. *)
Fixpoint py_remove (x : A) (l : list A) : option (list A) :=
  match l with
  | [] => None
  | y :: l' => if decide (y = x) then Some l' else cons y <$> py_remove x l'
  end.

(** [l.insert(i, x)]: inserts before position [i], at the end when [i]
    is past it. *)
Definition py_insert (i : nat) (x : A) (l : list A) : list A :=
  take i l ++ x :: drop i l.
End Containers.

(** [max(l, key=key)]: the first element whose key is maximal. *)
Fixpoint py_max {A : Type} (key : A → Z) (l : list A) : option A :=
  match l with
  | [] => None
  | x :: l' =>
      match py_max key l' with
      | None => Some x
      | Some m => if (key x <? key m)%Z then Some m else Some x
      end
  end.

(** Insertion-ordered dictionaries with string keys. *)
Section Dict.
Context {V : Type}.

Fixpoint dict_get (k : string) (d : list (string * V)) : option V :=
  match d with
  | [] => None
  | (k', v) :: d' => if decide (k' = k) then Some v else dict_get k d'
  end.

(** [d[k] = v]: in place for a present key, at the end for a new one. *)
Fixpoint dict_set (k : string) (v : V) (d : list (string * V)) : list (string * V) :=
  match d with
  | [] => [(k, v)]
  | (k', v') :: d' =>
      if decide (k' = k) then (k', v) :: d' else (k', v') :: dict_set k v d'
  end.

(** [del d[k]] for a present key. *)
Fixpoint dict_del (k : string) (d : list (string * V)) : list (string * V) :=
  match d with
  | [] => []
  | (k', v') :: d' => if decide (k' = k) then d' else (k', v') :: dict_del k d'
  end.

Definition dict_keys (d : list (string * V)) : list string := d.*1.

Definition dict_values (d : list (string * V)) : list V := d.*2.
End Dict.

(** ** Hand order

    [hand.sort(key=lambda c: (c.suit.value, -c.value))]: tuples compare
    lexicographically, the suit names as strings.  [list.sort] is stable,
    and a stable sort is determined by the key order; it is written here
    as an insertion sort that keeps equal keys in their original order. *)

Definition sort_key (c : Card) : string * Z := (Suit_value (suit c), (- value c)%Z).

Definition key_lt (k1 k2 : string * Z) : bool :=
  match String.compare k1.1 k2.1 with
  | Lt => true
  | Eq => (k1.2 <? k2.2)%Z
  | Gt => false
  end.

Fixpoint sort_insert (c : Card) (l : list Card) : list Card :=
  match l with
  | [] => [c]
  | d :: l' => if key_lt (sort_key d) (sort_key c) then d :: sort_insert c l' else c :: d :: l'
  end.

Definition sort_hand (l : list Card) : list Card := foldr sort_insert [] l.

(** ** The JSON object of a card, and the enum constructors by value *)

Definition Suit_of_value (x : string) : option Suit :=
  snd <$> list_find (λ s, Suit_value s = x) Suit_members.

Definition Rank_of_value (x : string) : option Rank :=
  snd <$> list_find (λ r, Rank_value r = x) Rank_members.

(** [Card.to_dict]. *)
Definition to_dict (c : Card) : list (string * string) :=
  [("suit", Suit_value (suit c)); ("rank", Rank_value (rank c))].

(** ** Exceptions *)

Inductive PyExc : Type :=
  | KeyError (key : string)
  | IndexError
  | ValueError (msg : string).

(** ** The session *)

Record GameSession : Type := mkGameSession {
  game_id : string;
  players : list (string * list Card);
  player_order : list string;
  active_players : list string;
  current_player_idx : nat;
  current_pile : list (string * Card);
  current_suit : option Suit;
  original_suit : option Suit;
  game_started : bool;
  finished : bool;
  kazhutha : option string;
  winners : list string;
  host_name : string;
  discarded_cards : list Card;
  round_in_progress : bool;
  last_action : option string;
  game_first_card_played : bool;
  resolved_pile : list (string * Card);
  resolved_winner : option string;
  suit_was_broken : bool;
  taken_hand_cards : list Card;
  taken_hand_from : option string;
  taken_hand_by : option string;
  original_players : list string;
  connected_players : gset string;
  waiting_for_player : option string
}.

Definition set_players (v : list (string * list Card)) (s : GameSession) : GameSession :=
    mkGameSession (game_id s) v (player_order s) (active_players s)
    (current_player_idx s) (current_pile s) (current_suit s) (original_suit s)
    (game_started s) (finished s) (kazhutha s) (winners s) (host_name s)
    (discarded_cards s) (round_in_progress s) (last_action s)
    (game_first_card_played s) (resolved_pile s) (resolved_winner s)
    (suit_was_broken s) (taken_hand_cards s) (taken_hand_from s)
    (taken_hand_by s) (original_players s) (connected_players s)
    (waiting_for_player s).

Definition set_player_order (v : list string) (s : GameSession) : GameSession :=
    mkGameSession (game_id s) (players s) v (active_players s)
    (current_player_idx s) (current_pile s) (current_suit s) (original_suit s)
    (game_started s) (finished s) (kazhutha s) (winners s) (host_name s)
    (discarded_cards s) (round_in_progress s) (last_action s)
    (game_first_card_played s) (resolved_pile s) (resolved_winner s)
    (suit_was_broken s) (taken_hand_cards s) (taken_hand_from s)
    (taken_hand_by s) (original_players s) (connected_players s)
    (waiting_for_player s).

Definition set_active_players (v : list string) (s : GameSession) : GameSession :=
    mkGameSession (game_id s) (players s) (player_order s) v
    (current_player_idx s) (current_pile s) (current_suit s) (original_suit s)
    (game_started s) (finished s) (kazhutha s) (winners s) (host_name s)
    (discarded_cards s) (round_in_progress s) (last_action s)
    (game_first_card_played s) (resolved_pile s) (resolved_winner s)
    (suit_was_broken s) (taken_hand_cards s) (taken_hand_from s)
    (taken_hand_by s) (original_players s) (connected_players s)
    (waiting_for_player s).

Definition set_current_player_idx (v : nat) (s : GameSession) : GameSession :=
    mkGameSession (game_id s) (players s) (player_order s) (active_players s) v
    (current_pile s) (current_suit s) (original_suit s) (game_started s)
    (finished s) (kazhutha s) (winners s) (host_name s) (discarded_cards s)
    (round_in_progress s) (last_action s) (game_first_card_played s)
    (resolved_pile s) (resolved_winner s) (suit_was_broken s)
    (taken_hand_cards s) (taken_hand_from s) (taken_hand_by s)
    (original_players s) (connected_players s) (waiting_for_player s).

Definition set_current_pile (v : list (string * Card)) (s : GameSession) : GameSession :=
    mkGameSession (game_id s) (players s) (player_order s) (active_players s)
    (current_player_idx s) v (current_suit s) (original_suit s) (game_started s)
    (finished s) (kazhutha s) (winners s) (host_name s) (discarded_cards s)
    (round_in_progress s) (last_action s) (game_first_card_played s)
    (resolved_pile s) (resolved_winner s) (suit_was_broken s)
    (taken_hand_cards s) (taken_hand_from s) (taken_hand_by s)
    (original_players s) (connected_players s) (waiting_for_player s).

Definition set_current_suit (v : option Suit) (s : GameSession) : GameSession :=
    mkGameSession (game_id s) (players s) (player_order s) (active_players s)
    (current_player_idx s) (current_pile s) v (original_suit s) (game_started s)
    (finished s) (kazhutha s) (winners s) (host_name s) (discarded_cards s)
    (round_in_progress s) (last_action s) (game_first_card_played s)
    (resolved_pile s) (resolved_winner s) (suit_was_broken s)
    (taken_hand_cards s) (taken_hand_from s) (taken_hand_by s)
    (original_players s) (connected_players s) (waiting_for_player s).

Definition set_original_suit (v : option Suit) (s : GameSession) : GameSession :=
    mkGameSession (game_id s) (players s) (player_order s) (active_players s)
    (current_player_idx s) (current_pile s) (current_suit s) v (game_started s)
    (finished s) (kazhutha s) (winners s) (host_name s) (discarded_cards s)
    (round_in_progress s) (last_action s) (game_first_card_played s)
    (resolved_pile s) (resolved_winner s) (suit_was_broken s)
    (taken_hand_cards s) (taken_hand_from s) (taken_hand_by s)
    (original_players s) (connected_players s) (waiting_for_player s).

Definition set_game_started (v : bool) (s : GameSession) : GameSession :=
    mkGameSession (game_id s) (players s) (player_order s) (active_players s)
    (current_player_idx s) (current_pile s) (current_suit s) (original_suit s) v
    (finished s) (kazhutha s) (winners s) (host_name s) (discarded_cards s)
    (round_in_progress s) (last_action s) (game_first_card_played s)
    (resolved_pile s) (resolved_winner s) (suit_was_broken s)
    (taken_hand_cards s) (taken_hand_from s) (taken_hand_by s)
    (original_players s) (connected_players s) (waiting_for_player s).

Definition set_finished (v : bool) (s : GameSession) : GameSession :=
    mkGameSession (game_id s) (players s) (player_order s) (active_players s)
    (current_player_idx s) (current_pile s) (current_suit s) (original_suit s)
    (game_started s) v (kazhutha s) (winners s) (host_name s)
    (discarded_cards s) (round_in_progress s) (last_action s)
    (game_first_card_played s) (resolved_pile s) (resolved_winner s)
    (suit_was_broken s) (taken_hand_cards s) (taken_hand_from s)
    (taken_hand_by s) (original_players s) (connected_players s)
    (waiting_for_player s).

Definition set_kazhutha (v : option string) (s : GameSession) : GameSession :=
    mkGameSession (game_id s) (players s) (player_order s) (active_players s)
    (current_player_idx s) (current_pile s) (current_suit s) (original_suit s)
    (game_started s) (finished s) v (winners s) (host_name s)
    (discarded_cards s) (round_in_progress s) (last_action s)
    (game_first_card_played s) (resolved_pile s) (resolved_winner s)
    (suit_was_broken s) (taken_hand_cards s) (taken_hand_from s)
    (taken_hand_by s) (original_players s) (connected_players s)
    (waiting_for_player s).

Definition set_winners (v : list string) (s : GameSession) : GameSession :=
    mkGameSession (game_id s) (players s) (player_order s) (active_players s)
    (current_player_idx s) (current_pile s) (current_suit s) (original_suit s)
    (game_started s) (finished s) (kazhutha s) v (host_name s)
    (discarded_cards s) (round_in_progress s) (last_action s)
    (game_first_card_played s) (resolved_pile s) (resolved_winner s)
    (suit_was_broken s) (taken_hand_cards s) (taken_hand_from s)
    (taken_hand_by s) (original_players s) (connected_players s)
    (waiting_for_player s).

Definition set_discarded_cards (v : list Card) (s : GameSession) : GameSession :=
    mkGameSession (game_id s) (players s) (player_order s) (active_players s)
    (current_player_idx s) (current_pile s) (current_suit s) (original_suit s)
    (game_started s) (finished s) (kazhutha s) (winners s) (host_name s) v
    (round_in_progress s) (last_action s) (game_first_card_played s)
    (resolved_pile s) (resolved_winner s) (suit_was_broken s)
    (taken_hand_cards s) (taken_hand_from s) (taken_hand_by s)
    (original_players s) (connected_players s) (waiting_for_player s).

Definition set_round_in_progress (v : bool) (s : GameSession) : GameSession :=
    mkGameSession (game_id s) (players s) (player_order s) (active_players s)
    (current_player_idx s) (current_pile s) (current_suit s) (original_suit s)
    (game_started s) (finished s) (kazhutha s) (winners s) (host_name s)
    (discarded_cards s) v (last_action s) (game_first_card_played s)
    (resolved_pile s) (resolved_winner s) (suit_was_broken s)
    (taken_hand_cards s) (taken_hand_from s) (taken_hand_by s)
    (original_players s) (connected_players s) (waiting_for_player s).

Definition set_last_action (v : option string) (s : GameSession) : GameSession :=
    mkGameSession (game_id s) (players s) (player_order s) (active_players s)
    (current_player_idx s) (current_pile s) (current_suit s) (original_suit s)
    (game_started s) (finished s) (kazhutha s) (winners s) (host_name s)
    (discarded_cards s) (round_in_progress s) v (game_first_card_played s)
    (resolved_pile s) (resolved_winner s) (suit_was_broken s)
    (taken_hand_cards s) (taken_hand_from s) (taken_hand_by s)
    (original_players s) (connected_players s) (waiting_for_player s).

Definition set_game_first_card_played (v : bool) (s : GameSession) : GameSession :=
    mkGameSession (game_id s) (players s) (player_order s) (active_players s)
    (current_player_idx s) (current_pile s) (current_suit s) (original_suit s)
    (game_started s) (finished s) (kazhutha s) (winners s) (host_name s)
    (discarded_cards s) (round_in_progress s) (last_action s) v
    (resolved_pile s) (resolved_winner s) (suit_was_broken s)
    (taken_hand_cards s) (taken_hand_from s) (taken_hand_by s)
    (original_players s) (connected_players s) (waiting_for_player s).

Definition set_resolved_pile (v : list (string * Card)) (s : GameSession) : GameSession :=
    mkGameSession (game_id s) (players s) (player_order s) (active_players s)
    (current_player_idx s) (current_pile s) (current_suit s) (original_suit s)
    (game_started s) (finished s) (kazhutha s) (winners s) (host_name s)
    (discarded_cards s) (round_in_progress s) (last_action s)
    (game_first_card_played s) v (resolved_winner s) (suit_was_broken s)
    (taken_hand_cards s) (taken_hand_from s) (taken_hand_by s)
    (original_players s) (connected_players s) (waiting_for_player s).

Definition set_resolved_winner (v : option string) (s : GameSession) : GameSession :=
    mkGameSession (game_id s) (players s) (player_order s) (active_players s)
    (current_player_idx s) (current_pile s) (current_suit s) (original_suit s)
    (game_started s) (finished s) (kazhutha s) (winners s) (host_name s)
    (discarded_cards s) (round_in_progress s) (last_action s)
    (game_first_card_played s) (resolved_pile s) v (suit_was_broken s)
    (taken_hand_cards s) (taken_hand_from s) (taken_hand_by s)
    (original_players s) (connected_players s) (waiting_for_player s).

Definition set_suit_was_broken (v : bool) (s : GameSession) : GameSession :=
    mkGameSession (game_id s) (players s) (player_order s) (active_players s)
    (current_player_idx s) (current_pile s) (current_suit s) (original_suit s)
    (game_started s) (finished s) (kazhutha s) (winners s) (host_name s)
    (discarded_cards s) (round_in_progress s) (last_action s)
    (game_first_card_played s) (resolved_pile s) (resolved_winner s) v
    (taken_hand_cards s) (taken_hand_from s) (taken_hand_by s)
    (original_players s) (connected_players s) (waiting_for_player s).

Definition set_taken_hand_cards (v : list Card) (s : GameSession) : GameSession :=
    mkGameSession (game_id s) (players s) (player_order s) (active_players s)
    (current_player_idx s) (current_pile s) (current_suit s) (original_suit s)
    (game_started s) (finished s) (kazhutha s) (winners s) (host_name s)
    (discarded_cards s) (round_in_progress s) (last_action s)
    (game_first_card_played s) (resolved_pile s) (resolved_winner s)
    (suit_was_broken s) v (taken_hand_from s) (taken_hand_by s)
    (original_players s) (connected_players s) (waiting_for_player s).

Definition set_taken_hand_from (v : option string) (s : GameSession) : GameSession :=
    mkGameSession (game_id s) (players s) (player_order s) (active_players s)
    (current_player_idx s) (current_pile s) (current_suit s) (original_suit s)
    (game_started s) (finished s) (kazhutha s) (winners s) (host_name s)
    (discarded_cards s) (round_in_progress s) (last_action s)
    (game_first_card_played s) (resolved_pile s) (resolved_winner s)
    (suit_was_broken s) (taken_hand_cards s) v (taken_hand_by s)
    (original_players s) (connected_players s) (waiting_for_player s).

Definition set_taken_hand_by (v : option string) (s : GameSession) : GameSession :=
    mkGameSession (game_id s) (players s) (player_order s) (active_players s)
    (current_player_idx s) (current_pile s) (current_suit s) (original_suit s)
    (game_started s) (finished s) (kazhutha s) (winners s) (host_name s)
    (discarded_cards s) (round_in_progress s) (last_action s)
    (game_first_card_played s) (resolved_pile s) (resolved_winner s)
    (suit_was_broken s) (taken_hand_cards s) (taken_hand_from s) v
    (original_players s) (connected_players s) (waiting_for_player s).

Definition set_original_players (v : list string) (s : GameSession) : GameSession :=
    mkGameSession (game_id s) (players s) (player_order s) (active_players s)
    (current_player_idx s) (current_pile s) (current_suit s) (original_suit s)
    (game_started s) (finished s) (kazhutha s) (winners s) (host_name s)
    (discarded_cards s) (round_in_progress s) (last_action s)
    (game_first_card_played s) (resolved_pile s) (resolved_winner s)
    (suit_was_broken s) (taken_hand_cards s) (taken_hand_from s)
    (taken_hand_by s) v (connected_players s) (waiting_for_player s).

Definition set_connected_players (v : gset string) (s : GameSession) : GameSession :=
    mkGameSession (game_id s) (players s) (player_order s) (active_players s)
    (current_player_idx s) (current_pile s) (current_suit s) (original_suit s)
    (game_started s) (finished s) (kazhutha s) (winners s) (host_name s)
    (discarded_cards s) (round_in_progress s) (last_action s)
    (game_first_card_played s) (resolved_pile s) (resolved_winner s)
    (suit_was_broken s) (taken_hand_cards s) (taken_hand_from s)
    (taken_hand_by s) (original_players s) v (waiting_for_player s).

Definition set_waiting_for_player (v : option string) (s : GameSession) : GameSession :=
    mkGameSession (game_id s) (players s) (player_order s) (active_players s)
    (current_player_idx s) (current_pile s) (current_suit s) (original_suit s)
    (game_started s) (finished s) (kazhutha s) (winners s) (host_name s)
    (discarded_cards s) (round_in_progress s) (last_action s)
    (game_first_card_played s) (resolved_pile s) (resolved_winner s)
    (suit_was_broken s) (taken_hand_cards s) (taken_hand_from s)
    (taken_hand_by s) (original_players s) (connected_players s) v.
(** [GameSession.__init__]. *)
Definition new_session (game_id host_name : string) : GameSession :=
  {| game_id := game_id;
     players := [(host_name, [])];
     player_order := [host_name];
     active_players := [];
     current_player_idx := 0;
     current_pile := [];
     current_suit := None;
     original_suit := None;
     game_started := false;
     finished := false;
     kazhutha := None;
     winners := [];
     host_name := host_name;
     discarded_cards := [];
     round_in_progress := false;
     last_action := None;
     game_first_card_played := false;
     resolved_pile := [];
     resolved_winner := None;
     suit_was_broken := false;
     taken_hand_cards := [];
     taken_hand_from := None;
     taken_hand_by := None;
     original_players := [];
     connected_players := ∅;
     waiting_for_player := None |}.

(** ** Methods as state transformers with exceptions *)

Inductive Res (A : Type) : Type :=
  | Ok (a : A) (s : GameSession)
  | Raise (e : PyExc) (s : GameSession).

Arguments Ok {A} a s.
Arguments Raise {A} e s.

Definition M (A : Type) : Type := GameSession → Res A.

Definition ret {A : Type} (a : A) : M A := λ s, Ok a s.

Definition bind {A B : Type} (m : M A) (k : A → M B) : M B :=
  λ s, match m s with
       | Ok a s' => k a s'
       | Raise e s' => Raise e s'
       end.

Definition raise {A : Type} (e : PyExc) : M A := λ s, Raise e s.

Definition gets {A : Type} (f : GameSession → A) : M A := λ s, Ok (f s) s.

Definition modify (f : GameSession → GameSession) : M unit := λ s, Ok tt (f s).

#[global] Instance M_ret : MRet M := @ret.
#[global] Instance M_bind : MBind M := λ A B k m, bind m k.

(** The session an outcome leaves behind. *)
Definition final {A : Type} (r : Res A) : GameSession :=
  match r with Ok _ s => s | Raise _ s => s end.

(** [l.index(x)] and [l[i]] inside a method. *)
Definition index_of (x : string) (l : list string) : M nat :=
  match py_index x l with
  | Some i => ret i
  | None => raise (ValueError "x is not in list")
  end.

Definition item_at {A : Type} (l : list A) (i : nat) : M A :=
  match l !! i with
  | Some x => ret x
  | None => raise IndexError
  end.

(** [self.players[name]], read and assigned. *)
Definition hand_of (name : string) : M (list Card) :=
  ps ← gets players;
  match dict_get name ps with
  | Some h => ret h
  | None => raise (KeyError name)
  end.

Definition set_hand (name : string) (h : list Card) : M unit :=
  modify (λ s, set_players (dict_set name h (players s)) s).

(** The property [current_player]. *)
Definition current_player : M string :=
  active ← gets active_players;
  if decide (active = []) then
    po ← gets player_order; item_at po 0
  else
    idx ← gets current_player_idx;
    item_at active (idx mod length active).

Definition add_player (player_name : string) : M bool :=
  ps ← gets players;
  started ← gets game_started;
  if bool_decide (player_name ∈ dict_keys ps) || started then ret false else
  if 8 <=? length ps then ret false else
  set_hand player_name [] ;;
  modify (λ s, set_player_order (player_order s ++ [player_name]) s) ;;
  ret true.

Definition remove_player (player_name : string) : M unit :=
  ps ← gets players;
  if decide (player_name ∉ dict_keys ps) then ret tt else
  started ← gets game_started;
  if negb started then
    modify (λ s, set_players (dict_del player_name (players s)) s) ;;
    po ← gets player_order;
    match py_remove player_name po with
    | Some po' => modify (set_player_order po')
    | None => raise (ValueError "list.remove(x): x not in list")
    end
  else
    modify (λ s, set_connected_players (connected_players s ∖ {[player_name]}) s) ;;
    cp ← current_player;
    active ← gets active_players;
    if bool_decide (player_name = cp) && bool_decide (player_name ∈ active) then
      modify (set_waiting_for_player (Some player_name))
    else ret tt.

Definition can_rejoin (player_name : string) : M (bool * string) :=
  started ← gets game_started;
  if negb started then ret (false, "Game not started - use normal join") else
  done_ ← gets finished;
  if (done_ : bool) then ret (false, "Game is finished") else
  orig ← gets original_players;
  if decide (player_name ∉ orig) then ret (false, "You were not part of this game") else
  conn ← gets connected_players;
  if decide (player_name ∈ conn) then
    ret (false, "Player with this name is already connected")
  else ret (true, "OK").

(** The loop of [player_reconnected] that looks for the seat of the
    returning player among the active ones; [i] is the loop index. *)
Fixpoint insert_idx_loop (po : list string) (original_idx : nat)
    (active : list string) (i insert_idx : nat) : M nat :=
  match active with
  | [] => ret insert_idx
  | p :: rest =>
      pi ← index_of p po;
      if original_idx <? pi then ret insert_idx
      else insert_idx_loop po original_idx rest (S i) (S i)
  end.

Definition player_reconnected (player_name : string) : M unit :=
  modify (λ s, set_connected_players ({[player_name]} ∪ connected_players s) s) ;;
  ps ← gets players;
  (match dict_get player_name ps with
   | Some h =>
       if 0 <? length h then
         active ← gets active_players;
         if decide (player_name ∉ active) then
           po ← gets player_order;
           original_idx ← index_of player_name po;
           insert_idx ← insert_idx_loop po original_idx active 0 0;
           modify (λ s, set_active_players
                          (py_insert insert_idx player_name (active_players s)) s)
         else ret tt
       else ret tt
   | None => ret tt
   end) ;;
  w ← gets waiting_for_player;
  if decide (w = Some player_name) then
    active ← gets active_players;
    idx ← index_of player_name active;
    modify (set_current_player_idx idx) ;;
    modify (set_waiting_for_player None)
  else ret tt.

(** [for name in list(self.players.keys()): self.players[name] = []]. *)
Fixpoint clear_hands (names : list string) : M unit :=
  match names with
  | [] => ret tt
  | name :: rest => set_hand name [] ;; clear_hands rest
  end.

Definition reset_game : M unit :=
  ps ← gets players;
  clear_hands (dict_keys ps) ;;
  modify (set_active_players []) ;;
  modify (set_current_player_idx 0) ;;
  modify (set_current_pile []) ;;
  modify (set_current_suit None) ;;
  modify (set_original_suit None) ;;
  modify (set_game_started false) ;;
  modify (set_finished false) ;;
  modify (set_kazhutha None) ;;
  modify (set_winners []) ;;
  modify (set_discarded_cards []) ;;
  modify (set_round_in_progress false) ;;
  modify (set_last_action None) ;;
  modify (set_game_first_card_played false) ;;
  modify (set_resolved_pile []) ;;
  modify (set_resolved_winner None) ;;
  modify (set_suit_was_broken false) ;;
  modify (set_taken_hand_cards []) ;;
  modify (set_taken_hand_from None) ;;
  modify (set_taken_hand_by None) ;;
  modify (set_original_players []) ;;
  modify (set_waiting_for_player None).

(** The deck before shuffling: [for suit in Suit: for rank in Rank]. *)
Definition ordered_deck : list Card :=
  s ← Suit_members; r ← Rank_members; [mkCard s r].

(** The dealing loop of [start_game]; [i] is the index of [enumerate]. *)
Fixpoint deal (player_names : list string) (deck : list Card) (i : nat) : M unit :=
  match deck with
  | [] => ret tt
  | card :: rest =>
      name ← item_at player_names (i mod length player_names);
      h ← hand_of name;
      set_hand name (h ++ [card]) ;;
      deal player_names rest (S i)
  end.

(** [for player_name in self.players: self.players[player_name].sort(...)]. *)
Fixpoint sort_hands (names : list string) : M unit :=
  match names with
  | [] => ret tt
  | name :: rest =>
      h ← hand_of name;
      set_hand name (sort_hand h) ;;
      sort_hands rest
  end.

(** The search for the holder of the Ace of Spades, with its [break]. *)
Fixpoint find_ace_holder (order : list string) (i : nat) : M unit :=
  match order with
  | [] => ret tt
  | player_name :: rest =>
      h ← hand_of player_name;
      if decide (ace_of_spades ∈ h) then modify (set_current_player_idx i)
      else find_ace_holder rest (S i)
  end.

(** [start_game] once [_create_deck] has returned [deck]. *)
Definition start_game_with (deck : list Card) : M unit :=
  ps ← gets players;
  if length ps <? 2 then raise (ValueError "Need at least 2 players") else
  deal (dict_keys ps) deck 0 ;;
  ps ← gets players;
  sort_hands (dict_keys ps) ;;
  modify (λ s, set_active_players (player_order s) s) ;;
  po ← gets player_order;
  find_ace_holder po 0 ;;
  modify (set_game_started true) ;;
  modify (set_game_first_card_played false) ;;
  modify (λ s, set_original_players (player_order s) s) ;;
  modify (λ s, set_connected_players (list_to_set (player_order s)) s).

Definition get_player_on_left (player_name : string) : M (option string) :=
  active ← gets active_players;
  if decide (player_name ∉ active) then ret None else
  idx ← index_of player_name active;
  left_player ← item_at active ((idx + 1) mod length active);
  if decide (left_player = player_name) then ret None else ret (Some left_player).

(** [players_with_cards] of [_check_game_over], a list comprehension. *)
Fixpoint players_with_cards (active : list string) : M (list string) :=
  match active with
  | [] => ret []
  | p :: rest =>
      h ← hand_of p;
      more ← players_with_cards rest;
      ret (if 0 <? length h then p :: more else more)
  end.

Definition _check_game_over : M unit :=
  active ← gets active_players;
  pwc ← players_with_cards active;
  match pwc with
  | [k] =>
      modify (set_finished true) ;;
      modify (set_kazhutha (Some k)) ;;
      modify (set_last_action (Some (k +:+ " is the Kazhutha!")))
  | [] => modify (set_finished true)
  | _ => ret tt
  end.

(** The loop of [_check_for_winners] over a copy of [active_players]. *)
Fixpoint check_for_winners_loop (names : list string) : M unit :=
  match names with
  | [] => ret tt
  | player_name :: rest =>
      h ← hand_of player_name;
      ws ← gets winners;
      (if (length h =? 0) && bool_decide (player_name ∉ ws) then
         modify (λ s, set_winners (winners s ++ [player_name]) s) ;;
         active ← gets active_players;
         match py_remove player_name active with
         | Some active' => modify (set_active_players active')
         | None => raise (ValueError "list.remove(x): x not in list")
         end
       else ret tt) ;;
      check_for_winners_loop rest
  end.

Definition _check_for_winners : M unit :=
  active ← gets active_players;
  check_for_winners_loop active.

Definition _advance_to_next_active_player : M unit :=
  active ← gets active_players;
  if decide (active = []) then ret tt else
  cp ← current_player;
  if decide (cp ∈ active) then
    current_idx ← index_of cp active;
    modify (set_current_player_idx ((current_idx + 1) mod length active))
  else modify (set_current_player_idx 0).

(** The two loops of [_resolve_round] over the pile. *)
Fixpoint give_pile (winning_player : string) (pile : list (string * Card)) : M unit :=
  match pile with
  | [] => ret tt
  | (_, card) :: rest =>
      h ← hand_of winning_player;
      set_hand winning_player (h ++ [card]) ;;
      give_pile winning_player rest
  end.

Fixpoint discard_pile (pile : list (string * Card)) : M unit :=
  match pile with
  | [] => ret tt
  | (_, card) :: rest =>
      modify (λ s, set_discarded_cards (discarded_cards s ++ [card]) s) ;;
      discard_pile rest
  end.

(** The search for the next active player clockwise from the seat of a
    round winner who has left; [steps] is [range(1, len(player_order))]. *)
Fixpoint next_active_loop (winner_original_idx : nat) (steps : list nat) : M unit :=
  match steps with
  | [] => ret tt
  | i :: rest =>
      po ← gets player_order;
      next_player ← item_at po ((winner_original_idx + i) mod length po);
      active ← gets active_players;
      if decide (next_player ∈ active) then
        idx ← index_of next_player active;
        modify (set_current_player_idx idx)
      else next_active_loop winner_original_idx rest
  end.

Definition _resolve_round (suit_broken : bool) : M unit :=
  pile ← gets current_pile;
  if decide (pile = []) then ret tt else
  osuit ← gets original_suit;
  let original_suit_cards := filter (λ x, Some (suit x.2) = osuit) pile in
  match py_max (λ x, value x.2) original_suit_cards with
  | None => raise (ValueError "max() arg is an empty sequence")
  | Some winning_play =>
      let winning_player := winning_play.1 in
      modify (set_resolved_pile pile) ;;
      modify (set_resolved_winner (Some winning_player)) ;;
      modify (set_suit_was_broken suit_broken) ;;
      (if suit_broken then
         give_pile winning_player pile ;;
         h ← hand_of winning_player;
         set_hand winning_player (sort_hand h) ;;
         modify (set_last_action (Some (winning_player +:+ " picks up the pile!")))
       else
         discard_pile pile ;;
         modify (set_last_action
                   (Some ("Cards discarded - " +:+ winning_player +:+ " leads next!")))) ;;
      modify (set_current_pile []) ;;
      modify (set_current_suit None) ;;
      modify (set_original_suit None) ;;
      modify (set_round_in_progress false) ;;
      _check_for_winners ;;
      active ← gets active_players;
      (if decide (winning_player ∈ active) then
         idx ← index_of winning_player active;
         modify (set_current_player_idx idx)
       else
         po ← gets player_order;
         winner_original_idx ← index_of winning_player po;
         next_active_loop winner_original_idx (seq 1 (length po - 1))) ;;
      _check_game_over
  end.

Definition take_hand_from_left (player_name : string)
    : M (bool * string * option string) :=
  started ← gets game_started;
  done_ ← gets finished;
  if negb started || done_ then ret (false, "Game not in progress", None) else
  rip ← gets round_in_progress;
  pile ← gets current_pile;
  if rip && (0 <? length pile) then
    ret (false, "Cannot take hand during a round", None) else
  active ← gets active_players;
  if decide (player_name ∉ active) then
    ret (false, "You are not an active player", None) else
  cp ← current_player;
  if decide (player_name ≠ cp) then
    ret (false, "You can only take hand on your turn", None) else
  left ← get_player_on_left player_name;
  match left with
  | None | Some EmptyString => ret (false, "No player to take from", None)
  | Some left_player =>
      lh ← hand_of left_player;
      if length lh =? 0 then ret (false, "That player has no cards", None) else
      taken_cards ← hand_of left_player;
      h ← hand_of player_name;
      set_hand player_name (h ++ taken_cards) ;;
      set_hand left_player [] ;;
      modify (set_taken_hand_cards taken_cards) ;;
      modify (set_taken_hand_from (Some left_player)) ;;
      modify (set_taken_hand_by (Some player_name)) ;;
      h ← hand_of player_name;
      set_hand player_name (sort_hand h) ;;
      modify (λ s, set_winners (winners s ++ [left_player]) s) ;;
      active ← gets active_players;
      match py_remove left_player active with
      | None => raise (ValueError "list.remove(x): x not in list")
      | Some active' =>
          modify (set_active_players active') ;;
          _check_game_over ;;
          active ← gets active_players;
          (if decide (player_name ∈ active) then
             idx ← index_of player_name active;
             modify (set_current_player_idx idx)
           else ret tt) ;;
          modify (set_resolved_pile []) ;;
          modify (set_resolved_winner None) ;;
          modify (set_last_action
                    (Some (player_name +:+ " took " +:+ left_player +:+ "'s hand!"))) ;;
          ret (true,
               "Took " +:+ pretty (length taken_cards) +:+ " cards from " +:+ left_player,
               Some left_player)
      end
  end.

(** [Card(Suit(card_dict['suit']), Rank(card_dict['rank']))]. *)
Definition card_of_dict (card_dict : list (string * string)) : M Card :=
  match dict_get "suit" card_dict with
  | None => raise (KeyError "suit")
  | Some sv =>
      match Suit_of_value sv with
      | None => raise (ValueError ("'" +:+ sv +:+ "' is not a valid Suit"))
      | Some st =>
          match dict_get "rank" card_dict with
          | None => raise (KeyError "rank")
          | Some rv =>
              match Rank_of_value rv with
              | None => raise (ValueError ("'" +:+ rv +:+ "' is not a valid Rank"))
              | Some rk => ret (mkCard st rk)
              end
          end
      end
  end.

(** The part of [play_card] after the checks: the card leaves the hand,
    joins the pile, and the round is resolved or the turn passes. *)
Definition play_accepted (player_name : string) (card : Card) : M (bool * option string) :=
  player_hand ← hand_of player_name;
  match py_remove card player_hand with
  | None => raise (ValueError "list.remove(x): x not in list")
  | Some hand' =>
      set_hand player_name hand' ;;
      modify (λ s, set_current_pile (current_pile s ++ [(player_name, card)]) s) ;;
      modify (set_last_action
                (Some (player_name +:+ " played " +:+ Rank_value (rank card)
                         +:+ " of " +:+ Suit_value (suit card)))) ;;
      osuit ← gets original_suit;
      (if decide (Some (suit card) ≠ osuit) then _resolve_round true
       else
         pile ← gets current_pile;
         active ← gets active_players;
         let players_who_played := remove_dups pile.*1 in
         if length players_who_played =? length active then _resolve_round false
         else _advance_to_next_active_player) ;;
      ret (true, None)
  end.

Definition play_card (player_name : string) (card_dict : list (string * string))
    : M (bool * option string) :=
  started ← gets game_started;
  done_ ← gets finished;
  if negb started || done_ then ret (false, Some "Game not in progress") else
  cp ← current_player;
  if decide (player_name ≠ cp) then ret (false, Some "Not your turn") else
  active ← gets active_players;
  if decide (player_name ∉ active) then
    ret (false, Some "You are not an active player") else
  card ← card_of_dict card_dict;
  player_hand ← hand_of player_name;
  if decide (card ∉ player_hand) then ret (false, Some "Card not in your hand") else
  first_played ← gets game_first_card_played;
  if negb first_played && bool_decide (suit card ≠ SPADES ∨ rank card ≠ ACE) then
    ret (false, Some "First card must be Ace of Spades") else
  (if negb first_played then modify (set_game_first_card_played true) else ret tt) ;;
  pile ← gets current_pile;
  (if decide (pile = []) then
     modify (set_original_suit (Some (suit card))) ;;
     modify (set_current_suit (Some (suit card))) ;;
     modify (set_round_in_progress true) ;;
     modify (set_resolved_pile []) ;;
     modify (set_resolved_winner None) ;;
     modify (set_taken_hand_cards []) ;;
     modify (set_taken_hand_from None) ;;
     modify (set_taken_hand_by None)
   else ret tt) ;;
  csuit ← gets current_suit;
  match csuit with
  | Some cs =>
      let has_suit := bool_decide (Exists (λ c, suit c = cs) player_hand) in
      if has_suit && bool_decide (suit card ≠ cs) then
        ret (false, Some ("You must play a " +:+ Suit_value cs))
      else play_accepted player_name card
  | None => play_accepted player_name card
  end.

(** ** Vocabulary of the properties *)

(** The cards a player holds; no cards for a name that is not a member. *)
Definition cards_of (p : string) (s : GameSession) : list Card :=
  default [] (dict_get p (players s)).

(** The test of [_check_for_winners] on a player, against the winners
    recorded in [s]. *)
Definition leaves (s : GameSession) (p : string) : Prop :=
  length (cards_of p s) = 0 ∧ p ∉ winners s.

#[global] Instance leaves_dec s p : Decision (leaves s p).
Proof. unfold leaves. apply _. Defined.

(** What [_check_game_over] decides from the active players who hold
    cards: the new values of [finished] and [kazhutha]. *)
Definition game_over_outcome (s : GameSession) (f : bool) (k : option string) : Prop :=
  match filter (λ p, 0 < length (cards_of p s)) (active_players s) with
  | [] => f = true ∧ k = kazhutha s
  | [x] => f = true ∧ k = Some x
  | _ => f = finished s ∧ k = kazhutha s
  end.

(** The stages of [_resolve_round] once the round winner [w] is known:
    the pile goes to the winner or to the discard pile, the round is
    cleared, the players without cards are retired. *)
Definition settle_pile (suit_broken : bool) (w : string) (s : GameSession) : GameSession :=
  let s1 := set_suit_was_broken suit_broken
              (set_resolved_winner (Some w) (set_resolved_pile (current_pile s) s)) in
  if suit_broken then
    set_last_action (Some (w +:+ " picks up the pile!"))
      (set_players
         (dict_set w (sort_hand (cards_of w s ++ (current_pile s).*2)) (players s)) s1)
  else
    set_last_action (Some ("Cards discarded - " +:+ w +:+ " leads next!"))
      (set_discarded_cards (discarded_cards s ++ (current_pile s).*2) s1).

Definition clear_round (s : GameSession) : GameSession :=
  set_round_in_progress false
    (set_original_suit None (set_current_suit None (set_current_pile [] s))).

Definition retire_winners (s : GameSession) : GameSession :=
  set_active_players (filter (λ p, ¬ leaves s p) (active_players s))
    (set_winners (winners s ++ filter (leaves s) (active_players s)) s).

(** The session [_resolve_round] leaves: the three stages, then the turn
    index [idx] and what [_check_game_over] recorded. *)
Definition resolved (suit_broken : bool) (w : string) (idx : nat) (f : bool)
    (k a : option string) (s : GameSession) : GameSession :=
  set_last_action a (set_kazhutha k (set_finished f
    (set_current_player_idx idx
       (retire_winners (clear_round (settle_pile suit_broken w s)))))).

(** The stages of an accepted [play_card]: the one-shot flag and the
    opening of a round when the pile is empty, then the card moving from
    the hand of [p] to the pile. *)
Definition round_opened (c : Card) (s : GameSession) : GameSession :=
  let s1 := if game_first_card_played s then s
            else set_game_first_card_played true s in
  if decide (current_pile s = []) then
    set_taken_hand_by None (set_taken_hand_from None (set_taken_hand_cards []
      (set_resolved_winner None (set_resolved_pile []
        (set_round_in_progress true
          (set_current_suit (Some (suit c)) (set_original_suit (Some (suit c)) s1)))))))
  else s1.

Definition card_played (p : string) (c : Card) (s : GameSession) : GameSession :=
  set_last_action
    (Some (p +:+ " played " +:+ Rank_value (rank c) +:+ " of " +:+ Suit_value (suit c)))
    (set_current_pile (current_pile s ++ [(p, c)])
       (set_players
          (dict_set p (default [] (py_remove c (cards_of p s))) (players s)) s)).

(** The session of [take_hand_from_left] when [p] has taken the hand of
    [lp], before [_check_game_over]. *)
Definition hand_taken (p lp : string) (s : GameSession) : GameSession :=
  set_active_players (filter (λ q, q ≠ lp) (active_players s))
    (set_winners (winners s ++ [lp])
       (set_players
          (dict_set p (sort_hand (cards_of p s ++ cards_of lp s))
             (dict_set lp [] (dict_set p (cards_of p s ++ cards_of lp s) (players s))))
          (set_taken_hand_by (Some p) (set_taken_hand_from (Some lp)
             (set_taken_hand_cards (cards_of lp s) s))))).

(** All the cards of the session: the hands, the discard pile and the
    pile of the round in progress. *)
Definition cards_in_hands (s : GameSession) : list Card :=
  concat (dict_values (players s)).

Definition cards_in_game (s : GameSession) : list Card :=
  cards_in_hands s ++ discarded_cards s ++ (current_pile s).*2.

Definition conserved (s : GameSession) : Prop := cards_in_game s ≡ₚ ordered_deck.

(** The invariant of the sessions the methods can produce. *)
Record inv (s : GameSession) : Prop := mk_inv {
  inv_keys : NoDup (dict_keys (players s));
  inv_order : player_order s = dict_keys (players s);
  inv_active_nodup : NoDup (active_players s);
  inv_active : ∀ p, p ∈ active_players s → p ∈ player_order s;
  inv_pile : ∀ p c, (p, c) ∈ current_pile s → p ∈ active_players s;
  inv_benched : ∀ p h, dict_get p (players s) = Some h → p ∉ active_players s → h = [];
  inv_round : ∀ p c rest, current_pile s = (p, c) :: rest →
    round_in_progress s = true ∧ original_suit s = Some (suit c)
    ∧ current_suit s = Some (suit c);
  inv_lobby : game_started s = false →
    active_players s = [] ∧ current_pile s = [] ∧ discarded_cards s = []
}.

(** The four operations that follow the start of a game, and the session
    each leaves behind, whether it returns or raises. *)
Inductive Move : Type :=
  | Move_play_card (player_name : string) (card_dict : list (string * string))
  | Move_take_hand_from_left (player_name : string)
  | Move_remove_player (player_name : string)
  | Move_player_reconnected (player_name : string).

Definition after_move (m : Move) (s : GameSession) : GameSession :=
  match m with
  | Move_play_card p cd => final (play_card p cd s)
  | Move_take_hand_from_left p => final (take_hand_from_left p s)
  | Move_remove_player p => final (remove_player p s)
  | Move_player_reconnected p => final (player_reconnected p s)
  end.

Definition move_step (s s' : GameSession) : Prop := ∃ m, s' = after_move m s.

(** The opening of a two-player game: it is the turn of [a], who was
    dealt the Ace of Spades among 26 cards; [b] was dealt the other 26,
    none of them a spade, and [c] is one of them. *)
Record opening (s : GameSession) (a b : string) (ha hb : list Card) (c : Card)
    : Prop := mk_opening {
  opening_started : game_started s = true;
  opening_not_finished : finished s = false;
  opening_no_card_yet : game_first_card_played s = false;
  opening_no_pile : current_pile s = [];
  opening_two : a ≠ b;
  opening_active : active_players s = [a; b] ∨ active_players s = [b; a];
  opening_hand_a : dict_get a (players s) = Some ha;
  opening_hand_b : dict_get b (players s) = Some hb;
  opening_turn : current_player s = Ok a s;
  opening_ace : ace_of_spades ∈ ha;
  opening_count_a : length ha = 26;
  opening_count_b : length hb = 26;
  opening_no_spade : Forall (λ d, suit d ≠ SPADES) hb;
  opening_card : c ∈ hb
}.

(** What the two plays of the opening lead to; [n] is the number of
    cards [a] ends with. *)
Definition opening_outcome (n : nat) (s : GameSession) (a b : string)
    (ha hb : list Card) (c : Card) : Prop :=
  ∃ s1 s2 ha2 hb2,
    play_card a (to_dict ace_of_spades) s = Ok (true, None) s1
    ∧ original_suit s1 = Some SPADES
    ∧ current_pile s1 = [(a, ace_of_spades)]
    ∧ play_card b (to_dict c) s1 = Ok (true, None) s2
    ∧ suit_was_broken s2 = true
    ∧ resolved_pile s2 = [(a, ace_of_spades); (b, c)]
    ∧ resolved_winner s2 = Some a
    ∧ current_pile s2 = []
    ∧ dict_get a (players s2) = Some ha2
    ∧ ha2 ≡ₚ c :: ha
    ∧ length ha2 = n
    ∧ dict_get b (players s2) = Some hb2
    ∧ length hb2 = 25
    ∧ current_player s2 = Ok a s2.

(** A concrete opening: "A" and "B" in the lobby, and a deck whose
    round-robin deal gives "A" the spades and the diamonds, "B" the hearts
    and the clubs. *)
Definition two_player_lobby : GameSession :=
  final (add_player "B" (new_session "GAME01" "A")).

Fixpoint interleave (l1 l2 : list Card) : list Card :=
  match l1, l2 with
  | x :: l1', y :: l2' => x :: y :: interleave l1' l2'
  | _, _ => l1 ++ l2
  end.

Definition opening_deck : list Card :=
  interleave ((mkCard SPADES <$> Rank_members) ++ (mkCard DIAMONDS <$> Rank_members))
             ((mkCard HEARTS <$> Rank_members) ++ (mkCard CLUBS <$> Rank_members)).

Definition opening_session : GameSession :=
  final (start_game_with opening_deck two_player_lobby).

(** ** Shuffling and [start_game] *)

Section Shuffle.
(** The state of the module [random] and [random.shuffle] on a deck. *)
Variable Rng : Type.
Variable shuffle : Rng → list Card → list Card * Rng.

(** [for _ in range(n): random.shuffle(deck)]. *)
Fixpoint shuffle_times (n : nat) (g : Rng) (deck : list Card) : list Card * Rng :=
  match n with
  | 0 => (deck, g)
  | S n' => let '(deck', g') := shuffle g deck in shuffle_times n' g' deck'
  end.

Definition _create_deck (g : Rng) : list Card := (shuffle_times 7 g ordered_deck).1.

Definition start_game (g : Rng) : M unit := start_game_with (_create_deck g).

(** Every call of a method of the session. *)
Inductive Call : Type :=
  | Call_add_player (player_name : string)
  | Call_remove_player (player_name : string)
  | Call_player_reconnected (player_name : string)
  | Call_reset_game
  | Call_start_game (g : Rng)
  | Call_take_hand_from_left (player_name : string)
  | Call_play_card (player_name : string) (card_dict : list (string * string)).

Definition after_call (c : Call) (s : GameSession) : GameSession :=
  match c with
  | Call_add_player p => final (add_player p s)
  | Call_remove_player p => final (remove_player p s)
  | Call_player_reconnected p => final (player_reconnected p s)
  | Call_reset_game => final (reset_game s)
  | Call_start_game g => final (start_game g s)
  | Call_take_hand_from_left p => final (take_hand_from_left p s)
  | Call_play_card p cd => final (play_card p cd s)
  end.

(** The sessions that exist: a new one, and any session a method call
    leaves behind. *)
Inductive reachable : GameSession → Prop :=
  | reachable_new game_id host_name : reachable (new_session game_id host_name)
  | reachable_call c s : reachable s → reachable (after_call c s).
End Shuffle.

(** Concrete sessions on which the properties are exercised: the deck
    left in order by a shuffle that moves no card, dealt to "A" and "B";
    and the concrete opening after "A" has played the Ace of Spades. *)
Definition no_shuffle (g : unit) (deck : list Card) : list Card * unit := (deck, g).

Definition plain_session : GameSession :=
  final (start_game unit no_shuffle tt two_player_lobby).

Definition opened_session : GameSession :=
  final (play_card "A" (to_dict ace_of_spades) opening_session).

(** ** The view of the session sent to a player: [get_state]

    The dict [get_state] returns has a fixed set of keys, and the key
    'your_hand' only for a member of the session: it is a record, with
    [your_hand] optional.  The inner dicts of the lists 'players' and
    'current_pile' are records as well. *)

Module State.

Record entry : Type := mk_entry {
  name : string;
  card_count : nat;
  is_host : bool;
  is_active : bool;
  is_winner : bool;
  is_kazhutha : bool;
  is_connected : bool
}.

Record play : Type := mk_play {
  player : string;
  card : list (string * string)
}.

Record t : Type := mk {
  game_id : string;
  players : list entry;
  player_order : list string;
  active_players : list string;
  current_player : option string;
  current_suit : option string;
  current_pile : list play;
  game_state : string;
  kazhutha : option string;
  winners : list string;
  last_action : option string;
  can_take_from_left : option string;
  round_in_progress : bool;
  discarded_count : nat;
  resolved_pile : list play;
  resolved_winner : option string;
  suit_was_broken : bool;
  taken_hand_cards : list (list (string * string));
  taken_hand_from : option string;
  taken_hand_by : option string;
  waiting_for_player : option string;
  your_hand : option (list (list (string * string)))
}.

End State.

(** The first statement of [get_state]: whom [player_name] may take the
    hand of.  [None] and the empty string are false in a condition. *)
Definition can_take_from_left (player_name : option string) : M (option string) :=
  match player_name with
  | None | Some EmptyString => ret None
  | Some p =>
      active ← gets active_players;
      if decide (p ∉ active) then ret None else
      cp ← current_player;
      if decide (p ≠ cp) then ret None else
      started ← gets game_started;
      done_ ← gets finished;
      in_round ← gets round_in_progress;
      if negb started || (done_ : bool) || (in_round : bool) then ret None else
      left_player ← get_player_on_left p;
      match left_player with
      | None | Some EmptyString => ret None
      | Some lp =>
          ps ← gets players;
          if 0 <? length (default [] (dict_get lp ps)) then ret (Some lp)
          else ret None
      end
  end.

Definition player_entry (s : GameSession) (x : string * list Card) : State.entry :=
  {| State.name := x.1;
     State.card_count := length x.2;
     State.is_host := bool_decide (x.1 = host_name s);
     State.is_active := bool_decide (x.1 ∈ active_players s);
     State.is_winner := bool_decide (x.1 ∈ winners s);
     State.is_kazhutha := bool_decide (Some x.1 = kazhutha s);
     State.is_connected := bool_decide (x.1 ∈ connected_players s) |}.

Definition pile_entry (x : string * Card) : State.play :=
  {| State.player := x.1; State.card := to_dict x.2 |}.

(** The hand shown to [player_name]: the key 'your_hand' is set for a
    member of the session only. *)
Definition hand_shown (player_name : option string) (s : GameSession)
    : option (list (list (string * string))) :=
  match player_name with
  | None | Some EmptyString => None
  | Some p => (λ h : list Card, to_dict <$> h) <$> dict_get p (players s)
  end.

Definition get_state (player_name : option string) : M State.t :=
  can_take ← can_take_from_left player_name;
  active ← gets active_players;
  cur ← (if decide (active = []) then ret None
         else cp ← current_player; ret (Some cp));
  gets (λ s,
    {| State.game_id := game_id s;
       State.players := player_entry s <$> players s;
       State.player_order := player_order s;
       State.active_players := active_players s;
       State.current_player := cur;
       State.current_suit := Suit_value <$> current_suit s;
       State.current_pile := pile_entry <$> current_pile s;
       State.game_state :=
         if finished s then "FINISHED"
         else if game_started s then "PLAYING" else "WAITING";
       State.kazhutha := kazhutha s;
       State.winners := winners s;
       State.last_action := last_action s;
       State.can_take_from_left := can_take;
       State.round_in_progress := round_in_progress s;
       State.discarded_count := length (discarded_cards s);
       State.resolved_pile := pile_entry <$> resolved_pile s;
       State.resolved_winner := resolved_winner s;
       State.suit_was_broken := suit_was_broken s;
       State.taken_hand_cards := to_dict <$> taken_hand_cards s;
       State.taken_hand_from := taken_hand_from s;
       State.taken_hand_by := taken_hand_by s;
       State.waiting_for_player := waiting_for_player s;
       State.your_hand := hand_shown player_name s |}).

(** ** Further vocabulary *)

(** What the sessions the methods produce satisfy besides [inv]: a
    session has at most eight members, a started game has at least two
    seats, and a round in progress has a card on the pile. *)
Record inv_play (s : GameSession) : Prop := mk_inv_play {
  inv_capacity : length (player_order s) ≤ 8;
  inv_seats : game_started s = true → 2 ≤ length (player_order s);
  inv_in_round : round_in_progress s = true → current_pile s ≠ []
}.

(** The order [sort_hand] puts a hand in: [c] may come before [d]. *)
Definition key_le (c d : Card) : Prop := key_lt (sort_key d) (sort_key c) = false.

Fixpoint hand_sorted (h : list Card) : Prop :=
  match h with
  | [] => True
  | c :: h' => Forall (key_le c) h' ∧ hand_sorted h'
  end.

Definition hands_sorted (s : GameSession) : Prop :=
  ∀ p h, dict_get p (players s) = Some h → hand_sorted h.

(** Two [players] dicts that show the same to [p]: the same names in the
    same order with hands of the same sizes, and the same hand for [p]. *)
Definition same_view (p : option string) (d d' : list (string * list Card)) : Prop :=
  (λ x, (x.1, length x.2)) <$> d = (λ x, (x.1, length x.2)) <$> d'
  ∧ ∀ q, p = Some q → dict_get q d = dict_get q d'.

(** What a move of the game leaves alone: the session and its host, the
    members and their seats, whether the game has started, and who is
    connected or waited for. *)
Record same_table (s s' : GameSession) : Prop := mk_same_table {
  table_game_id : game_id s' = game_id s;
  table_host_name : host_name s' = host_name s;
  table_player_order : player_order s' = player_order s;
  table_members : dict_keys (players s') = dict_keys (players s);
  table_game_started : game_started s' = game_started s;
  table_original_players : original_players s' = original_players s;
  table_connected_players : connected_players s' = connected_players s;
  table_waiting_for_player : waiting_for_player s' = waiting_for_player s
}.

(** The conditions under which [get_state] tells [p] that the hand of
    [q] can be taken. *)
Definition may_take (p q : string) (s : GameSession) : Prop :=
  p ≠ EmptyString ∧ p ∈ active_players s ∧ current_player s = Ok p s
  ∧ game_started s = true ∧ finished s = false ∧ round_in_progress s = false
  ∧ get_player_on_left p s = Ok (Some q) s ∧ q ≠ EmptyString
  ∧ cards_of q s ≠ [].

(** How many of [m] cards dealt one by one to [n] seats go to seat [j],
    when the first of them goes to seat [i mod n]. *)
Fixpoint dealt_count (n j i m : nat) : nat :=
  match m with
  | 0 => 0
  | S m' => (if decide (i mod n = j) then 1 else 0) + dealt_count n j (S i) m'
  end.

(** The share of seat [j] when [m] cards are dealt to [n] seats from
    seat 0 on. *)
Definition even_share (n j m : nat) : nat :=
  m / n + (if decide (j < m mod n) then 1 else 0).

(** The place of a card in the order of the hands: the suits in the
    order of their names (CLUBS, DIAMONDS, HEARTS, SPADES), and within a
    suit the higher card first. *)
Definition suit_place (s : Suit) : Z :=
  match s with CLUBS => 0 | DIAMONDS => 1 | HEARTS => 2 | SPADES => 3 end.

Definition card_place (c : Card) : Z := (suit_place (suit c) * 100 - value c)%Z.

(** Further concrete sessions: the concrete opening played on while "A",
    whose turn it is, is disconnected: "A" leads the Ace of Spades, "B"
    breaks the suit, "A" picks up and leads the 2 of HEARTS, "B" takes
    the round with the 3 and then the hand of "A"; the session still
    waits for "A", who is no longer active.  And the hands of the
    concrete opening with the hand of "B" turned over. *)
Definition awaited_gone_session : GameSession :=
  final (take_hand_from_left "B"
    (final (play_card "B" (to_dict (mkCard HEARTS THREE))
      (final (play_card "A" (to_dict (mkCard HEARTS TWO))
        (final (play_card "B" (to_dict (mkCard HEARTS TWO))
          (final (play_card "A" (to_dict ace_of_spades)
            (final (remove_player "A" opening_session))))))))))).

Definition other_hands : list (string * list Card) :=
  dict_set "B" (reverse (cards_of "B" opening_session)) (players opening_session).

Definition finished_session : GameSession :=
  final (take_hand_from_left "A" opening_session).

(** * Properties *)

(** ** Python containers *)

Section ContainerFacts.
Context {A : Type} `{EqDecision A}.
Implicit Types (x y : A) (l : list A).

Lemma py_index_lookup x l i : py_index x l = Some i → l !! i = Some x.
Proof.
  revert i. induction l as [|y l IH]; intros i; simpl; [done|].
  destruct (decide (y = x)) as [->|Hne].
  - by intros [= <-].
  - destruct (py_index x l) as [j|]; simpl; [|done].
    intros [= <-]. simpl. by apply IH.
Qed.

Lemma py_index_None x l : py_index x l = None ↔ x ∉ l.
Proof.
  induction l as [|y l IH]; simpl.
  - split; [intros _; apply not_elem_of_nil|done].
  - destruct (decide (y = x)) as [->|Hne].
    + split; [done|]. intros []. left.
    + rewrite not_elem_of_cons, <- IH.
      destruct (py_index x l); simpl; naive_solver.
Qed.

Lemma py_index_elem x l : x ∈ l → ∃ i, py_index x l = Some i ∧ l !! i = Some x.
Proof.
  intros Hin. destruct (py_index x l) as [i|] eqn:Hi.
  - exists i. split; [done|]. by apply py_index_lookup.
  - by apply py_index_None in Hi.
Qed.

Lemma py_remove_None x l : py_remove x l = None ↔ x ∉ l.
Proof.
  induction l as [|y l IH]; simpl.
  - split; [intros _; apply not_elem_of_nil|done].
  - destruct (decide (y = x)) as [->|Hne].
    + split; [done|]. intros []. left.
    + rewrite not_elem_of_cons, <- IH.
      destruct (py_remove x l); simpl; naive_solver.
Qed.

Lemma py_remove_elem x l : x ∈ l → ∃ l', py_remove x l = Some l'.
Proof.
  intros Hin. destruct (py_remove x l) as [l'|] eqn:Hr; [by exists l'|].
  by apply py_remove_None in Hr.
Qed.

Lemma py_remove_perm x l l' : py_remove x l = Some l' → l ≡ₚ x :: l'.
Proof.
  revert l'. induction l as [|y l IH]; intros l'; simpl; [done|].
  destruct (decide (y = x)) as [->|Hne].
  - by intros [= <-].
  - destruct (py_remove x l) as [l2|]; simpl; [|done].
    intros [= <-]. rewrite (IH l2 eq_refl). apply Permutation_swap.
Qed.

Lemma py_remove_length x l l' : py_remove x l = Some l' → length l = S (length l').
Proof. intros Hr. by rewrite (py_remove_perm _ _ _ Hr). Qed.

Lemma py_remove_NoDup x l l' :
  NoDup l → py_remove x l = Some l' → NoDup l' ∧ x ∉ l'.
Proof.
  intros Hnd Hr. rewrite (py_remove_perm _ _ _ Hr) in Hnd.
  apply NoDup_cons in Hnd. tauto.
Qed.

Lemma py_remove_elem_of x y l l' :
  py_remove x l = Some l' → y ∈ l' → y ∈ l.
Proof. intros Hr Hy. rewrite (py_remove_perm _ _ _ Hr). by right. Qed.

Lemma py_remove_elem_of_ne x y l l' :
  py_remove x l = Some l' → y ∈ l → y ≠ x → y ∈ l'.
Proof.
  intros Hr Hy Hne. rewrite (py_remove_perm _ _ _ Hr) in Hy.
  apply elem_of_cons in Hy as [?|?]; done.
Qed.

Lemma py_remove_filter x l :
  NoDup l → x ∈ l → py_remove x l = Some (filter (λ y, y ≠ x) l).
Proof.
  induction l as [|y l IH]; intros Hnd Hin; [by apply elem_of_nil in Hin|].
  apply NoDup_cons in Hnd as [Hy Hnd]. simpl.
  destruct (decide (y = x)) as [->|Hne].
  - rewrite filter_cons_False by (by intros ?). f_equal. symmetry.
    clear IH Hin Hnd. induction l as [|z l IH]; [done|].
    apply not_elem_of_cons in Hy as [Hz Hy].
    rewrite filter_cons_True by done. f_equal. by apply IH.
  - apply elem_of_cons in Hin as [->|Hin]; [done|].
    rewrite (IH Hnd Hin). simpl. by rewrite filter_cons_True.
Qed.
End ContainerFacts.

Lemma py_max_None {A} (key : A → Z) l : py_max key l = None ↔ l = [].
Proof.
  destruct l as [|x l]; simpl; [done|].
  destruct (py_max key l) as [m|]; [|done]. by destruct (key x <? key m)%Z.
Qed.

Lemma py_max_spec {A} (key : A → Z) l m :
  py_max key l = Some m → m ∈ l ∧ ∀ x, x ∈ l → (key x ≤ key m)%Z.
Proof.
  revert m. induction l as [|x l IH]; intros m; simpl; [done|].
  destruct (py_max key l) as [m'|] eqn:Hm.
  - destruct (IH m' eq_refl) as [Hin Hle].
    destruct (Z.ltb_spec (key x) (key m')); intros [= <-].
    + split; [by right|]. intros y [->|Hy]%elem_of_cons; [lia|by apply Hle].
    + split; [left|]. intros y [->|Hy]%elem_of_cons; [lia|].
      specialize (Hle y Hy). lia.
  - apply py_max_None in Hm as ->. intros [= <-]. split; [left|].
    intros y [->|Hy]%elem_of_cons; [lia|]. by apply elem_of_nil in Hy.
Qed.

Lemma filter_ext_in {A} (P Q : A → Prop) `{!∀ x, Decision (P x), !∀ x, Decision (Q x)} (l : list A) :
  (∀ x, x ∈ l → P x ↔ Q x) → filter P l = filter Q l.
Proof.
  induction l as [|x l IH]; intros Hext; [done|].
  rewrite !filter_cons, IH by (intros; apply Hext; by right).
  destruct (decide (P x)) as [HP|HP].
  - rewrite decide_True; [done|]. apply Hext; [left|done].
  - rewrite decide_False; [done|]. intros HQ. apply HP, Hext; [left|done].
Qed.

Lemma filter_all {A} (P : A → Prop) `{!∀ x, Decision (P x)} (l : list A) :
  (∀ x, x ∈ l → P x) → filter P l = l.
Proof.
  induction l as [|x l IH]; intros HP; [done|].
  rewrite filter_cons_True by (apply HP; left). f_equal.
  apply IH. intros. apply HP. by right.
Qed.

Lemma elem_of_concat {A} (x : A) (ls : list (list A)) :
  x ∈ concat ls ↔ ∃ l, x ∈ l ∧ l ∈ ls.
Proof.
  induction ls as [|l ls IH]; simpl.
  - split; [by intros ?%elem_of_nil|]. intros (l & _ & Hl). by apply elem_of_nil in Hl.
  - rewrite elem_of_app, IH. split.
    + intros [Hx|(l' & Hx & Hl')]; [exists l; split; [done|left]|].
      exists l'. split; [done|by right].
    + intros (l' & Hx & [->|Hl']%elem_of_cons); [by left|]. right. by exists l'.
Qed.

(** ** Dictionaries *)

Section DictFacts.
Context {V : Type}.
Implicit Types (k : string) (v : V) (d : list (string * V)).

Lemma dict_get_elem_of k v d : dict_get k d = Some v → (k, v) ∈ d.
Proof.
  induction d as [|[k' v'] d IH]; simpl; [done|].
  destruct (decide (k' = k)) as [->|Hne].
  - intros [= ->]. left.
  - intros Hg. right. by apply IH.
Qed.

Lemma dict_get_None k d : dict_get k d = None ↔ k ∉ dict_keys d.
Proof.
  unfold dict_keys. induction d as [|[k' v'] d IH]; simpl.
  - split; [intros _; apply not_elem_of_nil|done].
  - destruct (decide (k' = k)) as [->|Hne].
    + split; [done|]. intros []. left.
    + rewrite not_elem_of_cons, <- IH. naive_solver.
Qed.

Lemma dict_get_keys k v d : dict_get k d = Some v → k ∈ dict_keys d.
Proof.
  intros Hg. destruct (decide (k ∈ dict_keys d)) as [|Hn]; [done|].
  apply dict_get_None in Hn. congruence.
Qed.

Lemma dict_keys_get k d : k ∈ dict_keys d → ∃ v, dict_get k d = Some v.
Proof.
  intros Hin. destruct (dict_get k d) as [v|] eqn:Hg; [by exists v|].
  by apply dict_get_None in Hg.
Qed.

Lemma elem_of_dict_get k v d : NoDup (dict_keys d) → (k, v) ∈ d → dict_get k d = Some v.
Proof.
  unfold dict_keys. induction d as [|[k' v'] d IH]; simpl; intros Hnd Hin.
  - by apply elem_of_nil in Hin.
  - apply NoDup_cons in Hnd as [Hk Hnd].
    apply elem_of_cons in Hin as [[= -> ->]|Hin].
    + by rewrite decide_True.
    + rewrite decide_False; [by apply IH|].
      intros ->. apply Hk. apply list_elem_of_fmap. by exists (k, v).
Qed.

Lemma dict_get_set_eq k v d : dict_get k (dict_set k v d) = Some v.
Proof.
  induction d as [|[k' v'] d IH]; simpl.
  - by rewrite decide_True.
  - destruct (decide (k' = k)) as [->|Hne]; simpl.
    + by rewrite decide_True.
    + by rewrite decide_False.
Qed.

Lemma dict_get_set_ne k k' v d : k ≠ k' → dict_get k' (dict_set k v d) = dict_get k' d.
Proof.
  intros Hne. induction d as [|[k2 v2] d IH]; simpl.
  - by rewrite decide_False.
  - destruct (decide (k2 = k)) as [->|Hne2]; simpl.
    + by rewrite !decide_False.
    + by rewrite IH.
Qed.

Lemma dict_get_set k k' v d :
  dict_get k' (dict_set k v d) = if decide (k = k') then Some v else dict_get k' d.
Proof.
  destruct (decide (k = k')) as [->|Hne];
    [apply dict_get_set_eq|by apply dict_get_set_ne].
Qed.

Lemma dict_keys_set k v d : k ∈ dict_keys d → dict_keys (dict_set k v d) = dict_keys d.
Proof.
  unfold dict_keys. induction d as [|[k' v'] d IH]; simpl; intros Hin.
  - by apply elem_of_nil in Hin.
  - destruct (decide (k' = k)) as [->|Hne]; simpl; [done|].
    f_equal. apply IH. apply elem_of_cons in Hin as [?|?]; done.
Qed.

Lemma dict_keys_set_new k v d : k ∉ dict_keys d → dict_keys (dict_set k v d) = dict_keys d ++ [k].
Proof.
  unfold dict_keys. induction d as [|[k' v'] d IH]; simpl; intros Hin; [done|].
  apply not_elem_of_cons in Hin as [Hne Hin].
  rewrite decide_False by done. simpl. f_equal. by apply IH.
Qed.

Lemma dict_set_same k v d : dict_get k d = Some v → dict_set k v d = d.
Proof.
  induction d as [|[k' v'] d IH]; simpl; [done|].
  destruct (decide (k' = k)) as [->|Hne].
  - by intros [= ->].
  - intros Hg. f_equal. by apply IH.
Qed.

Lemma dict_set_set k v v' d : dict_set k v (dict_set k v' d) = dict_set k v d.
Proof.
  induction d as [|[k2 v2] d IH]; simpl.
  - by rewrite decide_True.
  - destruct (decide (k2 = k)) as [->|Hne]; simpl.
    + by rewrite decide_True.
    + rewrite decide_False by done. by rewrite IH.
Qed.

Lemma elem_of_dict_set k v k' v' d :
  (k', v') ∈ dict_set k v d → (k' = k ∧ v' = v) ∨ (k', v') ∈ d.
Proof.
  induction d as [|[k2 v2] d IH]; simpl.
  - intros [[= -> ->]|Hin]%elem_of_cons; [by left|by apply elem_of_nil in Hin].
  - destruct (decide (k2 = k)) as [->|Hne].
    + intros [[= -> ->]|Hin]%elem_of_cons; [by left|]. right. by right.
    + intros [[= -> ->]|Hin]%elem_of_cons; [right; left|].
      destruct (IH Hin) as [?|?]; [by left|]. right. by right.
Qed.

Lemma dict_keys_del k d : py_remove k (dict_keys d) = None ∨ py_remove k (dict_keys d) = Some (dict_keys (dict_del k d)).
Proof.
  unfold dict_keys. induction d as [|[k' v'] d IH]; csimpl; [by left|].
  destruct (decide (k' = k)) as [->|Hne]; [by right|]. csimpl.
  destruct IH as [IH|IH]; rewrite IH; csimpl; [by left|by right].
Qed.

Lemma dict_get_del_ne k k' d : k ≠ k' → dict_get k' (dict_del k d) = dict_get k' d.
Proof.
  intros Hne. induction d as [|[k2 v2] d IH]; simpl; [done|].
  destruct (decide (k2 = k)) as [->|Hne2]; simpl.
  - by rewrite decide_False.
  - by rewrite IH.
Qed.

Lemma elem_of_dict_del k k' v' d : (k', v') ∈ dict_del k d → (k', v') ∈ d.
Proof.
  induction d as [|[k2 v2] d IH]; simpl; [done|].
  destruct (decide (k2 = k)) as [->|Hne].
  - intros Hin. by right.
  - intros [[= -> ->]|Hin]%elem_of_cons; [left|]. right. by apply IH.
Qed.
End DictFacts.

(** Multisets of cards are compared by counting occurrences. *)
Ltac card_count :=
  apply (Permutation_count_occ Card_eq_dec);
  let x := fresh "x" in
  intros x;
  repeat match goal with
         | H : _ ≡ₚ _ |- _ =>
             let H' := fresh in
             pose proof (proj1 (Permutation_count_occ Card_eq_dec _ _) H x) as H';
             clear H
         end;
  csimpl in *; rewrite ?count_occ_app in *; cbn [count_occ] in *;
  repeat match goal with
         | |- context [Card_eq_dec ?a ?b] => destruct (Card_eq_dec a b)
         | H : context [Card_eq_dec ?a ?b] |- _ => destruct (Card_eq_dec a b)
         end;
  lia.

(** All the cards of a dictionary of hands, as a multiset. *)
Lemma concat_values_set k (h h0 : list Card) d :
  dict_get k d = Some h0 →
  concat (dict_values (dict_set k h d)) ++ h0 ≡ₚ concat (dict_values d) ++ h.
Proof.
  unfold dict_values. induction d as [|[k' v'] d IH]; csimpl; [done|].
  destruct (decide (k' = k)) as [->|Hne]; csimpl.
  - intros [= ->].
    rewrite (Permutation_app_comm (h ++ _) h0), (Permutation_app_comm h).
    by rewrite (assoc_L (++)).
  - intros Hg. rewrite <- !(assoc_L (++)). f_equiv. by apply IH.
Qed.

(** ** Hand order *)

Lemma sort_insert_perm c l : sort_insert c l ≡ₚ c :: l.
Proof.
  induction l as [|d l IH]; simpl; [done|].
  destruct (key_lt (sort_key d) (sort_key c)); [|done].
  rewrite IH. apply Permutation_swap.
Qed.

Lemma sort_hand_perm l : sort_hand l ≡ₚ l.
Proof.
  induction l as [|c l IH]; simpl; [done|].
  by rewrite sort_insert_perm, IH.
Qed.

Lemma sort_hand_length l : length (sort_hand l) = length l.
Proof. by rewrite sort_hand_perm. Qed.

Lemma sort_hand_elem_of c l : c ∈ sort_hand l ↔ c ∈ l.
Proof. by rewrite sort_hand_perm. Qed.

Lemma sort_hand_nil l : sort_hand l = [] ↔ l = [].
Proof.
  split; [|by intros ->].
  intros Hs. apply (f_equal length) in Hs. rewrite sort_hand_length in Hs.
  by destruct l.
Qed.

(** ** Running a method *)

Ltac munfold :=
  cbv [mbind M_bind bind gets modify ret raise mret M_ret set_hand].
Ltac munfold_in H :=
  cbv [mbind M_bind bind gets modify ret raise mret M_ret set_hand] in H.

Lemma hand_of_Some p h s : dict_get p (players s) = Some h → hand_of p s = Ok h s.
Proof. intros Hg. unfold hand_of. munfold. by rewrite Hg. Qed.

Lemma hand_of_None p s : dict_get p (players s) = None → hand_of p s = Raise (KeyError p) s.
Proof. intros Hg. unfold hand_of. munfold. by rewrite Hg. Qed.

Lemma hand_of_Ok p h s s' : hand_of p s = Ok h s' → dict_get p (players s) = Some h ∧ s' = s.
Proof.
  unfold hand_of. munfold. destruct (dict_get p (players s)); [|done].
  by intros [= -> ->].
Qed.

Lemma hand_of_final p s : final (hand_of p s) = s.
Proof. unfold hand_of. munfold. by destruct (dict_get p (players s)). Qed.

Lemma index_of_Ok x l i s s' : index_of x l s = Ok i s' → py_index x l = Some i ∧ s' = s.
Proof.
  unfold index_of. destruct (py_index x l); munfold; [|done]. by intros [= -> ->].
Qed.

Lemma index_of_elem x l s : x ∈ l → ∃ i, index_of x l s = Ok i s ∧ l !! i = Some x.
Proof.
  intros (i & Hi & Hl)%py_index_elem. exists i. unfold index_of. by rewrite Hi.
Qed.

Lemma index_of_final x l s : final (index_of x l s) = s.
Proof. unfold index_of. by destruct (py_index x l). Qed.

Lemma item_at_Ok {A} (l : list A) i x s s' : item_at l i s = Ok x s' → l !! i = Some x ∧ s' = s.
Proof. unfold item_at. destruct (l !! i); munfold; [|done]. by intros [= -> ->]. Qed.

Lemma item_at_Some {A} (l : list A) i x s : l !! i = Some x → item_at l i s = Ok x s.
Proof. unfold item_at. by intros ->. Qed.

Lemma item_at_final {A} (l : list A) i s : final (item_at l i s) = s.
Proof. unfold item_at. by destruct (l !! i). Qed.

Lemma current_player_Ok p s s' :
  current_player s = Ok p s' →
  s' = s ∧
  (if decide (active_players s = []) then player_order s !! 0 = Some p
   else active_players s !! (current_player_idx s mod length (active_players s)) = Some p).
Proof.
  unfold current_player. munfold.
  destruct (decide (active_players s = [])); intros [? ->]%item_at_Ok; done.
Qed.

Lemma current_player_final s : final (current_player s) = s.
Proof.
  unfold current_player. munfold.
  destruct (decide (active_players s = [])); apply item_at_final.
Qed.

Lemma current_player_active s :
  active_players s ≠ [] → ∃ p, current_player s = Ok p s ∧ p ∈ active_players s.
Proof.
  intros Hne. unfold current_player. munfold. rewrite decide_False by done.
  destruct (active_players s !! (current_player_idx s mod length (active_players s)))
    as [p|] eqn:Hp.
  - exists p. split; [by apply item_at_Some|]. by eapply list_elem_of_lookup_2.
  - apply lookup_ge_None in Hp.
    assert (length (active_players s) ≠ 0) by by destruct (active_players s).
    pose proof (Nat.mod_upper_bound (current_player_idx s) (length (active_players s))).
    lia.
Qed.

Lemma card_of_dict_Ok cd c s s' : card_of_dict cd s = Ok c s' → s' = s.
Proof.
  unfold card_of_dict. munfold.
  repeat case_match; try done. by intros [= _ ->].
Qed.

Lemma card_of_dict_final cd s : final (card_of_dict cd s) = s.
Proof. unfold card_of_dict. munfold. by repeat case_match. Qed.

Lemma card_of_to_dict c s : card_of_dict (to_dict c) s = Ok c s.
Proof. by destruct c as [[] []]. Qed.

(** ** C8: the opening card *)

(** C8.  In a started, unfinished game in which no card has been played
    yet ([game_first_card_played] is still false), a [play_card] call that
    passes the turn check, the activity check and the card-in-hand check
    with a card other than the Ace of Spades returns the failure
    "First card must be Ace of Spades" and leaves the session as it was. *)
Theorem first_card_must_be_ace_of_spades (s : GameSession) (p : string)
    (cd : list (string * string)) (c : Card) (h : list Card) :
  game_started s = true →
  finished s = false →
  game_first_card_played s = false →
  current_player s = Ok p s →
  p ∈ active_players s →
  card_of_dict cd s = Ok c s →
  dict_get p (players s) = Some h →
  c ∈ h →
  c ≠ ace_of_spades →
  play_card p cd s = Ok (false, Some "First card must be Ace of Spades") s.
Proof.
  intros Hst Hfin Hfirst Hcur Hact Hcard Hhand Hin Hne.
  unfold play_card. munfold.
  rewrite Hst, Hfin. cbn [negb orb]. rewrite Hcur.
  rewrite decide_False by (by intros ?).
  rewrite decide_False by (by intros ?).
  rewrite Hcard, (hand_of_Some _ _ _ Hhand).
  rewrite decide_False by (by intros ?).
  rewrite Hfirst. cbn [negb andb].
  rewrite bool_decide_eq_true_2; [done|].
  destruct c as [st rk]. unfold ace_of_spades in Hne. cbn [suit rank].
  destruct (decide (st = SPADES)) as [->|]; [|by left].
  right. intros ->. done.
Qed.

(** Fields of an updated session. *)
Ltac fsimpl :=
  cbn [game_id players player_order active_players current_player_idx
       current_pile current_suit original_suit game_started finished kazhutha
       winners host_name discarded_cards round_in_progress last_action
       game_first_card_played resolved_pile resolved_winner suit_was_broken
       taken_hand_cards taken_hand_from taken_hand_by original_players
       connected_players waiting_for_player set_players set_player_order
       set_active_players set_current_player_idx set_current_pile
       set_current_suit set_original_suit set_game_started set_finished
       set_kazhutha set_winners set_discarded_cards set_round_in_progress
       set_last_action set_game_first_card_played set_resolved_pile
       set_resolved_winner set_suit_was_broken set_taken_hand_cards
       set_taken_hand_from set_taken_hand_by set_original_players
       set_connected_players set_waiting_for_player] in *.

Lemma set_players_same s : set_players (players s) s = s.
Proof. by destruct s. Qed.

Lemma set_discarded_cards_same s : set_discarded_cards (discarded_cards s) s = s.
Proof. by destruct s. Qed.

Lemma set_current_player_idx_same s : set_current_player_idx (current_player_idx s) s = s.
Proof. by destruct s. Qed.

Lemma set_winners_active_same s :
  set_active_players (active_players s) (set_winners (winners s) s) = s.
Proof. by destruct s. Qed.

Lemma set_game_over_same s :
  set_last_action (last_action s) (set_kazhutha (kazhutha s) (set_finished (finished s) s)) = s.
Proof. by destruct s. Qed.

Lemma cards_of_Some p h s : dict_get p (players s) = Some h → cards_of p s = h.
Proof. unfold cards_of. by intros ->. Qed.

(** ** The loops over the pile *)

Lemma give_pile_run w pile h s :
  dict_get w (players s) = Some h →
  give_pile w pile s = Ok tt (set_players (dict_set w (h ++ pile.*2) (players s)) s).
Proof.
  revert h s. induction pile as [|[q c] pile IH]; intros h s Hg; csimpl.
  - rewrite app_nil_r, (dict_set_same _ _ _ Hg). by rewrite set_players_same.
  - munfold. rewrite (hand_of_Some _ _ _ Hg).
    erewrite IH; [|fsimpl; apply dict_get_set_eq].
    fsimpl. by rewrite dict_set_set, <- (assoc_L (++)).
Qed.

Lemma give_pile_KeyError w pile s :
  dict_get w (players s) = None → pile ≠ [] → give_pile w pile s = Raise (KeyError w) s.
Proof.
  intros Hg Hne. destruct pile as [|[q c] pile]; [done|]. simpl. munfold.
  by rewrite (hand_of_None _ _ Hg).
Qed.

Lemma discard_pile_run pile s :
  discard_pile pile s = Ok tt (set_discarded_cards (discarded_cards s ++ pile.*2) s).
Proof.
  revert s. induction pile as [|[q c] pile IH]; intros s; csimpl.
  - by rewrite app_nil_r, set_discarded_cards_same.
  - munfold. rewrite IH. fsimpl. by rewrite <- (assoc_L (++)).
Qed.

(** ** Game over and winners *)

Lemma players_with_cards_run l s :
  (∀ p, p ∈ l → p ∈ dict_keys (players s)) →
  players_with_cards l s = Ok (filter (λ p, 0 < length (cards_of p s)) l) s.
Proof.
  induction l as [|p l IH]; intros Hl; simpl; [done|]. munfold.
  destruct (dict_keys_get p (players s)) as [h Hh]; [apply Hl; left|].
  rewrite (hand_of_Some _ _ _ Hh), IH by (intros; apply Hl; by right).
  assert (Hc : cards_of p s = h) by (unfold cards_of; by rewrite Hh).
  rewrite filter_cons, Hc.
  destruct (Nat.ltb_spec 0 (length h)).
  - by rewrite decide_True.
  - by rewrite decide_False by lia.
Qed.

Lemma check_game_over_run s :
  (∀ p, p ∈ active_players s → p ∈ dict_keys (players s)) →
  ∃ f k a, _check_game_over s
           = Ok tt (set_last_action a (set_kazhutha k (set_finished f s)))
           ∧ game_over_outcome s f k.
Proof.
  intros Hact. unfold _check_game_over, game_over_outcome. munfold.
  rewrite (players_with_cards_run _ _ Hact).
  destruct (filter _ _) as [|x [|y l]].
  - by exists true, (kazhutha s), (last_action s).
  - by eexists true, (Some x), _.
  - exists (finished s), (kazhutha s), (last_action s).
    by rewrite set_game_over_same.
Qed.

Lemma leaves_ext s s' p :
  players s' = players s → winners s' = winners s → leaves s' p ↔ leaves s p.
Proof. unfold leaves, cards_of. by intros -> ->. Qed.

Lemma check_for_winners_loop_run names s :
  NoDup names →
  (∀ p, p ∈ names → p ∈ dict_keys (players s) ∧ p ∈ active_players s) →
  NoDup (active_players s) →
  check_for_winners_loop names s
  = Ok tt (set_active_players
             (filter (λ p, ¬ (p ∈ names ∧ leaves s p)) (active_players s))
             (set_winners (winners s ++ filter (leaves s) names) s)).
Proof.
  revert s. induction names as [|p names IH]; intros s Hnd Hin Hact; simpl.
  - rewrite app_nil_r, filter_all.
    + by rewrite set_winners_active_same.
    + intros q _ [Hq _]. by apply elem_of_nil in Hq.
  - apply NoDup_cons in Hnd as [Hp Hnd].
    destruct (Hin p) as [Hpk Hpa]; [left|].
    destruct (dict_keys_get p (players s)) as [h Hh]; [done|].
    munfold. rewrite (hand_of_Some _ _ _ Hh).
    pose proof (cards_of_Some _ _ _ Hh) as Hc.
    destruct (decide (leaves s p)) as [Hlv|Hlv].
    + pose proof Hlv as [Hl0 Hw]. rewrite Hc in Hl0.
      rewrite (proj2 (Nat.eqb_eq _ _) Hl0), bool_decide_eq_true_2 by done.
      cbn [andb]. fsimpl.
      rewrite (py_remove_filter _ _ Hact Hpa). cbv beta.
      assert (Hsame : ∀ q, q ≠ p →
        leaves (set_active_players (filter (λ y, y ≠ p) (active_players s))
                  (set_winners (winners s ++ [p]) s)) q ↔ leaves s q).
      { intros q Hq. unfold leaves, cards_of. fsimpl.
        rewrite not_elem_of_app, not_elem_of_cons.
        pose proof (not_elem_of_nil q). tauto. }
      rewrite IH; fsimpl; [|done| |by apply NoDup_filter].
      * rewrite list_filter_filter, filter_cons_True by done.
        rewrite <- (assoc_L (++)). simpl.
        change (set_active_players ?a (set_winners ?w (set_active_players _ (set_winners _ s))))
          with (set_active_players a (set_winners w s)).
        f_equal. f_equal; [|do 3 f_equal].
        -- apply filter_ext_in. intros q Hq. destruct (decide (q = p)) as [->|Hne].
           ++ split; [by intros [_ ?]|]. intros Hn. destruct Hn. split; [left|done].
           ++ rewrite (Hsame q Hne), elem_of_cons. intuition.
        -- apply filter_ext_in. intros q Hq. apply Hsame. by intros ->.
      * intros q Hq. destruct (Hin q) as [? ?]; [by right|]. split; [done|].
        apply list_elem_of_filter. split; [|done]. by intros ->.
    + assert ((length h =? 0) && bool_decide (p ∉ winners s) = false) as ->.
      { apply not_true_is_false. intros [H1%Nat.eqb_eq H2%bool_decide_eq_true]%andb_true_iff.
        apply Hlv. by rewrite <- Hc in H1. }
      rewrite IH; [|done| |done].
      * rewrite filter_cons_False by done. do 2 f_equal.
        apply filter_ext_in. intros q Hq. rewrite elem_of_cons.
        split; [|by intuition]. intros Hn [[->|?] ?]; [done|]. by apply Hn.
      * intros q Hq. apply Hin. by right.
Qed.

Lemma check_for_winners_run s :
  NoDup (active_players s) →
  (∀ p, p ∈ active_players s → p ∈ dict_keys (players s)) →
  _check_for_winners s = Ok tt (retire_winners s).
Proof.
  intros Hnd Hin. unfold _check_for_winners, retire_winners. munfold.
  rewrite check_for_winners_loop_run by (by auto). do 2 f_equal.
  apply filter_ext_in. intuition.
Qed.

(** ** Whose turn *)

Lemma next_active_loop_run wi steps s :
  player_order s ≠ [] →
  ∃ i, next_active_loop wi steps s = Ok tt (set_current_player_idx i s).
Proof.
  intros Hpo. induction steps as [|j steps IH]; simpl.
  - exists (current_player_idx s). by rewrite set_current_player_idx_same.
  - munfold.
    destruct (player_order s !! ((wi + j) mod length (player_order s))) as [q|] eqn:Hq.
    + rewrite (item_at_Some _ _ _ _ Hq).
      destruct (decide (q ∈ active_players s)) as [Hin|Hin]; [|done].
      destruct (index_of_elem q _ s Hin) as (i & -> & _). by exists i.
    + apply lookup_ge_None in Hq.
      assert (length (player_order s) ≠ 0) by by destruct (player_order s).
      pose proof (Nat.mod_upper_bound (wi + j) (length (player_order s))). lia.
Qed.

Lemma advance_run s :
  ∃ i, _advance_to_next_active_player s = Ok tt (set_current_player_idx i s)
       ∧ ∀ p j, current_player s = Ok p s → py_index p (active_players s) = Some j →
                i = (j + 1) mod length (active_players s).
Proof.
  unfold _advance_to_next_active_player. munfold.
  destruct (decide (active_players s = [])) as [Hnil|Hne].
  - exists (current_player_idx s). rewrite set_current_player_idx_same. split; [done|].
    intros p j _ Hj. rewrite Hnil in Hj. done.
  - destruct (current_player_active s Hne) as (p & Hp & Hin). rewrite Hp.
    rewrite decide_True by done.
    destruct (py_index_elem p _ Hin) as (j & Hj & _).
    unfold index_of. rewrite Hj. munfold. exists ((j + 1) mod length (active_players s)).
    split; [done|]. intros p' j' [= <-] Hj'. congruence.
Qed.

(** ** Round resolution *)

Lemma settle_pile_keys sb w s :
  w ∈ dict_keys (players s) →
  dict_keys (players (settle_pile sb w s)) = dict_keys (players s).
Proof.
  intros Hw. unfold settle_pile. destruct sb; fsimpl; [|done]. by apply dict_keys_set.
Qed.

Lemma settle_pile_run (sb : bool) w s :
  w ∈ dict_keys (players s) →
  (modify (set_resolved_pile (current_pile s)) ;;
   modify (set_resolved_winner (Some w)) ;;
   modify (set_suit_was_broken sb) ;;
   if sb then
     give_pile w (current_pile s) ;;
     h ← hand_of w;
     set_hand w (sort_hand h) ;;
     modify (set_last_action (Some (w +:+ " picks up the pile!")))
   else
     discard_pile (current_pile s) ;;
     modify (set_last_action
               (Some ("Cards discarded - " +:+ w +:+ " leads next!")))) s
  = Ok tt (settle_pile sb w s).
Proof.
  intros Hw. destruct (dict_keys_get _ _ Hw) as [h Hh].
  unfold settle_pile. rewrite (cards_of_Some _ _ _ Hh). munfold. destruct sb.
  - erewrite give_pile_run by (fsimpl; done). fsimpl.
    erewrite hand_of_Some by (fsimpl; apply dict_get_set_eq).
    fsimpl. by rewrite dict_set_set.
  - by rewrite discard_pile_run.
Qed.

Lemma resolve_round_run sb s w c :
  current_pile s ≠ [] →
  py_max (λ x, value x.2)
    (filter (λ x, Some (suit x.2) = original_suit s) (current_pile s)) = Some (w, c) →
  w ∈ dict_keys (players s) →
  w ∈ player_order s →
  NoDup (active_players s) →
  (∀ p, p ∈ active_players s → p ∈ dict_keys (players s)) →
  ∃ idx f k a,
    _resolve_round sb s = Ok tt (resolved sb w idx f k a s)
    ∧ (w ∈ active_players (retire_winners (clear_round (settle_pile sb w s))) →
       py_index w (active_players (retire_winners (clear_round (settle_pile sb w s))))
       = Some idx)
    ∧ game_over_outcome
        (set_current_player_idx idx (retire_winners (clear_round (settle_pile sb w s)))) f k.
Proof.
  intros Hpile Hmax Hw Hwo Hnd Hact. unfold resolved.
  pose proof (settle_pile_run sb w s Hw) as Hsettle.
  unfold _resolve_round. munfold. munfold_in Hsettle.
  rewrite decide_False by done. rewrite Hmax. cbn [fst].
  rewrite Hsettle. clear Hsettle.
  change (set_round_in_progress false _) with (clear_round (settle_pile sb w s)).
  set (s2 := clear_round (settle_pile sb w s)).
  assert (Hk2 : dict_keys (players s2) = dict_keys (players s))
    by (by apply settle_pile_keys).
  assert (Ha2 : active_players s2 = active_players s)
    by (unfold s2, clear_round, settle_pile; by destruct sb).
  assert (Ho2 : player_order s2 = player_order s)
    by (unfold s2, clear_round, settle_pile; by destruct sb).
  rewrite (check_for_winners_run s2)
    by (rewrite Ha2, ?Hk2; done).
  set (s3 := retire_winners s2).
  assert (Hact3 : ∀ p, p ∈ active_players s3 → p ∈ dict_keys (players s3)).
  { intros p [_ Hp]%list_elem_of_filter.
    change (players s3) with (players s2). rewrite Hk2. apply Hact. by rewrite <- Ha2. }
  match goal with
  | |- ∃ _ _ _ _, match ?X with _ => _ end = _ ∧ _ =>
      assert (∃ idx, X = Ok tt (set_current_player_idx idx s3)
                     ∧ (w ∈ active_players s3 →
                        py_index w (active_players s3) = Some idx))
        as (idx & Hidx & Hidx')
  end.
  { destruct (decide (w ∈ active_players s3)) as [Hin|Hin].
    - destruct (py_index_elem w _ Hin) as (i & Hi & _). exists i.
      unfold index_of. rewrite Hi. by munfold.
    - destruct (index_of_elem w (player_order s3) s3) as (i & -> & _);
        [change (player_order s3) with (player_order s2); by rewrite Ho2|].
      destruct (next_active_loop_run i (seq 1 (length (player_order s3) - 1)) s3)
        as [idx ->].
      + intros Hnil. change (player_order s3) with (player_order s2) in Hnil.
        rewrite Ho2 in Hnil. rewrite Hnil in Hwo. by apply elem_of_nil in Hwo.
      + by exists idx. }
  rewrite Hidx.
  destruct (check_game_over_run (set_current_player_idx idx s3)) as (f & k & a & -> & Hgo);
    [done|].
  by exists idx, f, k, a.
Qed.

(** Under the invariant the pile of a round in progress has a winner. *)
Lemma round_winner_exists s :
  inv s → current_pile s ≠ [] →
  ∃ w c,
    py_max (λ x, value x.2)
      (filter (λ x, Some (suit x.2) = original_suit s) (current_pile s)) = Some (w, c)
    ∧ (w, c) ∈ current_pile s
    ∧ original_suit s = Some (suit c)
    ∧ (∀ q d, (q, d) ∈ current_pile s → original_suit s = Some (suit d) →
              (value d ≤ value c)%Z)
    ∧ w ∈ active_players s.
Proof.
  intros Hinv Hpile.
  destruct (current_pile s) as [|[p0 c0] rest] eqn:Hp; [done|].
  destruct (inv_round s Hinv p0 c0 rest Hp) as (_ & Hos & _).
  destruct (py_max (λ x, value x.2)
              (filter (λ x : string * Card, Some (suit x.2) = original_suit s)
                 ((p0, c0) :: rest))) as [[w c]|] eqn:Hmax.
  - destruct (py_max_spec _ _ _ Hmax) as [[Hsuit Hin]%list_elem_of_filter Hle].
    exists w, c. repeat split; [done|by symmetry| |].
    + intros q d Hqd Hd. apply (Hle (q, d)). by apply list_elem_of_filter.
    + apply (inv_pile s Hinv w c). by rewrite Hp.
  - apply py_max_None in Hmax. rewrite filter_cons_True in Hmax by done. done.
Qed.

Lemma inv_active_keys s p : inv s → p ∈ active_players s → p ∈ dict_keys (players s).
Proof. intros Hinv Hp. rewrite <- (inv_order s Hinv). by apply (inv_active s Hinv). Qed.


(** The invariant and the cards survive the resolution of a round. *)
Lemma resolved_inv sb w idx f k a s :
  inv s → w ∈ active_players s → inv (resolved sb w idx f k a s).
Proof.
  intros Hinv Hw. pose proof (inv_active_keys s w Hinv Hw) as Hwk.
  assert (Hkeys : dict_keys (players (settle_pile sb w s)) = dict_keys (players s))
    by by apply settle_pile_keys.
  assert (Hact : active_players (settle_pile sb w s) = active_players s)
    by (unfold settle_pile; by destruct sb).
  assert (Hord : player_order (settle_pile sb w s) = player_order s)
    by (unfold settle_pile; by destruct sb).
  assert (Hst : game_started (settle_pile sb w s) = game_started s)
    by (unfold settle_pile; by destruct sb).
  split; unfold resolved, retire_winners, clear_round; fsimpl.
  - rewrite Hkeys. apply (inv_keys s Hinv).
  - rewrite Hkeys, Hord. apply (inv_order s Hinv).
  - apply NoDup_filter. rewrite Hact. apply (inv_active_nodup s Hinv).
  - intros p [_ Hp]%list_elem_of_filter. rewrite Hord. apply (inv_active s Hinv).
    by rewrite <- Hact.
  - intros p c Hin. by apply elem_of_nil in Hin.
  - intros p h Hh Hp. rewrite list_elem_of_filter, Hact in Hp.
    destruct (decide (p ∈ active_players s)) as [Hpa|Hpa].
    + destruct (decide (leaves (set_round_in_progress false
          (set_original_suit None (set_current_suit None
             (set_current_pile [] (settle_pile sb w s))))) p)) as [[Hl _]|Hl];
        [|by destruct Hp].
      unfold cards_of in Hl. fsimpl. rewrite Hh in Hl. by destruct h.
    + apply (inv_benched s Hinv p); [|done].
      rewrite <- Hh. unfold settle_pile. destruct sb; fsimpl; [|done].
      symmetry. apply dict_get_set_ne. by intros ->.
  - done.
  - rewrite Hst. intros Hl. destruct (inv_lobby s Hinv Hl) as (Hnil & _).
    rewrite Hnil in Hw. by apply elem_of_nil in Hw.
Qed.

Lemma resolved_cards sb w idx f k a s :
  w ∈ dict_keys (players s) →
  cards_in_game (resolved sb w idx f k a s) ≡ₚ cards_in_game s.
Proof.
  intros Hwk. destruct (dict_keys_get _ _ Hwk) as [h Hh].
  unfold cards_in_game, cards_in_hands, resolved, retire_winners, clear_round, settle_pile.
  rewrite (cards_of_Some _ _ _ Hh). destruct sb; fsimpl; [|by rewrite app_nil_r].
  pose proof (concat_values_set w (sort_hand (h ++ (current_pile s).*2)) h _ Hh) as H1.
  pose proof (sort_hand_perm (h ++ (current_pile s).*2)) as H2.
  card_count.
Qed.

(** ** Playing a card *)

(** The checks of [play_card]: either the call is turned down before any
    card moves, or the card is accepted. *)
Lemma play_card_cases p cd s :
  (final (play_card p cd s) = s ∧ ∀ r s', play_card p cd s ≠ Ok (true, r) s')
  ∨ ∃ c h,
      game_started s = true ∧ finished s = false
      ∧ current_player s = Ok p s ∧ p ∈ active_players s
      ∧ card_of_dict cd s = Ok c s
      ∧ dict_get p (players s) = Some h ∧ c ∈ h
      ∧ (game_first_card_played s = false → c = ace_of_spades)
      ∧ ((∃ cs, current_suit (round_opened c s) = Some cs
                ∧ Exists (λ d, suit d = cs) h ∧ suit c ≠ cs
                ∧ play_card p cd s
                  = Ok (false, Some ("You must play a " +:+ Suit_value cs))
                      (round_opened c s))
         ∨ ((∀ cs, current_suit (round_opened c s) = Some cs →
                   Exists (λ d, suit d = cs) h → suit c = cs)
            ∧ play_card p cd s = play_accepted p c (round_opened c s))).
Proof.
  unfold play_card. munfold.
  destruct (game_started s) eqn:Hst; [|by left].
  destruct (finished s) eqn:Hfin; [by left|]. cbn [negb orb].
  destruct (current_player s) as [cp s1|e s1] eqn:Hcp.
  2:{ left. pose proof (current_player_final s) as Hf. rewrite Hcp in Hf. simpl in Hf. by subst s1. }
  apply current_player_Ok in Hcp as Hcp'. destruct Hcp' as [-> _].
  destruct (decide (p ≠ cp)) as [Hne|Heq]; [by left|].
  apply dec_stable in Heq as <-.
  destruct (decide (p ∉ active_players s)) as [Hna|Hact]; [by left|].
  apply dec_stable in Hact.
  destruct (card_of_dict cd s) as [c s1|e s1] eqn:Hcard.
  2:{ left. pose proof (card_of_dict_final cd s) as Hf. rewrite Hcard in Hf. simpl in Hf. by subst s1. }
  apply card_of_dict_Ok in Hcard as Hs1. subst s1.
  destruct (hand_of p s) as [h s1|e s1] eqn:Hh.
  2:{ left. pose proof (hand_of_final p s) as Hf. rewrite Hh in Hf. simpl in Hf. by subst s1. }
  apply hand_of_Ok in Hh as [Hh ->].
  destruct (decide (c ∉ h)) as [Hnc|Hc]; [by left|].
  apply dec_stable in Hc.
  destruct (negb (game_first_card_played s) && bool_decide (suit c ≠ SPADES ∨ rank c ≠ ACE))
    eqn:Hfirst; [by left|].
  right. exists c, h. do 7 (split; [done|]).
  assert (Hace : game_first_card_played s = false → c = ace_of_spades).
  { intros Hf. rewrite Hf in Hfirst. cbn [negb andb] in Hfirst.
    apply bool_decide_eq_false in Hfirst.
    destruct c as [st rk]. unfold ace_of_spades. cbn [suit rank] in Hfirst.
    destruct (decide (st = SPADES)) as [->|]; [|by destruct Hfirst; left].
    destruct (decide (rk = ACE)) as [->|]; [done|by destruct Hfirst; right]. }
  split; [done|].
  assert (Hsuit : ∀ s1,
    (∃ cs, current_suit s1 = Some cs ∧ Exists (λ d, suit d = cs) h ∧ suit c ≠ cs
           ∧ match current_suit s1 with
             | Some cs0 =>
                 if bool_decide (Exists (λ c0, suit c0 = cs0) h)
                    && bool_decide (suit c ≠ cs0)
                 then λ s0, Ok (false, Some ("You must play a " +:+ Suit_value cs0)) s0
                 else play_accepted p c
             | None => play_accepted p c
             end s1
             = Ok (false, Some ("You must play a " +:+ Suit_value cs)) s1)
    ∨ ((∀ cs, current_suit s1 = Some cs → Exists (λ d, suit d = cs) h → suit c = cs)
       ∧ match current_suit s1 with
         | Some cs0 =>
             if bool_decide (Exists (λ c0, suit c0 = cs0) h)
                && bool_decide (suit c ≠ cs0)
             then λ s0, Ok (false, Some ("You must play a " +:+ Suit_value cs0)) s0
             else play_accepted p c
         | None => play_accepted p c
         end s1 = play_accepted p c s1)).
  { intros s1. destruct (current_suit s1) as [cs|]; [|by right].
    destruct (decide (Exists (λ d, suit d = cs) h)) as [Hex|Hex].
    - destruct (decide (suit c = cs)) as [Heq|Hne].
      + right. split; [by intros ? [= <-]|].
        rewrite (bool_decide_eq_false_2 (suit c ≠ cs)) by (by intros ?).
        by rewrite andb_false_r.
      + left. exists cs. by rewrite !bool_decide_eq_true_2.
    - right. split; [by intros ? [= <-] ?|].
      by rewrite (bool_decide_eq_false_2 _ Hex). }
  unfold round_opened.
  destruct (game_first_card_played s) eqn:Hf; cbn [negb]; cbv beta;
    (destruct (decide (current_pile s = [])) as [Hp|Hp];
     [rewrite ?decide_True by exact Hp|rewrite ?decide_False by exact Hp]);
    cbv beta; apply Hsuit.
Qed.

Lemma round_opened_on_pile c s :
  current_pile s ≠ [] →
  round_opened c s = if game_first_card_played s then s
                     else set_game_first_card_played true s.
Proof. intros Hp. unfold round_opened. by rewrite decide_False. Qed.

(** C6.  On a session that satisfies the invariant with a round already
    open (the pile is not empty), whenever [play_card] returns success the
    round suit [rs], which is the suit of the first card of the pile and
    the value of both [original_suit] and [current_suit], is such that
    either the acting player's hand held no card of suit [rs] or the
    played card has suit [rs]. *)
Theorem accepted_play_follows_suit (s s' : GameSession) (p : string)
    (cd : list (string * string)) (r : option string) :
  inv s →
  current_pile s ≠ [] →
  play_card p cd s = Ok (true, r) s' →
  ∃ rs c h q c0 rest,
    current_pile s = (q, c0) :: rest ∧ rs = suit c0
    ∧ original_suit s = Some rs ∧ current_suit s = Some rs
    ∧ card_of_dict cd s = Ok c s
    ∧ dict_get p (players s) = Some h
    ∧ (Forall (λ d, suit d ≠ rs) h ∨ suit c = rs).
Proof.
  intros Hinv Hpile Hplay.
  destruct (play_card_cases p cd s) as [[_ Hno]|(c & h & _ & _ & _ & _ & Hcard & Hh & _ & _ & Hsuit)].
  { by destruct (Hno r s'). }
  destruct (current_pile s) as [|[q c0] rest] eqn:Hp; [done|].
  destruct (inv_round s Hinv q c0 rest Hp) as (_ & Hos & Hcs).
  exists (suit c0), c, h, q, c0, rest. do 6 (split; [done|]).
  destruct Hsuit as [(cs & _ & _ & _ & Hrej)|[Hfollow _]]; [congruence|].
  destruct (decide (Exists (λ d, suit d = suit c0) h)) as [Hex|Hex].
  - right. apply Hfollow; [|done].
    rewrite round_opened_on_pile by (by rewrite Hp).
    by destruct (game_first_card_played s).
  - left. apply not_Exists_Forall in Hex; [|apply _].
    eapply Forall_impl; [exact Hex|]. intros d Hd. exact Hd.
Qed.

Lemma round_opened_inv c s : inv s → inv (round_opened c s).
Proof.
  intros [H1 H2 H3 H4 H5 H6 H7 H8]. unfold round_opened.
  destruct (game_first_card_played s);
    (destruct (decide (current_pile s = [])) as [Hp|Hp]; split; fsimpl; try done).
  all: intros p c' rest Hpile; by rewrite Hp in Hpile.
Qed.

Lemma round_opened_fields c s :
  players (round_opened c s) = players s
  ∧ player_order (round_opened c s) = player_order s
  ∧ active_players (round_opened c s) = active_players s
  ∧ current_pile (round_opened c s) = current_pile s
  ∧ discarded_cards (round_opened c s) = discarded_cards s
  ∧ winners (round_opened c s) = winners s
  ∧ current_player_idx (round_opened c s) = current_player_idx s.
Proof.
  unfold round_opened.
  by destruct (game_first_card_played s); destruct (decide (current_pile s = [])).
Qed.

Lemma round_opened_suit c s :
  current_pile s = [] →
  original_suit (round_opened c s) = Some (suit c)
  ∧ current_suit (round_opened c s) = Some (suit c)
  ∧ round_in_progress (round_opened c s) = true.
Proof.
  intros Hp. unfold round_opened. rewrite decide_True by done.
  by destruct (game_first_card_played s).
Qed.

Lemma card_played_inv p c h s :
  inv s → p ∈ active_players s → dict_get p (players s) = Some h →
  (current_pile s = [] →
   original_suit s = Some (suit c) ∧ current_suit s = Some (suit c)
   ∧ round_in_progress s = true) →
  inv (card_played p c s).
Proof.
  intros Hinv Hp Hh Hopen. pose proof (dict_get_keys _ _ _ Hh) as Hk.
  split; unfold card_played; fsimpl.
  - rewrite dict_keys_set by done. apply (inv_keys s Hinv).
  - rewrite dict_keys_set by done. apply (inv_order s Hinv).
  - apply (inv_active_nodup s Hinv).
  - apply (inv_active s Hinv).
  - intros q d [Hin|Hin]%elem_of_app.
    + by apply (inv_pile s Hinv q d).
    + apply list_elem_of_singleton in Hin as [= -> ->]. done.
  - intros q hq Hq Hna. apply (inv_benched s Hinv q); [|done].
    rewrite <- Hq. symmetry. apply dict_get_set_ne. by intros ->.
  - intros q d rest Hpile.
    destruct (current_pile s) as [|[q0 d0] rest0] eqn:Hp0.
    + simpl in Hpile. injection Hpile as -> -> <-. destruct Hopen as (?&?&?); done.
    + simpl in Hpile. injection Hpile as -> -> <-.
      apply (inv_round s Hinv q d rest0 Hp0).
  - intros Hl. destruct (inv_lobby s Hinv Hl) as (Hnil & _).
    rewrite Hnil in Hp. by apply elem_of_nil in Hp.
Qed.

Lemma card_played_cards p c h s :
  dict_get p (players s) = Some h → c ∈ h →
  cards_in_game (card_played p c s) ≡ₚ cards_in_game s.
Proof.
  intros Hh Hc. destruct (py_remove_elem c h Hc) as [h' Hr].
  unfold cards_in_game, cards_in_hands, card_played. fsimpl.
  rewrite (cards_of_Some _ _ _ Hh), Hr. simpl.
  pose proof (concat_values_set p h' h _ Hh) as H1.
  pose proof (py_remove_perm _ _ _ Hr) as H2.
  rewrite fmap_app. simpl. card_count.
Qed.

Lemma resolve_round_inv_run sb s :
  inv s → current_pile s ≠ [] →
  ∃ w idx f k a,
    w ∈ active_players s
    ∧ _resolve_round sb s = Ok tt (resolved sb w idx f k a s).
Proof.
  intros Hinv Hpile.
  destruct (round_winner_exists s Hinv Hpile) as (w & c & Hmax & _ & _ & _ & Hw).
  destruct (resolve_round_run sb s w c) as (idx & f & k & a & Hrun & _ & _);
    [done|done|by apply inv_active_keys|by apply (inv_active s Hinv)
    |by apply (inv_active_nodup s Hinv)|by intros; apply inv_active_keys|].
  by exists w, idx, f, k, a.
Qed.

Lemma play_accepted_run p c h s :
  inv s → p ∈ active_players s → dict_get p (players s) = Some h → c ∈ h →
  (current_pile s = [] →
   original_suit s = Some (suit c) ∧ current_suit s = Some (suit c)
   ∧ round_in_progress s = true) →
  (∃ sb w idx f k a,
     w ∈ active_players s
     ∧ play_accepted p c s = Ok (true, None) (resolved sb w idx f k a (card_played p c s)))
  ∨ (∃ i, play_accepted p c s
          = Ok (true, None) (set_current_player_idx i (card_played p c s))).
Proof.
  intros Hinv Hp Hh Hc Hopen.
  pose proof (card_played_inv p c h s Hinv Hp Hh Hopen) as Hinv2.
  destruct (py_remove_elem c h Hc) as [h' Hr].
  assert (Hs2 : card_played p c s
    = set_last_action
        (Some (p +:+ " played " +:+ Rank_value (rank c) +:+ " of " +:+ Suit_value (suit c)))
        (set_current_pile (current_pile s ++ [(p, c)])
           (set_players (dict_set p h' (players s)) s))).
  { unfold card_played. by rewrite (cards_of_Some _ _ _ Hh), Hr. }
  assert (Hpile2 : current_pile (card_played p c s) ≠ []).
  { unfold card_played. fsimpl. by destruct (current_pile s). }
  unfold play_accepted. munfold. rewrite (hand_of_Some _ _ _ Hh), Hr. cbv beta.
  fsimpl. rewrite <- Hs2.
  destruct (decide (Some (suit c) ≠ original_suit s)).
  - left. destruct (resolve_round_inv_run true _ Hinv2 Hpile2) as (w & idx & f & k & a & Hw & ->).
    by exists true, w, idx, f, k, a.
  - destruct (length (remove_dups (current_pile (card_played p c s)).*1)
              =? length (active_players (card_played p c s))).
    + left. destruct (resolve_round_inv_run false _ Hinv2 Hpile2)
        as (w & idx & f & k & a & Hw & ->).
      by exists false, w, idx, f, k, a.
    + right. destruct (advance_run (card_played p c s)) as (i & -> & _). by exists i.
Qed.

Lemma play_card_run p cd s :
  inv s →
  ((final (play_card p cd s) = s ∨ ∃ c, final (play_card p cd s) = round_opened c s)
   ∧ ∀ r s', play_card p cd s ≠ Ok (true, r) s')
  ∨ ∃ c h,
      p ∈ active_players s ∧ dict_get p (players s) = Some h ∧ c ∈ h
      ∧ card_of_dict cd s = Ok c s
      ∧ ((∃ sb w idx f k a,
            w ∈ active_players s
            ∧ play_card p cd s
              = Ok (true, None)
                  (resolved sb w idx f k a (card_played p c (round_opened c s))))
         ∨ (∃ i, play_card p cd s
                 = Ok (true, None)
                     (set_current_player_idx i (card_played p c (round_opened c s))))).
Proof.
  intros Hinv.
  destruct (play_card_cases p cd s)
    as [[Hf Hno]|(c & h & _ & _ & _ & Hp & Hcard & Hh & Hc & _ & Hsuit)].
  { left. split; [by left|done]. }
  destruct Hsuit as [(cs & _ & _ & _ & Hrej)|[_ Hacc]].
  { left. rewrite Hrej. split; [right; by exists c|]. by intros. }
  right. exists c, h. do 4 (split; [done|]). rewrite Hacc.
  destruct (round_opened_fields c s) as (Hpl & _ & Hact & Hpile & _).
  destruct (play_accepted_run p c h (round_opened c s)) as [Hres|Hadv].
  - by apply round_opened_inv.
  - by rewrite Hact.
  - by rewrite Hpl.
  - done.
  - rewrite Hpile. apply round_opened_suit.
  - left. destruct Hres as (sb & w & idx & f & k & a & Hw & ->).
    exists sb, w, idx, f, k, a. by rewrite <- Hact.
  - by right.
Qed.

Lemma play_card_inv p cd s : inv s → inv (final (play_card p cd s)).
Proof.
  intros Hinv.
  destruct (play_card_run p cd s Hinv)
    as [[[->|[c ->]] _]|(c & h & Hp & Hh & Hc & _ & Hshape)];
    [done|by apply round_opened_inv|].
  destruct (round_opened_fields c s) as (Hpl & _ & Hact & Hpile & _).
  assert (Hinv2 : inv (card_played p c (round_opened c s))).
  { apply (card_played_inv p c h); [by apply round_opened_inv|by rewrite Hact
      |by rewrite Hpl|]. rewrite Hpile. apply round_opened_suit. }
  destruct Hshape as [(sb & w & idx & f & k & a & Hw & ->)|(i & ->)]; cbn [final].
  - apply resolved_inv; [done|]. unfold card_played. fsimpl. by rewrite Hact.
  - by destruct Hinv2.
Qed.

Lemma play_card_cards p cd r s s' :
  inv s → play_card p cd s = Ok (true, r) s' → cards_in_game s' ≡ₚ cards_in_game s.
Proof.
  intros Hinv Hplay.
  destruct (play_card_run p cd s Hinv) as [[_ Hno]|(c & h & Hp & Hh & Hc & _ & Hshape)];
    [by destruct (Hno r s')|].
  destruct (round_opened_fields c s) as (Hpl & _ & Hact & Hpile & Hdis & _).
  assert (Hcards : cards_in_game (card_played p c (round_opened c s)) ≡ₚ cards_in_game s).
  { rewrite (card_played_cards p c h) by (by rewrite ?Hpl).
    unfold cards_in_game, cards_in_hands. by rewrite Hpl, Hpile, Hdis. }
  destruct Hshape as [(sb & w & idx & f & k & a & Hw & Hrun)|(i & Hrun)];
    rewrite Hrun in Hplay; injection Hplay as _ <-.
  - rewrite resolved_cards; [done|].
    unfold card_played. fsimpl. rewrite dict_keys_set, Hpl.
    + by apply inv_active_keys.
    + rewrite Hpl. by eapply dict_get_keys.
  - done.
Qed.

(** ** Taking the hand of the player on the left *)

Lemma get_player_on_left_run p s :
  p ∈ active_players s →
  ∃ j lp,
    py_index p (active_players s) = Some j
    ∧ active_players s !! ((j + 1) mod length (active_players s)) = Some lp
    ∧ get_player_on_left p s = Ok (if decide (lp = p) then None else Some lp) s.
Proof.
  intros Hp. destruct (py_index_elem p _ Hp) as (j & Hj & _).
  assert (length (active_players s) ≠ 0).
  { destruct (active_players s); [by apply elem_of_nil in Hp|done]. }
  destruct (active_players s !! ((j + 1) mod length (active_players s))) as [lp|] eqn:Hlp.
  - exists j, lp. do 2 (split; [done|]).
    unfold get_player_on_left. munfold. rewrite decide_False by (by intros ?).
    unfold index_of. rewrite Hj. munfold. rewrite (item_at_Some _ _ _ _ Hlp).
    by destruct (decide (lp = p)).
  - apply lookup_ge_None in Hlp.
    pose proof (Nat.mod_upper_bound (j + 1) (length (active_players s))). lia.
Qed.

Lemma get_player_on_left_final p s : final (get_player_on_left p s) = s.
Proof.
  unfold get_player_on_left. munfold.
  destruct (decide (p ∉ active_players s)) as [|Hp]; [done|].
  apply dec_stable in Hp.
  destruct (get_player_on_left_run p s Hp) as (j & lp & Hj & Hlp & _).
  unfold index_of. rewrite Hj. munfold. rewrite (item_at_Some _ _ _ _ Hlp).
  by destruct (decide (lp = p)).
Qed.

Lemma take_hand_run p s :
  inv s →
  (∃ m, take_hand_from_left p s = Ok (false, m, None) s)
  ∨ ∃ lp idx f k a,
      game_started s = true ∧ finished s = false ∧ current_pile s = []
      ∧ current_player s = Ok p s
      ∧ p ∈ active_players s ∧ lp ∈ active_players s ∧ lp ≠ p
      ∧ get_player_on_left p s = Ok (Some lp) s
      ∧ cards_of lp s ≠ []
      ∧ take_hand_from_left p s
        = Ok (true,
              "Took " +:+ pretty (length (cards_of lp s)) +:+ " cards from " +:+ lp,
              Some lp)
            (set_last_action (Some (p +:+ " took " +:+ lp +:+ "'s hand!"))
               (set_resolved_winner None (set_resolved_pile []
                  (set_current_player_idx idx
                     (set_last_action a (set_kazhutha k (set_finished f
                        (hand_taken p lp s))))))))
      ∧ py_index p (active_players (hand_taken p lp s)) = Some idx
      ∧ game_over_outcome (hand_taken p lp s) f k.
Proof.
  intros Hinv. unfold take_hand_from_left. munfold.
  destruct (game_started s) eqn:Hst; [|left; by eexists].
  destruct (finished s) eqn:Hfin; [left; by eexists|]. cbn [negb orb].
  destruct (round_in_progress s && (0 <? length (current_pile s))) eqn:Hrip;
    [left; by eexists|].
  assert (Hpile : current_pile s = []).
  { destruct (current_pile s) as [|[q c] rest] eqn:Hp; [done|].
    destruct (inv_round s Hinv q c rest Hp) as (Hr & _). by rewrite Hr in Hrip. }
  destruct (decide (p ∉ active_players s)) as [|Hp]; [left; by eexists|].
  apply dec_stable in Hp.
  destruct (current_player_active s) as (cp & Hcp & _).
  { intros Hnil. rewrite Hnil in Hp. by apply elem_of_nil in Hp. }
  rewrite Hcp.
  destruct (decide (p ≠ cp)) as [|Heq]; [left; by eexists|].
  apply dec_stable in Heq as <-.
  destruct (get_player_on_left_run p s Hp) as (j & lp & Hj & Hlp & Hleft).
  rewrite Hleft.
  destruct (decide (lp = p)) as [|Hne]; [left; by eexists|].
  destruct lp as [|ch lp']; [left; by eexists|].
  set (lp := String ch lp') in *.
  assert (Hlpa : lp ∈ active_players s) by by eapply list_elem_of_lookup_2.
  destruct (dict_keys_get lp (players s)) as [lh Hlh]; [by apply inv_active_keys|].
  destruct (dict_keys_get p (players s)) as [hp Hhp]; [by apply inv_active_keys|].
  rewrite (hand_of_Some _ _ _ Hlh).
  destruct (length lh =? 0) eqn:Hlen; [left; by eexists|].
  apply Nat.eqb_neq in Hlen.
  rewrite (hand_of_Some _ _ _ Hlh), (hand_of_Some _ _ _ Hhp).
  erewrite hand_of_Some.
  2:{ fsimpl. rewrite dict_get_set_ne by done. apply dict_get_set_eq. }
  fsimpl.
  rewrite (py_remove_filter _ _ (inv_active_nodup s Hinv) Hlpa). cbv beta.
  pose proof (cards_of_Some _ _ _ Hlh) as Hcl.
  pose proof (cards_of_Some _ _ _ Hhp) as Hcp'.
  assert (Hs2 : hand_taken p lp s
    = set_active_players (filter (λ y, y ≠ lp) (active_players s))
        (set_winners (winners s ++ [lp])
           (set_players
              (dict_set p (sort_hand (hp ++ lh))
                 (dict_set lp [] (dict_set p (hp ++ lh) (players s))))
              (set_taken_hand_by (Some p) (set_taken_hand_from (Some lp)
                 (set_taken_hand_cards lh s)))))).
  { unfold hand_taken. by rewrite Hcl, Hcp'. }
  match goal with
  | |- context [_check_game_over ?S] =>
      match type of Hs2 with _ = ?X => change S with X end
  end.
  rewrite <- Hs2. clear Hs2.
  assert (Hkeys : dict_keys (players (hand_taken p lp s)) = dict_keys (players s)).
  { pose proof (dict_get_keys _ _ _ Hlh) as Hkl.
    pose proof (dict_get_keys _ _ _ Hhp) as Hkp.
    unfold hand_taken. fsimpl.
    rewrite (dict_keys_set p), (dict_keys_set lp), (dict_keys_set p); try done.
    - by rewrite dict_keys_set.
    - by rewrite !dict_keys_set by (by rewrite ?dict_keys_set). }
  assert (Hpa : p ∈ active_players (hand_taken p lp s)).
  { unfold hand_taken. fsimpl. apply list_elem_of_filter. split; [by intros ->|done]. }
  destruct (check_game_over_run (hand_taken p lp s)) as (f & k & a & -> & Hgo).
  { intros q [_ Hq]%list_elem_of_filter. rewrite Hkeys. by apply inv_active_keys. }
  fsimpl. rewrite decide_True by done.
  destruct (py_index_elem p _ Hpa) as (idx & Hidx & _).
  unfold index_of. rewrite Hidx. munfold.
  right. exists lp, idx, f, k, a. rewrite Hcl.
  do 8 (split; [done|]).
  split; [by destruct lh|]. done.
Qed.


Lemma current_player_at p s :
  active_players s !! current_player_idx s = Some p → current_player s = Ok p s.
Proof.
  intros Hp. unfold current_player. munfold.
  pose proof (lookup_lt_Some _ _ _ Hp) as Hlt.
  rewrite decide_False by (intros Hnil; rewrite Hnil in Hlt; simpl in Hlt; lia).
  rewrite Nat.mod_small by done. by apply item_at_Some.
Qed.

Lemma hand_taken_hands p lp hp hl s :
  dict_get p (players s) = Some hp → dict_get lp (players s) = Some hl → lp ≠ p →
  dict_get p (players (hand_taken p lp s)) = Some (sort_hand (hp ++ hl))
  ∧ dict_get lp (players (hand_taken p lp s)) = Some []
  ∧ ∀ q, q ≠ p → q ≠ lp →
         dict_get q (players (hand_taken p lp s)) = dict_get q (players s).
Proof.
  intros Hp Hl Hne. unfold hand_taken. fsimpl.
  rewrite (cards_of_Some _ _ _ Hp), (cards_of_Some _ _ _ Hl). split; [|split].
  - apply dict_get_set_eq.
  - rewrite dict_get_set_ne by done. apply dict_get_set_eq.
  - intros q Hqp Hql. by rewrite !dict_get_set_ne by done.
Qed.


(** C10.  On a session that satisfies the invariant and has exactly two
    active players, when [take_hand_from_left p] returns success the game
    is over: [finished] is true, the left neighbour named in the result is
    appended to [winners], [p] is recorded as the kazhutha, and [p] holds
    every card that is not discarded: every other hand is empty and so is
    the pile. *)
Theorem take_hand_between_two_ends_game (s s' : GameSession) (p msg : string)
    (taken : option string) :
  inv s →
  length (active_players s) = 2 →
  take_hand_from_left p s = Ok (true, msg, taken) s' →
  finished s' = true
  ∧ (∃ lp, taken = Some lp ∧ winners s' = winners s ++ [lp])
  ∧ kazhutha s' = Some p
  ∧ (∀ q h, dict_get q (players s') = Some h → q ≠ p → h = [])
  ∧ current_pile s' = [].
Proof.
  intros Hinv Htwo Htake.
  destruct (take_hand_run p s Hinv)
    as [[m Hm]|(lp & idx & f & k & a & _ & _ & Hpile & _ & Hp & Hlp & Hne & _ & Hcards
                & Hrun & _ & Hgo)];
    [congruence|].
  rewrite Hrun in Htake. injection Htake as <- <- <-.
  destruct (dict_keys_get lp (players s)) as [hl Hhl]; [by apply inv_active_keys|].
  destruct (dict_keys_get p (players s)) as [hp Hhp]; [by apply inv_active_keys|].
  destruct (hand_taken_hands p lp hp hl s Hhp Hhl Hne) as (Hp' & Hl' & Hothers).
  rewrite (cards_of_Some _ _ _ Hhl) in Hcards.
  assert (Hact : ∀ q, q ∈ active_players s → q = p ∨ q = lp).
  { pose proof (inv_active_nodup s Hinv) as Hnd.
    destruct (active_players s) as [|x [|y [|z l]]]; try done.
    apply NoDup_cons in Hnd as [Hxy _]. rewrite not_elem_of_cons in Hxy.
    rewrite !elem_of_cons in Hp, Hlp. intros q. rewrite !elem_of_cons.
    intros [->|[->|Hq]]; [| |by apply elem_of_nil in Hq].
    - destruct Hp as [->|[->|Hq]], Hlp as [->|[->|Hq']]; try tauto;
        exfalso; by eapply elem_of_nil.
    - destruct Hp as [->|[->|Hq]], Hlp as [->|[->|Hq']]; try tauto;
        exfalso; by eapply elem_of_nil. }
  assert (Hfilter : filter (λ q, 0 < length (cards_of q (hand_taken p lp s)))
                      (active_players (hand_taken p lp s)) = [p]).
  { change (active_players (hand_taken p lp s))
      with (filter (λ q, q ≠ lp) (active_players s)).
    rewrite list_filter_filter.
    pose proof (inv_active_nodup s Hinv) as Hnd.
    assert (Hlen : 0 < length (cards_of p (hand_taken p lp s))).
    { rewrite (cards_of_Some _ _ _ Hp'), sort_hand_length, length_app.
      destruct hl; [done|simpl; lia]. }
    destruct (active_players s) as [|x [|y [|z l]]]; try done.
    apply NoDup_cons in Hnd as [Hxy _]. rewrite not_elem_of_cons in Hxy.
    destruct (Hact x) as [->| ->]; [left|..]; (destruct (Hact y) as [->| ->]; [right; left|..]);
      try tauto.
    - rewrite filter_cons_True by done. rewrite filter_cons_False by (by intros [_ ?]).
      done.
    - rewrite filter_cons_False by (by intros [_ ?]). rewrite filter_cons_True by done.
      done. }
  unfold game_over_outcome in Hgo. rewrite Hfilter in Hgo. destruct Hgo as [-> ->].
  fsimpl. split; [done|]. split; [by exists lp|]. split; [done|]. split; [|done].
  intros q h Hq Hqp. destruct (decide (q = lp)) as [->|Hql]; [congruence|].
  rewrite Hothers in Hq by done. apply (inv_benched s Hinv q h Hq).
  intros Hqa. destruct (Hact q Hqa); done.
Qed.

Lemma take_hand_inv p s : inv s → inv (final (take_hand_from_left p s)).
Proof.
  intros Hinv.
  destruct (take_hand_run p s Hinv)
    as [[m ->]|(lp & idx & f & k & a & Hst & _ & Hpile & _ & Hp & Hlp & Hne & _ & _
                & -> & _ & _)];
    [done|]. cbn [final].
  destruct (dict_keys_get lp (players s)) as [hl Hhl]; [by apply inv_active_keys|].
  destruct (dict_keys_get p (players s)) as [hp Hhp]; [by apply inv_active_keys|].
  destruct (hand_taken_hands p lp hp hl s Hhp Hhl Hne) as (Hp' & Hl' & Hothers).
  assert (Hkeys : dict_keys (players (hand_taken p lp s)) = dict_keys (players s)).
  { pose proof (dict_get_keys _ _ _ Hhl) as Hkl.
    pose proof (dict_get_keys _ _ _ Hhp) as Hkp.
    unfold hand_taken. fsimpl.
    rewrite (dict_keys_set p), (dict_keys_set lp), (dict_keys_set p); try done.
    - by rewrite dict_keys_set.
    - by rewrite !dict_keys_set by (by rewrite ?dict_keys_set). }
  split; fsimpl.
  - rewrite Hkeys. apply (inv_keys s Hinv).
  - rewrite Hkeys. apply (inv_order s Hinv).
  - apply NoDup_filter, (inv_active_nodup s Hinv).
  - intros q [_ Hq]%list_elem_of_filter. by apply (inv_active s Hinv).
  - intros q c Hq. unfold hand_taken in Hq. fsimpl. rewrite Hpile in Hq.
    by apply elem_of_nil in Hq.
  - intros q h Hq Hqa. unfold hand_taken in Hqa. fsimpl.
    rewrite list_elem_of_filter in Hqa.
    destruct (decide (q = lp)) as [->|Hql]; [congruence|].
    destruct (decide (q = p)) as [->|Hqp]; [by destruct Hqa|].
    rewrite Hothers in Hq by done. apply (inv_benched s Hinv q h Hq). tauto.
  - intros q c rest Hq. unfold hand_taken in Hq. fsimpl. by rewrite Hpile in Hq.
  - unfold hand_taken. fsimpl. by rewrite Hst.
Qed.

Lemma take_hand_cards p s s' msg taken :
  inv s → take_hand_from_left p s = Ok (true, msg, taken) s' →
  cards_in_game s' ≡ₚ cards_in_game s.
Proof.
  intros Hinv Htake.
  destruct (take_hand_run p s Hinv)
    as [[m Hm]|(lp & idx & f & k & a & _ & _ & _ & _ & Hp & Hlp & Hne & _ & _
                & Hrun & _ & _)];
    [congruence|].
  rewrite Hrun in Htake. injection Htake as <- <- <-.
  destruct (dict_keys_get lp (players s)) as [hl Hhl]; [by apply inv_active_keys|].
  destruct (dict_keys_get p (players s)) as [hp Hhp]; [by apply inv_active_keys|].
  unfold cards_in_game, cards_in_hands, hand_taken. fsimpl.
  rewrite (cards_of_Some _ _ _ Hhp), (cards_of_Some _ _ _ Hhl).
  pose proof (concat_values_set p (hp ++ hl) hp _ Hhp) as H1.
  assert (Hl1 : dict_get lp (dict_set p (hp ++ hl) (players s)) = Some hl)
    by by rewrite dict_get_set_ne.
  pose proof (concat_values_set lp [] hl _ Hl1) as H2.
  assert (Hp2 : dict_get p (dict_set lp [] (dict_set p (hp ++ hl) (players s)))
                = Some (hp ++ hl)).
  { rewrite dict_get_set_ne by done. apply dict_get_set_eq. }
  pose proof (concat_values_set p (sort_hand (hp ++ hl)) (hp ++ hl) _ Hp2) as H3.
  pose proof (sort_hand_perm (hp ++ hl)) as H4.
  card_count.
Qed.

(** ** Dealing *)

Lemma deal_run names deck i s :
  names ≠ [] →
  (∀ q, q ∈ names → q ∈ dict_keys (players s)) →
  ∃ d, deal names deck i s = Ok tt (set_players d s)
       ∧ dict_keys d = dict_keys (players s)
       ∧ concat (dict_values d) ≡ₚ concat (dict_values (players s)) ++ deck.
Proof.
  intros Hne. revert i s. induction deck as [|card deck IH]; intros i s Hnames; simpl.
  - exists (players s). rewrite set_players_same, app_nil_r. done.
  - munfold.
    destruct (names !! (i mod length names)) as [name|] eqn:Hname.
    2:{ apply lookup_ge_None in Hname.
        assert (length names ≠ 0) by by destruct names.
        pose proof (Nat.mod_upper_bound i (length names)). lia. }
    rewrite (item_at_Some _ _ _ _ Hname).
    assert (Hk : name ∈ dict_keys (players s))
      by (apply Hnames; by eapply list_elem_of_lookup_2).
    destruct (dict_keys_get _ _ Hk) as [h Hh].
    rewrite (hand_of_Some _ _ _ Hh).
    destruct (IH (S i) (set_players (dict_set name (h ++ [card]) (players s)) s))
      as (d & -> & Hkeys & Hcards).
    { intros q Hq. fsimpl. rewrite dict_keys_set by done. by apply Hnames. }
    fsimpl. exists d. split; [done|]. split; [by rewrite Hkeys, dict_keys_set|].
    pose proof (concat_values_set name (h ++ [card]) h _ Hh) as H1.
    card_count.
Qed.

Lemma sort_hands_run names s :
  (∀ q, q ∈ names → q ∈ dict_keys (players s)) →
  ∃ d, sort_hands names s = Ok tt (set_players d s)
       ∧ dict_keys d = dict_keys (players s)
       ∧ concat (dict_values d) ≡ₚ concat (dict_values (players s)).
Proof.
  revert s. induction names as [|name names IH]; intros s Hnames; simpl.
  - exists (players s). by rewrite set_players_same.
  - munfold.
    assert (Hk : name ∈ dict_keys (players s)) by (apply Hnames; left).
    destruct (dict_keys_get _ _ Hk) as [h Hh].
    rewrite (hand_of_Some _ _ _ Hh).
    destruct (IH (set_players (dict_set name (sort_hand h) (players s)) s))
      as (d & -> & Hkeys & Hcards).
    { intros q Hq. fsimpl. rewrite dict_keys_set by done. apply Hnames. by right. }
    fsimpl. exists d. split; [done|]. split; [by rewrite Hkeys, dict_keys_set|].
    pose proof (concat_values_set name (sort_hand h) h _ Hh) as H1.
    pose proof (sort_hand_perm h) as H2.
    card_count.
Qed.

Lemma find_ace_holder_run order i s :
  (∀ q, q ∈ order → q ∈ dict_keys (players s)) →
  (∃ j q h, order !! j = Some q ∧ dict_get q (players s) = Some h
            ∧ ace_of_spades ∈ h
            ∧ find_ace_holder order i s = Ok tt (set_current_player_idx (i + j) s))
  ∨ ((∀ q h, q ∈ order → dict_get q (players s) = Some h → ace_of_spades ∉ h)
     ∧ find_ace_holder order i s = Ok tt s).
Proof.
  revert i. induction order as [|q order IH]; intros i Horder; simpl.
  - right. split; [|done]. intros q h Hq. by apply elem_of_nil in Hq.
  - munfold.
    assert (Hk : q ∈ dict_keys (players s)) by (apply Horder; left).
    destruct (dict_keys_get _ _ Hk) as [h Hh].
    rewrite (hand_of_Some _ _ _ Hh).
    destruct (decide (ace_of_spades ∈ h)) as [Hace|Hace].
    + left. exists 0, q, h. by rewrite Nat.add_0_r.
    + destruct (IH (S i)) as [(j & q' & h' & Hj & Hq' & Ha & ->)|[Hnone ->]].
      * intros q' Hq'. apply Horder. by right.
      * left. exists (S j), q', h'. rewrite Nat.add_succ_r. done.
      * right. split; [|done]. intros q' h' [->|Hq']%elem_of_cons Hh'.
        -- congruence.
        -- by eapply Hnone.
Qed.

(** The session [start_game] leaves once the cards are dealt and sorted
    into the hands [d] and the turn index is [idx]. *)
Lemma start_game_with_run deck s :
  inv s →
  2 ≤ length (players s) →
  ∃ d idx,
    start_game_with deck s
    = Ok tt (set_connected_players (list_to_set (player_order s))
               (set_original_players (player_order s)
                  (set_game_first_card_played false
                     (set_game_started true
                        (set_current_player_idx idx
                           (set_active_players (player_order s)
                              (set_players d s)))))))
    ∧ dict_keys d = dict_keys (players s)
    ∧ concat (dict_values d) ≡ₚ concat (dict_values (players s)) ++ deck
    ∧ ((∃ q h, player_order s !! idx = Some q ∧ dict_get q d = Some h
               ∧ ace_of_spades ∈ h)
       ∨ (∀ q h, dict_get q d = Some h → ace_of_spades ∉ h)).
Proof.
  intros Hinv Hlen. unfold start_game_with. munfold.
  destruct (Nat.ltb_spec (length (players s)) 2) as [|_]; [lia|].
  destruct (deal_run (dict_keys (players s)) deck 0 s) as (d1 & -> & Hk1 & Hc1); [|done|].
  { unfold dict_keys. intros Hnil. apply (f_equal length) in Hnil.
    rewrite length_fmap in Hnil. simpl in Hnil. lia. }
  fsimpl.
  destruct (sort_hands_run (dict_keys d1) (set_players d1 s)) as (d2 & -> & Hk2 & Hc2);
    [done|].
  fsimpl.
  lazymatch goal with
  | |- context [find_ace_holder ?o ?i ?S] =>
      destruct (find_ace_holder_run o i S)
        as [(j & q & h & Hj & Hq & Ha & ->)|[Hnone ->]]
  end.
  - intros q Hq. fsimpl. by rewrite Hk2, Hk1, <- (inv_order s Hinv).
  - fsimpl. exists d2, j. split; [done|]. split; [congruence|].
    split; [by rewrite Hc2|]. left. by exists q, h.
  - fsimpl. exists d2, (current_player_idx s). split; [done|]. split; [congruence|].
    split; [by rewrite Hc2|]. right. intros q h Hq. apply (Hnone q h); [|done].
    rewrite (inv_order s Hinv), <- Hk1, <- Hk2. by eapply dict_get_keys.
Qed.

(** ** The deck *)

Lemma ordered_deck_NoDup : NoDup ordered_deck.
Proof. apply (bool_decide_unpack _). by vm_compute. Qed.

Lemma ordered_deck_length : length ordered_deck = 52.
Proof. reflexivity. Qed.

Lemma ordered_deck_complete c : c ∈ ordered_deck.
Proof. destruct c as [[] []]; apply (bool_decide_unpack _); by vm_compute. Qed.

Lemma concat_values_elem_of (c : Card) d :
  NoDup (dict_keys d) → c ∈ concat (dict_values d) →
  ∃ q h, dict_get q d = Some h ∧ c ∈ h.
Proof.
  intros Hnd (h & Hc & Hh)%elem_of_concat.
  apply list_elem_of_fmap in Hh as ([q h'] & -> & Hqh).
  exists q, h'. split; [by apply elem_of_dict_get|done].
Qed.

Lemma concat_values_unique (c : Card) d p q hp hq :
  NoDup (concat (dict_values d)) →
  dict_get p d = Some hp → dict_get q d = Some hq → c ∈ hp → c ∈ hq → p = q.
Proof.
  unfold dict_values. induction d as [|[k v] d IH]; csimpl; [done|].
  intros [Hv [Hdisj Hnd]]%NoDup_app.
  assert (Hin : ∀ r hr, dict_get r d = Some hr → c ∈ hr → c ∈ concat d.*2).
  { intros r hr Hr Hc. apply elem_of_concat. exists hr. split; [done|].
    apply list_elem_of_fmap. exists (r, hr). split; [done|]. by apply dict_get_elem_of. }
  destruct (decide (k = p)) as [Hkp|Hkp]; destruct (decide (k = q)) as [Hkq|Hkq].
  - congruence.
  - intros [= ->] Hq Hcp Hcq. destruct (Hdisj c Hcp). by eapply Hin.
  - intros Hp [= ->] Hcp Hcq. destruct (Hdisj c Hcq). by eapply Hin.
  - by apply IH.
Qed.

Lemma lobby_no_cards s : inv s → game_started s = false → cards_in_game s = [].
Proof.
  intros Hinv Hl. destruct (inv_lobby s Hinv Hl) as (Hact & Hpile & Hdis).
  unfold cards_in_game, cards_in_hands. rewrite Hpile, Hdis. simpl.
  rewrite app_nil_r.
  assert (Hall : ∀ q h, (q, h) ∈ players s → h = []).
  { intros q h Hqh. apply (inv_benched s Hinv q).
    - apply elem_of_dict_get; [apply (inv_keys s Hinv)|done].
    - rewrite Hact. apply not_elem_of_nil. }
  unfold dict_values. induction (players s) as [|[q h] d IH]; csimpl; [done|].
  rewrite (Hall q h) by left. simpl. apply IH. intros q' h' Hq'. apply (Hall q'). by right.
Qed.

(** ** The lobby and the connections *)

(** The invariant reads only these fields. *)
Lemma inv_same_fields s s' :
  players s' = players s → player_order s' = player_order s →
  active_players s' = active_players s → current_pile s' = current_pile s →
  round_in_progress s' = round_in_progress s → original_suit s' = original_suit s →
  current_suit s' = current_suit s → game_started s' = game_started s →
  discarded_cards s' = discarded_cards s →
  inv s → inv s'.
Proof.
  intros E1 E2 E3 E4 E5 E6 E7 E8 E9 [H1 H2 H3 H4 H5 H6 H7 H8].
  split; rewrite ?E1, ?E2, ?E3, ?E4, ?E5, ?E6, ?E7, ?E8, ?E9; done.
Qed.

Lemma new_session_inv game_id host_name : inv (new_session game_id host_name).
Proof.
  split; simpl.
  - apply NoDup_singleton.
  - done.
  - apply NoDup_nil_2.
  - intros p Hp. by apply elem_of_nil in Hp.
  - intros p c Hp. by apply elem_of_nil in Hp.
  - intros p h. case_decide; [|done]. by intros [= <-].
  - done.
  - done.
Qed.

Lemma add_player_inv p s : inv s → inv (final (add_player p s)).
Proof.
  intros Hinv. unfold add_player. munfold.
  destruct (bool_decide (p ∈ dict_keys (players s))) eqn:Hin; [done|].
  apply bool_decide_eq_false in Hin.
  destruct (game_started s) eqn:Hst; [done|]. cbn [orb].
  destruct (8 <=? length (players s)); [done|]. simpl.
  destruct (inv_lobby s Hinv Hst) as (Hact & Hpile & Hdis).
  split; fsimpl.
  - rewrite dict_keys_set_new by done. apply NoDup_app.
    split; [apply (inv_keys s Hinv)|]. split; [|apply NoDup_singleton].
    intros q Hq ->%list_elem_of_singleton. done.
  - by rewrite dict_keys_set_new, (inv_order s Hinv).
  - apply (inv_active_nodup s Hinv).
  - intros q Hq. rewrite Hact in Hq. by apply elem_of_nil in Hq.
  - intros q c Hq. rewrite Hpile in Hq. by apply elem_of_nil in Hq.
  - intros q h Hq Hqa. rewrite dict_get_set in Hq.
    destruct (decide (p = q)); [congruence|]. by apply (inv_benched s Hinv q).
  - intros q c rest Hq. by rewrite Hpile in Hq.
  - done.
Qed.

Lemma remove_player_same p s :
  inv s → game_started s = true →
  players (final (remove_player p s)) = players s
  ∧ player_order (final (remove_player p s)) = player_order s
  ∧ active_players (final (remove_player p s)) = active_players s
  ∧ current_pile (final (remove_player p s)) = current_pile s
  ∧ round_in_progress (final (remove_player p s)) = round_in_progress s
  ∧ original_suit (final (remove_player p s)) = original_suit s
  ∧ current_suit (final (remove_player p s)) = current_suit s
  ∧ game_started (final (remove_player p s)) = game_started s
  ∧ discarded_cards (final (remove_player p s)) = discarded_cards s
  ∧ winners (final (remove_player p s)) = winners s.
Proof.
  intros Hinv Hst. unfold remove_player. munfold.
  destruct (decide (p ∉ dict_keys (players s))); [done|].
  rewrite Hst. cbn [negb].
  lazymatch goal with
  | |- context [current_player ?S] =>
      pose proof (current_player_final S) as Hf;
      destruct (current_player S) as [cp s1|e s1]; simpl in Hf; subst s1
  end; [|done].
  fsimpl. by destruct (bool_decide (p = cp) && bool_decide (p ∈ active_players s)).
Qed.

Lemma remove_player_inv p s : inv s → inv (final (remove_player p s)).
Proof.
  intros Hinv. destruct (game_started s) eqn:Hst.
  { destruct (remove_player_same p s Hinv Hst) as (?&?&?&?&?&?&?&?&?&?).
    by apply (inv_same_fields s). }
  unfold remove_player. munfold.
  destruct (decide (p ∉ dict_keys (players s))) as [|Hin]; [done|].
  apply dec_stable in Hin. rewrite Hst. cbn [negb]. fsimpl.
  destruct (inv_lobby s Hinv Hst) as (Hact & Hpile & Hdis).
  pose proof (inv_keys s Hinv) as Hnd.
  destruct (dict_keys_del p (players s)) as [Hnone|Hsome].
  { apply py_remove_None in Hnone. done. }
  rewrite (inv_order s Hinv), Hsome. simpl.
  destruct (py_remove_NoDup _ _ _ Hnd Hsome) as [Hnd' _].
  split; fsimpl.
  - done.
  - done.
  - apply (inv_active_nodup s Hinv).
  - intros q Hq. rewrite Hact in Hq. by apply elem_of_nil in Hq.
  - intros q c Hq. rewrite Hpile in Hq. by apply elem_of_nil in Hq.
  - intros q h Hq Hqa. apply (inv_benched s Hinv q); [|done].
    apply elem_of_dict_get; [done|]. eapply elem_of_dict_del. by apply dict_get_elem_of.
  - intros q c rest Hq. by rewrite Hpile in Hq.
  - done.
Qed.

Lemma player_reconnected_same p s :
  inv s →
  players (final (player_reconnected p s)) = players s
  ∧ player_order (final (player_reconnected p s)) = player_order s
  ∧ active_players (final (player_reconnected p s)) = active_players s
  ∧ current_pile (final (player_reconnected p s)) = current_pile s
  ∧ round_in_progress (final (player_reconnected p s)) = round_in_progress s
  ∧ original_suit (final (player_reconnected p s)) = original_suit s
  ∧ current_suit (final (player_reconnected p s)) = current_suit s
  ∧ game_started (final (player_reconnected p s)) = game_started s
  ∧ discarded_cards (final (player_reconnected p s)) = discarded_cards s
  ∧ winners (final (player_reconnected p s)) = winners s.
Proof.
  intros Hinv. unfold player_reconnected. munfold. fsimpl.
  assert (Htail : ∀ s1 : GameSession,
    let r := (if decide (waiting_for_player s1 = Some p) is left _
              then λ s0, match index_of p (active_players s0) s0 with
                         | Ok a s' =>
                             Ok tt (set_waiting_for_player None
                                      (set_current_player_idx a s'))
                         | Raise e s' => Raise e s'
                         end
              else λ s0, Ok tt s0) s1 in
    players (final r) = players s1
    ∧ player_order (final r) = player_order s1
    ∧ active_players (final r) = active_players s1
    ∧ current_pile (final r) = current_pile s1
    ∧ round_in_progress (final r) = round_in_progress s1
    ∧ original_suit (final r) = original_suit s1
    ∧ current_suit (final r) = current_suit s1
    ∧ game_started (final r) = game_started s1
    ∧ discarded_cards (final r) = discarded_cards s1
    ∧ winners (final r) = winners s1).
  { intros s1. simpl. destruct (decide (waiting_for_player s1 = Some p)); [|done].
    pose proof (index_of_final p (active_players s1) s1) as Hf.
    destruct (index_of p (active_players s1) s1) as [i s2|ex s2]; simpl in Hf; by subst s2. }
  specialize (Htail (set_connected_players ({[p]} ∪ connected_players s) s)).
  destruct (dict_get p (players s)) as [h|] eqn:Hh; [|exact Htail].
  destruct (0 <? length h) eqn:Hlen; [|exact Htail].
  destruct (decide (p ∉ active_players
                          (set_connected_players ({[p]} ∪ connected_players s) s)))
    as [Hna|]; [|exact Htail].
  rewrite (inv_benched s Hinv p h Hh Hna) in Hlen. done.
Qed.

Lemma player_reconnected_inv p s : inv s → inv (final (player_reconnected p s)).
Proof.
  intros Hinv. destruct (player_reconnected_same p s Hinv) as (?&?&?&?&?&?&?&?&?&?).
  by apply (inv_same_fields s).
Qed.

Lemma clear_hands_run names s :
  (∀ q, q ∈ names → q ∈ dict_keys (players s)) →
  ∃ d, clear_hands names s = Ok tt (set_players d s)
       ∧ dict_keys d = dict_keys (players s)
       ∧ ∀ q h, dict_get q d = Some h →
                (q ∈ names ∧ h = []) ∨ ((q ∉ names) ∧ dict_get q (players s) = Some h).
Proof.
  revert s. induction names as [|name names IH]; intros s Hnames; simpl.
  - exists (players s). rewrite set_players_same. split; [done|]. split; [done|].
    intros q h Hq. right. split; [apply not_elem_of_nil|done].
  - munfold.
    destruct (IH (set_players (dict_set name [] (players s)) s)) as (d & -> & Hk & Hd).
    { intros q Hq. fsimpl. rewrite dict_keys_set by (apply Hnames; left).
      apply Hnames. by right. }
    fsimpl. exists d. split; [done|].
    split; [rewrite Hk; apply dict_keys_set, Hnames; left|].
    intros q h Hq. destruct (Hd q h Hq) as [[Hin ->]|[Hnin Hget]].
    + left. split; [by right|done].
    + rewrite dict_get_set in Hget. destruct (decide (name = q)) as [->|Hne].
      * left. split; [left|congruence].
      * right. split; [|done]. by apply not_elem_of_cons.
Qed.

Lemma reset_game_inv s : inv s → inv (final (reset_game s)).
Proof.
  intros Hinv. unfold reset_game. munfold.
  destruct (clear_hands_run (dict_keys (players s)) s) as (d & -> & Hk & Hd); [done|].
  simpl. split; fsimpl.
  - rewrite Hk. apply (inv_keys s Hinv).
  - rewrite Hk. apply (inv_order s Hinv).
  - apply NoDup_nil_2.
  - intros q Hq. by apply elem_of_nil in Hq.
  - intros q c Hq. by apply elem_of_nil in Hq.
  - intros q h Hq _. destruct (Hd q h Hq) as [[_ ->]|[Hnin Hget]]; [done|].
    destruct Hnin. by eapply dict_get_keys.
  - done.
  - done.
Qed.

Lemma start_game_with_inv deck s : inv s → inv (final (start_game_with deck s)).
Proof.
  intros Hinv. destruct (Nat.lt_ge_cases (length (players s)) 2) as [Hlt|Hge].
  { unfold start_game_with. munfold.
    destruct (Nat.ltb_spec (length (players s)) 2); [done|lia]. }
  destruct (start_game_with_run deck s Hinv Hge) as (d & idx & -> & Hk & _ & _).
  simpl. split; fsimpl.
  - rewrite Hk. apply (inv_keys s Hinv).
  - rewrite Hk. apply (inv_order s Hinv).
  - rewrite (inv_order s Hinv). apply (inv_keys s Hinv).
  - done.
  - intros q c Hq. by apply (inv_active s Hinv), (inv_pile s Hinv q c).
  - intros q h Hq Hqa. destruct Hqa. rewrite (inv_order s Hinv), <- Hk.
    by eapply dict_get_keys.
  - apply (inv_round s Hinv).
  - done.
Qed.

(** ** Winners stay out *)

(** What a move does to [winners] and [active_players]: names are only
    appended to the first, and those appended are out of the second,
    which gains no name. *)
Lemma resolved_winners sb w idx f k a s :
  ∃ l, winners (resolved sb w idx f k a s) = winners s ++ l
       ∧ (∀ x, x ∈ l → x ∉ active_players (resolved sb w idx f k a s))
       ∧ (∀ q, q ∈ active_players (resolved sb w idx f k a s) → q ∈ active_players s).
Proof.
  assert (Hact : active_players (settle_pile sb w s) = active_players s)
    by (unfold settle_pile; by destruct sb).
  assert (Hwin : winners (settle_pile sb w s) = winners s)
    by (unfold settle_pile; by destruct sb).
  unfold resolved, retire_winners, clear_round. fsimpl. rewrite Hact, Hwin.
  eexists. split; [done|]. split.
  - intros x [Hx _]%list_elem_of_filter [Hnx _]%list_elem_of_filter. done.
  - by intros q [_ Hq]%list_elem_of_filter.
Qed.

Lemma after_move_winners m s :
  inv s →
  ∃ l, winners (after_move m s) = winners s ++ l
       ∧ (∀ x, x ∈ l → x ∉ active_players (after_move m s))
       ∧ (∀ q, q ∈ active_players (after_move m s) → q ∈ active_players s).
Proof.
  intros Hinv. destruct m as [p cd|p|p|p]; cbn [after_move].
  - destruct (play_card_run p cd s Hinv)
      as [[[->|[c ->]] _]|(c & h & _ & _ & _ & _ & Hshape)].
    + exists []. rewrite app_nil_r. split; [done|]. split; [|done].
      intros x Hx. by apply elem_of_nil in Hx.
    + destruct (round_opened_fields c s) as (_ & _ & -> & _ & _ & -> & _).
      exists []. rewrite app_nil_r. split; [done|]. split; [|done].
      intros x Hx. by apply elem_of_nil in Hx.
    + destruct (round_opened_fields c s) as (_ & _ & Hact & _ & _ & Hwin & _).
      destruct Hshape as [(sb & w & idx & f & k & a & _ & ->)|(i & ->)]; cbn [final].
      * destruct (resolved_winners sb w idx f k a (card_played p c (round_opened c s)))
          as (l & Hl & Hout & Hsub).
        exists l. unfold card_played in Hl, Hsub. fsimpl. rewrite Hwin in Hl.
        rewrite Hact in Hsub. done.
      * unfold card_played. fsimpl. rewrite Hact, Hwin.
        exists []. rewrite app_nil_r. split; [done|]. split; [|done].
        intros x Hx. by apply elem_of_nil in Hx.
  - destruct (take_hand_run p s Hinv)
      as [[m ->]|(lp & idx & f & k & a & _ & _ & _ & _ & _ & _ & _ & _ & _ & -> & _ & _)];
      cbn [final].
    + exists []. rewrite app_nil_r. split; [done|]. split; [|done].
      intros x Hx. by apply elem_of_nil in Hx.
    + exists [lp]. unfold hand_taken. fsimpl. split; [done|]. split.
      * intros x ->%list_elem_of_singleton [Hx _]%list_elem_of_filter. done.
      * by intros q [_ Hq]%list_elem_of_filter.
  - exists []. rewrite app_nil_r. destruct (game_started s) eqn:Hst.
    + destruct (remove_player_same p s Hinv Hst) as (_&_& -> &_&_&_&_&_&_& ->).
      split; [done|]. split; [|done]. intros x Hx. by apply elem_of_nil in Hx.
    + destruct (inv_lobby s Hinv Hst) as (Hact & _).
      unfold remove_player. munfold.
      destruct (decide (p ∉ dict_keys (players s))); cbn [final].
      { split; [done|]. split; [|done]. intros x Hx. by apply elem_of_nil in Hx. }
      rewrite Hst. cbn [negb]. fsimpl.
      destruct (py_remove p (player_order s)); cbn [final]; fsimpl;
        (split; [done|]; split; [|done]; intros x Hx; by apply elem_of_nil in Hx).
  - exists []. rewrite app_nil_r.
    destruct (player_reconnected_same p s Hinv) as (_&_& -> &_&_&_&_&_&_& ->).
    split; [done|]. split; [|done]. intros x Hx. by apply elem_of_nil in Hx.
Qed.

Lemma after_move_inv m s : inv s → inv (after_move m s).
Proof.
  intros Hinv. destruct m; cbn [after_move].
  - by apply play_card_inv.
  - by apply take_hand_inv.
  - by apply remove_player_inv.
  - by apply player_reconnected_inv.
Qed.

(** C7.  On a session that satisfies the invariant, when one of the four
    moves ([play_card], [take_hand_from_left], [remove_player],
    [player_reconnected]) appends names [l] to [winners], every name [w]
    of [l] is out of [active_players] after that move and after any
    further sequence of the four moves, and it stays in [winners]. *)
Theorem winner_never_returns_to_active (s0 s1 s2 : GameSession) (l : list string)
    (w : string) :
  inv s0 →
  move_step s0 s1 →
  winners s1 = winners s0 ++ l →
  w ∈ l →
  rtc move_step s1 s2 →
  w ∈ winners s2 ∧ w ∉ active_players s2.
Proof.
  intros Hinv [m ->] Hl Hw Hsteps.
  destruct (after_move_winners m s0 Hinv) as (l' & Hl' & Hout & _).
  rewrite Hl' in Hl. apply app_inv_head in Hl as ->.
  assert (H1 : inv (after_move m s0) ∧ w ∈ winners (after_move m s0)
               ∧ w ∉ active_players (after_move m s0)).
  { split; [by apply after_move_inv|]. split; [|by apply Hout].
    rewrite Hl'. apply elem_of_app. by right. }
  clear Hl' Hout Hinv Hw.
  induction Hsteps as [s|s s' s'' [m' ->] _ IH]; [tauto|].
  destruct H1 as (Hinv & Hwin & Hact).
  destruct (after_move_winners m' s Hinv) as (l2 & Hl2 & _ & Hsub).
  apply IH. split; [by apply after_move_inv|]. split.
  - rewrite Hl2. apply elem_of_app. by left.
  - intros Hin. by apply Hact, Hsub.
Qed.

(** ** Starting a game *)

Section StartGame.
Context {Rng : Type} (shuffle : Rng → list Card → list Card * Rng).

(** [random.shuffle] permutes the deck. *)
Hypothesis shuffle_perm : ∀ g deck, (shuffle g deck).1 ≡ₚ deck.

Lemma shuffle_times_perm n g deck : (shuffle_times Rng shuffle n g deck).1 ≡ₚ deck.
Proof using shuffle_perm.
  revert g deck. induction n as [|n IH]; intros g deck; simpl; [done|].
  pose proof (shuffle_perm g deck) as Hs.
  destruct (shuffle g deck) as [deck' g']. simpl in Hs. by rewrite IH.
Qed.

Lemma create_deck_perm g : _create_deck Rng shuffle g ≡ₚ ordered_deck.
Proof using shuffle_perm. apply shuffle_times_perm. Qed.

Lemma start_game_inv g s : inv s → inv (final (start_game Rng shuffle g s)).
Proof. apply start_game_with_inv. Qed.

(** Every session the methods can produce satisfies the invariant. *)
Lemma reachable_inv s : reachable Rng shuffle s → inv s.
Proof.
  induction 1 as [gid host|c s _ IH]; [apply new_session_inv|].
  destruct c; cbn [after_call].
  - by apply add_player_inv.
  - by apply remove_player_inv.
  - by apply player_reconnected_inv.
  - by apply reset_game_inv.
  - by apply start_game_inv.
  - by apply take_hand_inv.
  - by apply play_card_inv.
Qed.

Lemma start_game_few g s :
  length (players s) < 2 →
  start_game Rng shuffle g s = Raise (ValueError "Need at least 2 players") s.
Proof.
  intros Hlt. unfold start_game, start_game_with. munfold.
  destruct (Nat.ltb_spec (length (players s)) 2); [done|lia].
Qed.

(** C5.  On a session that satisfies the invariant, started or not,
    [start_game] raises exactly when the session has fewer than two
    members; the exception is then the [ValueError] "Need at least 2
    players" and the session is untouched; with two members or more
    [start_game] returns. *)
Theorem start_game_fails_iff_fewer_than_two (g : Rng) (s : GameSession) :
  inv s →
  (length (players s) < 2 ↔ ∃ e s', start_game Rng shuffle g s = Raise e s')
  ∧ (length (players s) < 2 →
     start_game Rng shuffle g s = Raise (ValueError "Need at least 2 players") s)
  ∧ (2 ≤ length (players s) → ∃ s', start_game Rng shuffle g s = Ok tt s').
Proof.
  intros Hinv.
  pose proof (start_game_few g s) as Hfew.
  assert (Hmany : 2 ≤ length (players s) → ∃ s', start_game Rng shuffle g s = Ok tt s').
  { intros Hge.
    destruct (start_game_with_run (_create_deck Rng shuffle g) s Hinv Hge)
      as (d & idx & Hrun & _). by eexists. }
  split; [|done]. split.
  - intros Hlt. rewrite (Hfew Hlt). by eexists _, _.
  - intros (e & s' & Hraise).
    destruct (Nat.lt_ge_cases (length (players s)) 2) as [|Hge]; [done|].
    destruct (Hmany Hge) as [s'' Hok]. congruence.
Qed.

(** C9.  On a lobby session (the game not started) that satisfies the
    invariant and has at least two members, [start_game] returns, and in
    the session it leaves the player named by [current_player] holds the
    Ace of Spades and no other player does. *)
Theorem start_game_turn_to_ace_of_spades (g : Rng) (s : GameSession) :
  inv s →
  game_started s = false →
  2 ≤ length (players s) →
  ∃ s' p h,
    start_game Rng shuffle g s = Ok tt s'
    ∧ current_player s' = Ok p s'
    ∧ dict_get p (players s') = Some h
    ∧ ace_of_spades ∈ h
    ∧ ∀ q hq, dict_get q (players s') = Some hq → ace_of_spades ∈ hq → q = p.
Proof using shuffle_perm.
  intros Hinv Hlobby Hge.
  destruct (start_game_with_run (_create_deck Rng shuffle g) s Hinv Hge)
    as (d & idx & Hrun & Hk & Hcards & Hace).
  pose proof (lobby_no_cards s Hinv Hlobby) as Hempty.
  assert (Hhands : concat (dict_values d) ≡ₚ ordered_deck).
  { rewrite Hcards, create_deck_perm.
    apply (f_equal length) in Hempty. unfold cards_in_game, cards_in_hands in Hempty.
    rewrite length_app in Hempty.
    destruct (concat (dict_values (players s))); [done|simpl in Hempty; lia]. }
  assert (Hnd : NoDup (dict_keys d)) by (rewrite Hk; apply (inv_keys s Hinv)).
  destruct Hace as [(q & h & Hq & Hh & Hin)|Hnone].
  - eexists _, q, h. split; [exact Hrun|]. fsimpl. split; [|split; [done|split; [done|]]].
    + by apply current_player_at.
    + intros q' hq' Hq' Hin'. eapply (concat_values_unique ace_of_spades d); try done.
      rewrite Hhands. apply ordered_deck_NoDup.
  - destruct (concat_values_elem_of ace_of_spades d Hnd) as (q & h & Hq & Hin).
    { rewrite Hhands. apply ordered_deck_complete. }
    by destruct (Hnone q h Hq).
Qed.

(** C2.  The deck has one card per suit and rank and no duplicate.
    After [start_game] has returned on a lobby session that satisfies
    the invariant, the hands together are exactly the deck, and so are
    the hands, the discard pile and the pile together.  That
    conservation is preserved by every [play_card] and every
    [take_hand_from_left] that returns success on a session that
    satisfies the invariant. *)
Theorem cards_are_conserved :
  (NoDup ordered_deck ∧ length ordered_deck = 52 ∧ ∀ c, c ∈ ordered_deck)
  ∧ (∀ g s s',
       inv s → game_started s = false →
       start_game Rng shuffle g s = Ok tt s' →
       cards_in_hands s' ≡ₚ ordered_deck ∧ conserved s')
  ∧ (∀ p cd r s s',
       inv s → conserved s → play_card p cd s = Ok (true, r) s' → conserved s')
  ∧ (∀ p msg taken s s',
       inv s → conserved s →
       take_hand_from_left p s = Ok (true, msg, taken) s' → conserved s').
Proof using shuffle_perm.
  split; [|split; [|split]].
  - split; [apply ordered_deck_NoDup|]. split; [done|apply ordered_deck_complete].
  - intros g s s' Hinv Hlobby Hstart.
    assert (Hge : 2 ≤ length (players s)).
    { destruct (Nat.lt_ge_cases (length (players s)) 2) as [Hlt|]; [|done].
      rewrite (start_game_few g s Hlt) in Hstart. done. }
    destruct (start_game_with_run (_create_deck Rng shuffle g) s Hinv Hge)
      as (d & idx & Hrun & Hk & Hcards & _).
    unfold start_game in Hstart. rewrite Hrun in Hstart. injection Hstart as <-.
    pose proof (lobby_no_cards s Hinv Hlobby) as Hempty.
    destruct (inv_lobby s Hinv Hlobby) as (_ & Hpile & Hdis).
    unfold conserved, cards_in_game, cards_in_hands in *. fsimpl.
    rewrite Hpile, Hdis in *. simpl in *. rewrite app_nil_r in *.
    rewrite Hempty, app_nil_l in Hcards. by rewrite Hcards, create_deck_perm.
  - intros p cd r s s' Hinv Hcons Hplay. unfold conserved.
    by rewrite (play_card_cards p cd r s s' Hinv Hplay).
  - intros p msg taken s s' Hinv Hcons Htake. unfold conserved.
    by rewrite (take_hand_cards p s s' msg taken Hinv Htake).
Qed.
End StartGame.

(** ** An accepted play, step by step *)

Lemma play_card_accepts p cd c h s :
  game_started s = true → finished s = false →
  current_player s = Ok p s → p ∈ active_players s →
  card_of_dict cd s = Ok c s →
  dict_get p (players s) = Some h → c ∈ h →
  (game_first_card_played s = false → c = ace_of_spades) →
  (∀ cs, current_suit (round_opened c s) = Some cs →
         Exists (λ d, suit d = cs) h → suit c = cs) →
  play_card p cd s = play_accepted p c (round_opened c s).
Proof.
  intros Hst Hfin Hcur Hp Hcard Hh Hc Hace Hsuit.
  unfold play_card. munfold.
  rewrite Hst, Hfin. cbn [negb orb]. rewrite Hcur.
  rewrite decide_False by (by intros ?).
  rewrite decide_False by (by intros ?).
  rewrite Hcard, (hand_of_Some _ _ _ Hh).
  rewrite decide_False by (by intros ?).
  assert (negb (game_first_card_played s)
          && bool_decide (suit c ≠ SPADES ∨ rank c ≠ ACE) = false) as ->.
  { destruct (game_first_card_played s); [done|]. rewrite (Hace eq_refl).
    cbn [negb andb]. apply bool_decide_eq_false. intros [?|?]; done. }
  assert (Htail : ∀ s1,
    (∀ cs, current_suit s1 = Some cs → Exists (λ d, suit d = cs) h → suit c = cs) →
    match current_suit s1 with
    | Some cs0 =>
        if bool_decide (Exists (λ c0, suit c0 = cs0) h) && bool_decide (suit c ≠ cs0)
        then λ s0, Ok (false, Some ("You must play a " +:+ Suit_value cs0)) s0
        else play_accepted p c
    | None => play_accepted p c
    end s1 = play_accepted p c s1).
  { intros s1 Hs1. destruct (current_suit s1) as [cs|]; [|done].
    destruct (decide (Exists (λ d, suit d = cs) h)) as [Hex|Hex].
    - rewrite (bool_decide_eq_false_2 (suit c ≠ cs)).
      + by rewrite andb_false_r.
      + intros Hne. apply Hne. by apply Hs1.
    - by rewrite (bool_decide_eq_false_2 _ Hex). }
  revert Hsuit. unfold round_opened.
  destruct (game_first_card_played s) eqn:Hf; cbn [negb]; cbv beta;
    (destruct (decide (current_pile s = [])) as [Hpile|Hpile];
     [rewrite ?decide_True by exact Hpile|rewrite ?decide_False by exact Hpile]);
    cbv beta; apply Htail.
Qed.

(** An accepted card that breaks the suit resolves the round; a card in
    suit that does not complete the round passes the turn. *)
Lemma card_played_eq p c h h' s :
  dict_get p (players s) = Some h → py_remove c h = Some h' →
  card_played p c s
  = set_last_action
      (Some (p +:+ " played " +:+ Rank_value (rank c) +:+ " of " +:+ Suit_value (suit c)))
      (set_current_pile (current_pile s ++ [(p, c)])
         (set_players (dict_set p h' (players s)) s)).
Proof. intros Hh Hr. unfold card_played. by rewrite (cards_of_Some _ _ _ Hh), Hr. Qed.

Lemma play_accepted_breaks p c h s :
  inv s → p ∈ active_players s → dict_get p (players s) = Some h → c ∈ h →
  (current_pile s = [] →
   original_suit s = Some (suit c) ∧ current_suit s = Some (suit c)
   ∧ round_in_progress s = true) →
  Some (suit c) ≠ original_suit s →
  ∃ w cw idx f k a,
    py_max (λ x, value x.2)
      (filter (λ x, Some (suit x.2) = original_suit (card_played p c s))
         (current_pile (card_played p c s))) = Some (w, cw)
    ∧ play_accepted p c s
      = Ok (true, None) (resolved true w idx f k a (card_played p c s))
    ∧ (w ∈ active_players (retire_winners (clear_round
                            (settle_pile true w (card_played p c s)))) →
       py_index w (active_players (retire_winners (clear_round
                                     (settle_pile true w (card_played p c s)))))
       = Some idx).
Proof.
  intros Hinv Hp Hh Hc Hopen Hbroken.
  pose proof (card_played_inv p c h s Hinv Hp Hh Hopen) as Hinv2.
  destruct (py_remove_elem c h Hc) as [h' Hr].
  pose proof (card_played_eq p c h h' s Hh Hr) as Hs2.
  assert (Hpile2 : current_pile (card_played p c s) ≠ []).
  { rewrite Hs2. fsimpl. by destruct (current_pile s). }
  destruct (round_winner_exists _ Hinv2 Hpile2) as (w & cw & Hmax & _ & _ & _ & Hw).
  destruct (resolve_round_run true _ w cw Hpile2 Hmax)
    as (idx & f & k & a & Hrun & Hidx & _).
  { by apply inv_active_keys. }
  { by apply (inv_active _ Hinv2). }
  { apply (inv_active_nodup _ Hinv2). }
  { intros q Hq. by apply inv_active_keys. }
  exists w, cw, idx, f, k, a. split; [exact Hmax|]. split; [|exact Hidx].
  unfold play_accepted. munfold. rewrite (hand_of_Some _ _ _ Hh), Hr. cbv beta.
  fsimpl. rewrite <- Hs2. rewrite decide_True by done. by rewrite Hrun.
Qed.

Lemma play_accepted_passes p c h s :
  dict_get p (players s) = Some h → c ∈ h →
  Some (suit c) = original_suit s →
  length (remove_dups (current_pile s ++ [(p, c)]).*1) ≠ length (active_players s) →
  ∃ i, play_accepted p c s
       = Ok (true, None) (set_current_player_idx i (card_played p c s))
       ∧ ∀ q j, current_player s = Ok q s →
                py_index q (active_players s) = Some j →
                i = (j + 1) mod length (active_players s).
Proof.
  intros Hh Hc Hsame Hlen.
  destruct (py_remove_elem c h Hc) as [h' Hr].
  pose proof (card_played_eq p c h h' s Hh Hr) as Hs2.
  destruct (advance_run (card_played p c s)) as (i & Hadv & Hi).
  exists i. split.
  - unfold play_accepted. munfold. rewrite (hand_of_Some _ _ _ Hh), Hr. cbv beta.
    fsimpl. rewrite decide_False by (by intros ?). cbv beta. fsimpl.
    rewrite (proj2 (Nat.eqb_neq _ _) Hlen). rewrite <- Hs2. by rewrite Hadv.
  - intros q j Hq Hj. apply (Hi q j).
    + apply current_player_Ok in Hq as [_ Hq]. rewrite Hs2.
      unfold current_player. munfold. fsimpl.
      destruct (decide (active_players s = [])); by apply item_at_Some.
    + rewrite Hs2. fsimpl. exact Hj.
Qed.

(** ** The opening of a two-player game *)

(** The session after a card that opens a round and passes the turn. *)
Lemma opened_and_played_fields p c h h' i s :
  current_pile s = [] → dict_get p (players s) = Some h → py_remove c h = Some h' →
  let s1 := set_current_player_idx i (card_played p c (round_opened c s)) in
  game_started s1 = game_started s
  ∧ finished s1 = finished s
  ∧ game_first_card_played s1 = true
  ∧ active_players s1 = active_players s
  ∧ players s1 = dict_set p h' (players s)
  ∧ current_pile s1 = [(p, c)]
  ∧ original_suit s1 = Some (suit c)
  ∧ current_suit s1 = Some (suit c)
  ∧ current_player_idx s1 = i.
Proof.
  intros Hpile Hh Hr. unfold card_played, round_opened, cards_of.
  rewrite decide_True by done.
  destruct (game_first_card_played s) eqn:Hf; fsimpl; rewrite ?Hf, Hh, Hpile; simpl;
    rewrite Hr; done.
Qed.

Lemma two_active_next a b j s :
  a ≠ b →
  active_players s = [a; b] ∨ active_players s = [b; a] →
  py_index a (active_players s) = Some j →
  active_players s !! ((j + 1) mod length (active_players s)) = Some b.
Proof.
  intros Hne [Hact|Hact]; rewrite Hact; simpl.
  - rewrite decide_True by done. by intros [= <-].
  - rewrite decide_False by done. rewrite decide_True by done. by intros [= <-].
Qed.

Lemma current_player_ext p s s' :
  active_players s' = active_players s → player_order s' = player_order s →
  current_player_idx s' = current_player_idx s →
  current_player s = Ok p s → current_player s' = Ok p s'.
Proof.
  intros Ha Ho Hi [_ Hp]%current_player_Ok. unfold current_player. munfold.
  rewrite Ha. destruct (decide (active_players s = [])); cbv beta;
    rewrite ?Ho, ?Hi; by apply item_at_Some.
Qed.

(** The pile of a broken round goes to the hand of the round winner. *)
Lemma resolved_broken_fields w idx f k a s :
  suit_was_broken (resolved true w idx f k a s) = true
  ∧ resolved_pile (resolved true w idx f k a s) = current_pile s
  ∧ resolved_winner (resolved true w idx f k a s) = Some w
  ∧ current_pile (resolved true w idx f k a s) = []
  ∧ players (resolved true w idx f k a s)
    = dict_set w (sort_hand (cards_of w s ++ (current_pile s).*2)) (players s)
  ∧ current_player_idx (resolved true w idx f k a s) = idx
  ∧ active_players (resolved true w idx f k a s)
    = active_players (retire_winners (clear_round (settle_pile true w s))).
Proof. unfold resolved, retire_winners, clear_round, settle_pile. by fsimpl. Qed.

Lemma stays_active_after_round w s :
  w ∈ active_players s →
  cards_of w s ++ (current_pile s).*2 ≠ [] →
  w ∈ dict_keys (players s) →
  w ∈ active_players (retire_winners (clear_round (settle_pile true w s))).
Proof.
  intros Hw Hcards Hk. unfold retire_winners. fsimpl.
  apply list_elem_of_filter. split.
  - intros [Hlen _]. apply Hcards. unfold cards_of, clear_round, settle_pile in Hlen.
    fsimpl. rewrite dict_get_set_eq in Hlen. simpl in Hlen.
    rewrite sort_hand_length in Hlen.
    by destruct (cards_of w s ++ (current_pile s).*2).
  - unfold clear_round, settle_pile. by fsimpl.
Qed.

(** C1 (amended).  In a session that satisfies the invariant and is at the
    opening of a two-player game, [a] plays the Ace of Spades, which opens
    a round of suit SPADES, and [b], who holds no spade, plays [c]: the
    round is resolved at once with the suit broken, [a] wins it and
    receives both pile cards, so that [a] holds 27 cards (the 26 dealt
    and [c]) and [b] holds 25, and the current player is [a]. *)
Theorem opening_round_returns_to_ace_holder (s : GameSession) (a b : string)
    (ha hb : list Card) (c : Card) :
  inv s →
  opening s a b ha hb c →
  opening_outcome 27 s a b ha hb c.
Proof.
  intros Hinv [Hst Hfin Hfirst Hpile Hab Hact Hha Hhb Hturn Hace Hna Hnb Hnospade Hc].
  assert (Haa : a ∈ active_players s).
  { destruct Hact as [Hact|Hact]; rewrite Hact; [left|right; left]. }
  assert (Hba : b ∈ active_players s).
  { destruct Hact as [Hact|Hact]; rewrite Hact; [right; left|left]. }
  assert (Hcs : suit c ≠ SPADES).
  { by apply (proj1 (Forall_forall _ _) Hnospade c). }
  destruct (round_opened_fields ace_of_spades s)
    as (Hpl0 & Hpo0 & Hact0 & Hpile0 & _ & _ & Hidx0).
  destruct (round_opened_suit ace_of_spades s Hpile) as (Hos0 & Hcs0 & _).
  destruct (py_remove_elem _ _ Hace) as [ha' Hra].
  destruct (py_remove_elem _ _ Hc) as [hb' Hrb].
  (* the Ace of Spades is accepted and passes the turn *)
  assert (Hplay1 : play_card a (to_dict ace_of_spades) s
                   = play_accepted a ace_of_spades (round_opened ace_of_spades s)).
  { apply (play_card_accepts a _ ace_of_spades ha s Hst Hfin Hturn Haa
             (card_of_to_dict _ _) Hha Hace); [done|].
    intros cs Hcs' _. rewrite Hcs0 in Hcs'. by injection Hcs' as <-. }
  destruct (play_accepted_passes a ace_of_spades ha (round_opened ace_of_spades s))
    as (i & Hacc1 & Hi).
  { by rewrite Hpl0. }
  { done. }
  { by rewrite Hos0. }
  { rewrite Hpile0, Hpile, Hact0. simpl.
    destruct Hact as [Hact|Hact]; by rewrite Hact. }
  destruct (py_index_elem a _ Haa) as (j & Hj & _).
  assert (Hival : i = (j + 1) mod length (active_players s)).
  { rewrite <- Hact0. apply (Hi a j); [|by rewrite Hact0].
    by apply (current_player_ext a s). }
  rewrite Hacc1 in Hplay1.
  pose proof (play_card_inv a (to_dict ace_of_spades) s Hinv) as Hinv1.
  rewrite Hplay1 in Hinv1. cbn [final] in Hinv1.
  destruct (opened_and_played_fields a ace_of_spades ha ha' i s Hpile Hha Hra)
    as (Hst1 & Hfin1 & Hfirst1 & Hact1 & Hpl1 & Hpile1 & Hos1 & Hcs1 & Hidx1).
  clear Hacc1 Hi.
  remember (set_current_player_idx i
              (card_played a ace_of_spades (round_opened ace_of_spades s))) as s1
    eqn:Hs1.
  clear Hs1.
  assert (Hturn1 : current_player s1 = Ok b s1).
  { apply current_player_at. rewrite Hact1, Hidx1, Hival.
    exact (two_active_next a b j s Hab Hact Hj). }
  assert (Hhb1 : dict_get b (players s1) = Some hb).
  { rewrite Hpl1. by rewrite dict_get_set_ne. }
  assert (Hha1 : dict_get a (players s1) = Some ha').
  { rewrite Hpl1. apply dict_get_set_eq. }
  assert (Hro : round_opened c s1 = s1).
  { rewrite round_opened_on_pile by (by rewrite Hpile1). by rewrite Hfirst1. }
  (* the card of [b] is accepted and breaks the suit *)
  assert (Hplay2 : play_card b (to_dict c) s1 = play_accepted b c s1).
  { assert (Hst1' : game_started s1 = true) by congruence.
    assert (Hfin1' : finished s1 = false) by congruence.
    assert (Hba1 : b ∈ active_players s1) by (by rewrite Hact1).
    rewrite <- Hro at 2.
    apply (play_card_accepts b _ c hb s1 Hst1' Hfin1' Hturn1 Hba1
             (card_of_to_dict _ _) Hhb1 Hc).
    - intros Hf. congruence.
    - rewrite Hro, Hcs1. intros cs [= <-] Hex. apply Exists_exists in Hex as (d & Hd & Hsd).
      destruct (proj1 (Forall_forall _ _) Hnospade d Hd Hsd). }
  destruct (play_accepted_breaks b c hb s1) as (w & cw & idx & f & k & a' & Hmax & Hacc2 & Hidx);
    [done|by rewrite Hact1|done|done|by rewrite Hpile1| |].
  { rewrite Hos1. intros [= Heq]. done. }
  pose proof (card_played_eq b c hb hb' s1 Hhb1 Hrb) as HS.
  remember (card_played b c s1) as S eqn:HeqS. clear HeqS.
  assert (HpileS : current_pile S = [(a, ace_of_spades); (b, c)])
    by (rewrite HS; fsimpl; by rewrite Hpile1).
  assert (HosS : original_suit S = Some SPADES) by (rewrite HS; fsimpl; by rewrite Hos1).
  assert (HplS : players S = dict_set b hb' (players s1)) by (by rewrite HS).
  assert (HactS : active_players S = active_players s) by (rewrite HS; fsimpl; done).
  assert (HhaS : cards_of a S = ha').
  { unfold cards_of. rewrite HplS, dict_get_set_ne by done. by rewrite Hha1. }
  rewrite HpileS, HosS in Hmax.
  rewrite filter_cons_True, filter_cons_False, filter_nil in Hmax by (simpl; congruence).
  simpl in Hmax. injection Hmax as <- <-.
  rewrite Hacc2 in Hplay2. clear Hacc2.
  destruct (resolved_broken_fields a idx f k a' S)
    as (Hsb2 & Hrp2 & Hrw2 & Hpile2 & Hpl2 & Hidx2 & Hact2).
  assert (Hstay : a ∈ active_players (retire_winners (clear_round (settle_pile true a S)))).
  { apply stays_active_after_round.
    - by rewrite HactS.
    - rewrite HpileS. by destruct (cards_of a S).
    - rewrite HplS. rewrite dict_keys_set; by eapply dict_get_keys. }
  specialize (Hidx Hstay).
  remember (resolved true a idx f k a' S) as s2 eqn:Hs2. clear Hs2.
  assert (Hlena : length ha' = 25).
  { apply py_remove_length in Hra. lia. }
  assert (Hlenb : length hb' = 25).
  { apply py_remove_length in Hrb. lia. }
  exists s1, s2, (sort_hand (ha' ++ [ace_of_spades; c])), hb'.
  split; [exact Hplay1|]. split; [exact Hos1|]. split; [exact Hpile1|].
  split; [exact Hplay2|]. split; [exact Hsb2|]. split; [by rewrite Hrp2|].
  split; [exact Hrw2|]. split; [exact Hpile2|].
  split; [rewrite Hpl2, HhaS, HpileS; apply dict_get_set_eq|].
  split.
  { rewrite sort_hand_perm. pose proof (py_remove_perm _ _ _ Hra) as Hp.
    clear -Hp. apply (Permutation_count_occ Card_eq_dec). intros x.
    pose proof (proj1 (Permutation_count_occ Card_eq_dec _ _) Hp x) as Hx.
    rewrite count_occ_app. cbn [count_occ] in *.
    repeat destruct (Card_eq_dec _ _); lia. }
  split; [rewrite sort_hand_length, length_app; simpl; lia|].
  split.
  { rewrite Hpl2, dict_get_set_ne by done. rewrite HplS. apply dict_get_set_eq. }
  split; [exact Hlenb|].
  apply current_player_at. rewrite Hact2, Hidx2. by apply py_index_lookup.
Qed.

(** ** The properties on concrete sessions *)

Lemma two_player_lobby_inv : inv two_player_lobby.
Proof. apply add_player_inv, new_session_inv. Qed.

Lemma opening_session_inv : inv opening_session.
Proof. apply start_game_with_inv, two_player_lobby_inv. Qed.

Lemma plain_session_inv : inv plain_session.
Proof. apply start_game_with_inv, two_player_lobby_inv. Qed.

Lemma opened_session_inv : inv opened_session.
Proof. apply play_card_inv, opening_session_inv. Qed.

Lemma no_shuffle_perm g deck : (no_shuffle g deck).1 ≡ₚ deck.
Proof. reflexivity. Qed.

Lemma opening_session_opening :
  opening opening_session "A" "B"
    (cards_of "A" opening_session) (cards_of "B" opening_session) (mkCard HEARTS TWO).
Proof.
  split.
  - reflexivity.
  - reflexivity.
  - reflexivity.
  - reflexivity.
  - done.
  - left. reflexivity.
  - vm_compute. reflexivity.
  - vm_compute. reflexivity.
  - vm_compute. reflexivity.
  - apply (bool_decide_unpack _). vm_compute. exact I.
  - reflexivity.
  - reflexivity.
  - apply (bool_decide_unpack _). vm_compute. exact I.
  - apply (bool_decide_unpack _). vm_compute. exact I.
Qed.

(** C1 as stated fails: at the concrete opening, after the two plays "A"
    holds 27 cards, not 26. *)
Lemma opening_count_26_refuted :
  ¬ (∀ s a b ha hb c,
       inv s → opening s a b ha hb c → opening_outcome 26 s a b ha hb c).
Proof.
  intros Hclaim.
  destruct (Hclaim _ _ _ _ _ _ opening_session_inv opening_session_opening)
    as (s1 & s2 & ha2 & hb2 & Hplay1 & _ & _ & Hplay2 & _ & _ & _ & _ & Hha2 & _ & Hlen & _).
  vm_compute in Hplay1. injection Hplay1 as <-.
  vm_compute in Hplay2. injection Hplay2 as <-.
  vm_compute in Hha2. injection Hha2 as <-.
  vm_compute in Hlen. discriminate Hlen.
Qed.

(** The properties that have premises, each on a concrete session. *)

Lemma opening_round_returns_to_ace_holder_witness :
  inv opening_session
  ∧ opening opening_session "A" "B"
      (cards_of "A" opening_session) (cards_of "B" opening_session) (mkCard HEARTS TWO)
  ∧ opening_outcome 27 opening_session "A" "B"
      (cards_of "A" opening_session) (cards_of "B" opening_session) (mkCard HEARTS TWO).
Proof.
  split; [exact opening_session_inv|]. split; [exact opening_session_opening|].
  exact (opening_round_returns_to_ace_holder _ _ _ _ _ _
           opening_session_inv opening_session_opening).
Defined.

Lemma cards_are_conserved_witness :
  (∀ g deck, (no_shuffle g deck).1 ≡ₚ deck)
  ∧ cards_in_hands plain_session ≡ₚ ordered_deck
  ∧ conserved plain_session
  ∧ conserved (final (play_card "B" (to_dict ace_of_spades) plain_session))
  ∧ conserved (final (take_hand_from_left "B" plain_session)).
Proof.
  split; [exact no_shuffle_perm|].
  destruct (cards_are_conserved no_shuffle no_shuffle_perm) as (_ & Hstart & Hplay & Htake).
  destruct (Hstart tt two_player_lobby plain_session two_player_lobby_inv) as [Hhands H0].
  { reflexivity. }
  { vm_compute. reflexivity. }
  split; [exact Hhands|]. split; [exact H0|]. split.
  - apply (Hplay "B" (to_dict ace_of_spades) None plain_session _ plain_session_inv H0).
    vm_compute. reflexivity.
  - apply (Htake "B" "Took 26 cards from A" (Some "A") plain_session _
             plain_session_inv H0).
    vm_compute. reflexivity.
Defined.



Lemma start_game_fails_iff_fewer_than_two_witness :
  inv (new_session "GAME01" "A")
  ∧ inv opening_session
  ∧ start_game unit no_shuffle tt (new_session "GAME01" "A")
    = Raise (ValueError "Need at least 2 players") (new_session "GAME01" "A")
  ∧ ∃ s', start_game unit no_shuffle tt opening_session = Ok tt s'.
Proof.
  split; [apply new_session_inv|]. split; [exact opening_session_inv|]. split.
  - apply (start_game_fails_iff_fewer_than_two no_shuffle tt _
             (new_session_inv "GAME01" "A")).
    vm_compute. lia.
  - apply (start_game_fails_iff_fewer_than_two no_shuffle tt _ opening_session_inv).
    vm_compute. lia.
Defined.

Lemma accepted_play_follows_suit_witness :
  inv opened_session
  ∧ current_pile opened_session ≠ []
  ∧ play_card "B" (to_dict (mkCard HEARTS TWO)) opened_session
    = Ok (true, None)
        (final (play_card "B" (to_dict (mkCard HEARTS TWO)) opened_session))
  ∧ ∃ h, dict_get "B" (players opened_session) = Some h
         ∧ (Forall (λ d, suit d ≠ SPADES) h ∨ suit (mkCard HEARTS TWO) = SPADES).
Proof.
  split; [exact opened_session_inv|]. split; [by vm_compute|].
  assert (Hrun : play_card "B" (to_dict (mkCard HEARTS TWO)) opened_session
                 = Ok (true, None)
                     (final (play_card "B" (to_dict (mkCard HEARTS TWO)) opened_session))).
  { vm_compute. reflexivity. }
  split; [exact Hrun|].
  destruct (accepted_play_follows_suit _ _ _ _ _ opened_session_inv
              ltac:(by vm_compute) Hrun)
    as (rs & c & h & q & c0 & rest & Hpile & -> & _ & _ & Hcard & Hh & Hfollow).
  vm_compute in Hpile. injection Hpile as _ <- _.
  pose proof (card_of_to_dict (mkCard HEARTS TWO) opened_session) as Hcard'.
  assert (c = mkCard HEARTS TWO) as -> by congruence.
  exists h. split; [exact Hh|exact Hfollow].
Defined.

Lemma winner_never_returns_to_active_witness :
  inv opening_session
  ∧ move_step opening_session (after_move (Move_take_hand_from_left "A") opening_session)
  ∧ winners (after_move (Move_take_hand_from_left "A") opening_session)
    = winners opening_session ++ ["B"]
  ∧ "B" ∈ winners (after_move (Move_player_reconnected "B")
                     (after_move (Move_take_hand_from_left "A") opening_session))
  ∧ "B" ∉ active_players (after_move (Move_player_reconnected "B")
                            (after_move (Move_take_hand_from_left "A") opening_session)).
Proof.
  split; [exact opening_session_inv|].
  assert (Hstep : move_step opening_session
                    (after_move (Move_take_hand_from_left "A") opening_session))
    by (by eexists).
  assert (Hwin : winners (after_move (Move_take_hand_from_left "A") opening_session)
                 = winners opening_session ++ ["B"]).
  { vm_compute. reflexivity. }
  split; [exact Hstep|]. split; [exact Hwin|].
  apply (winner_never_returns_to_active opening_session _ _ ["B"] "B"
           opening_session_inv Hstep Hwin).
  - left.
  - apply rtc_once. by eexists.
Defined.

Lemma first_card_must_be_ace_of_spades_witness :
  play_card "A" (to_dict (mkCard SPADES KING)) opening_session
  = Ok (false, Some "First card must be Ace of Spades") opening_session.
Proof.
  apply (first_card_must_be_ace_of_spades opening_session "A" _ (mkCard SPADES KING)
           (cards_of "A" opening_session)).
  - reflexivity.
  - reflexivity.
  - reflexivity.
  - vm_compute. reflexivity.
  - apply (bool_decide_unpack _). vm_compute. exact I.
  - apply card_of_to_dict.
  - vm_compute. reflexivity.
  - apply (bool_decide_unpack _). vm_compute. exact I.
  - discriminate.
Defined.

Lemma start_game_turn_to_ace_of_spades_witness :
  (∀ g deck, (no_shuffle g deck).1 ≡ₚ deck)
  ∧ inv two_player_lobby
  ∧ game_started two_player_lobby = false
  ∧ 2 ≤ length (players two_player_lobby)
  ∧ ∃ s' p h,
      start_game unit no_shuffle tt two_player_lobby = Ok tt s'
      ∧ current_player s' = Ok p s'
      ∧ dict_get p (players s') = Some h
      ∧ ace_of_spades ∈ h
      ∧ ∀ q hq, dict_get q (players s') = Some hq → ace_of_spades ∈ hq → q = p.
Proof.
  split; [exact no_shuffle_perm|]. split; [exact two_player_lobby_inv|].
  split; [reflexivity|]. split; [vm_compute; lia|].
  apply (start_game_turn_to_ace_of_spades no_shuffle no_shuffle_perm tt two_player_lobby
           two_player_lobby_inv).
  - reflexivity.
  - vm_compute. lia.
Defined.

Lemma take_hand_between_two_ends_game_witness :
  inv opening_session
  ∧ length (active_players opening_session) = 2
  ∧ take_hand_from_left "A" opening_session
    = Ok (true, "Took 26 cards from B", Some "B")
        (final (take_hand_from_left "A" opening_session))
  ∧ finished (final (take_hand_from_left "A" opening_session)) = true
  ∧ kazhutha (final (take_hand_from_left "A" opening_session)) = Some "A".
Proof.
  split; [exact opening_session_inv|]. split; [reflexivity|].
  assert (Hrun : take_hand_from_left "A" opening_session
                 = Ok (true, "Took 26 cards from B", Some "B")
                     (final (take_hand_from_left "A" opening_session))).
  { vm_compute. reflexivity. }
  split; [exact Hrun|].
  destruct (take_hand_between_two_ends_game _ _ _ _ _ opening_session_inv eq_refl Hrun)
    as (Hfin & _ & Hk & _).
  by split.
Defined.

(** ** Cards on the wire *)

Lemma to_dict_inj c c' : to_dict c = to_dict c' → c = c'.
Proof.
  destruct c as [st rk], c' as [st' rk']. unfold to_dict. cbn [suit rank].
  intros H. injection H as Hs Hr. f_equal.
  - by destruct st, st'.
  - by destruct rk, rk'.
Qed.

(** X1.  The card built by [play_card] from the dict [to_dict] makes of
    a card is that card, whatever the session, and two cards with the
    same dict are the same card. *)
Theorem card_dict_round_trip (c : Card) (s : GameSession) :
  card_of_dict (to_dict c) s = Ok c s
  ∧ ∀ c', to_dict c = to_dict c' ↔ c = c'.
Proof.
  split; [apply card_of_to_dict|].
  intros c'. split; [apply to_dict_inj|by intros ->].
Qed.


(** ** Rejected moves *)

(** What [play_card] does on a session that satisfies the invariant: it
    stops at one of the first checks, or it refuses an off-suit card
    after the one-shot flag was set, or it accepts the card. *)
Lemma play_card_outcomes p cd s :
  inv s →
  (final (play_card p cd s) = s ∧ ∀ r s', play_card p cd s ≠ Ok (true, r) s')
  ∨ (∃ c cs, card_of_dict cd s = Ok c s
             ∧ current_pile s ≠ []
             ∧ (game_first_card_played s = false → c = ace_of_spades)
             ∧ play_card p cd s
               = Ok (false, Some ("You must play a " +:+ Suit_value cs))
                   (if game_first_card_played s then s
                    else set_game_first_card_played true s))
  ∨ ∃ c h s', p ∈ active_players s ∧ dict_get p (players s) = Some h ∧ c ∈ h
              ∧ card_of_dict cd s = Ok c s
              ∧ game_started s = true ∧ finished s = false
              ∧ play_card p cd s = Ok (true, None) s'
              ∧ ((∃ sb w idx f k a,
                    w ∈ active_players s
                    ∧ s' = resolved sb w idx f k a (card_played p c (round_opened c s)))
                 ∨ (∃ i, s' = set_current_player_idx i
                                (card_played p c (round_opened c s)))).
Proof.
  intros Hinv.
  destruct (play_card_cases p cd s)
    as [[Hf Hno]|(c & h & Hst & Hfin & _ & Hp & Hcard & Hh & Hc & Hace & Hsuit)].
  { by left. }
  right. destruct Hsuit as [(cs & Hcs & _ & Hne & Hrej)|[_ Hacc]].
  - left. exists c, cs.
    assert (Hpile : current_pile s ≠ []).
    { intros Hnil. destruct (round_opened_suit c s Hnil) as (_ & Hcur & _).
      rewrite Hcur in Hcs. by injection Hcs as <-. }
    do 3 (split; [done|]). by rewrite <- (round_opened_on_pile c s Hpile).
  - right. exists c, h.
    destruct (round_opened_fields c s) as (Hpl & _ & Hact & Hpile & _).
    destruct (play_accepted_run p c h (round_opened c s)) as [Hres|Hadv].
    + by apply round_opened_inv.
    + by rewrite Hact.
    + by rewrite Hpl.
    + done.
    + rewrite Hpile. apply round_opened_suit.
    + destruct Hres as (sb & w & idx & f & k & a & Hw & Hrun).
      eexists. do 6 (split; [done|]). rewrite Hacc. split; [exact Hrun|].
      left. exists sb, w, idx, f, k, a. split; [by rewrite <- Hact|done].
    + destruct Hadv as (i & Hrun).
      eexists. do 6 (split; [done|]). rewrite Hacc. split; [exact Hrun|].
      right. by exists i.
Qed.

(** X3.  On a session that satisfies the invariant, a [play_card] that
    returns failure leaves the session as it was, with one exception:
    when no card of the game has been played yet while a round is open
    (the pile is not empty), the Ace of Spades played off suit is refused
    after the one-shot flag [game_first_card_played] was set, and the
    flag stays set. *)
Theorem play_card_failure_keeps_session (s s' : GameSession) (p : string)
    (cd : list (string * string)) (r : option string) :
  inv s →
  play_card p cd s = Ok (false, r) s' →
  s' = s
  ∨ (game_first_card_played s = false
     ∧ current_pile s ≠ []
     ∧ card_of_dict cd s = Ok ace_of_spades s
     ∧ s' = set_game_first_card_played true s).
Proof.
  intros Hinv Hplay.
  destruct (play_card_outcomes p cd s Hinv)
    as [[Hf _]|[(c & cs & Hcard & Hpile & Hace & Hrej)|(c & h & s2 & Hacc)]].
  - left. rewrite Hplay in Hf. by cbn [final] in Hf.
  - rewrite Hrej in Hplay. injection Hplay as _ Hs.
    destruct (game_first_card_played s) eqn:Hflag; [by left|].
    right. rewrite Hace in Hcard by done. by rewrite <- Hs.
  - destruct Hacc as (_ & _ & _ & _ & _ & _ & Hrun & _).
    rewrite Hrun in Hplay. discriminate Hplay.
Qed.

(** X4.  On a session that satisfies the invariant, a
    [take_hand_from_left] that returns failure names no player and leaves
    the session as it was: every check comes before the first
    assignment. *)
Theorem take_hand_failure_keeps_session (s s' : GameSession) (p msg : string)
    (taken : option string) :
  inv s →
  take_hand_from_left p s = Ok (false, msg, taken) s' →
  s' = s ∧ taken = None.
Proof.
  intros Hinv Htake.
  destruct (take_hand_run p s Hinv)
    as [[m Hrun]|(lp & idx & f & k & a & _ & _ & _ & _ & _ & _ & _ & _ & _ & Hrun & _)].
  - rewrite Hrun in Htake. by injection Htake as _ <- <-.
  - rewrite Hrun in Htake. discriminate Htake.
Qed.

(** ** The turn order *)

Lemma next_index_inj n j j' :
  j < n → j' < n → (j + 1) mod n = (j' + 1) mod n → j = j'.
Proof.
  intros Hj Hj'.
  destruct (decide (j + 1 = n)) as [Hn|Hn], (decide (j' + 1 = n)) as [Hn'|Hn'].
  - lia.
  - rewrite Hn, Nat.Div0.mod_same, (Nat.mod_small (j' + 1)) by lia. lia.
  - rewrite Hn', Nat.Div0.mod_same, (Nat.mod_small (j + 1)) by lia. lia.
  - rewrite !Nat.mod_small by lia. lia.
Qed.

Lemma next_index_fixed n j : j < n → (j + 1) mod n = j → n = 1.
Proof.
  intros Hj. destruct (decide (j + 1 = n)) as [Hn|Hn].
  - rewrite Hn, Nat.Div0.mod_same. lia.
  - rewrite Nat.mod_small by lia. lia.
Qed.

(** The seat of an active player and the neighbour [get_player_on_left]
    reads off it. *)
Lemma left_of_seat p s :
  NoDup (active_players s) →
  p ∈ active_players s →
  ∃ j lp,
    active_players s !! j = Some p
    ∧ active_players s !! ((j + 1) mod length (active_players s)) = Some lp
    ∧ (lp = p ↔ active_players s = [p])
    ∧ get_player_on_left p s = Ok (if decide (lp = p) then None else Some lp) s.
Proof.
  intros Hnd Hp.
  destruct (get_player_on_left_run p s Hp) as (j & lp & Hj & Hlp & Hrun).
  apply py_index_lookup in Hj. exists j, lp. do 2 (split; [done|]).
  split; [|done].
  pose proof (lookup_lt_Some _ _ _ Hj) as Hlt. split.
  - intros ->.
    assert (Heq : (j + 1) mod length (active_players s) = j)
      by (by eapply NoDup_lookup).
    apply next_index_fixed in Heq; [|done].
    destruct (active_players s) as [|x [|y l]]; simplify_eq/=.
    by destruct j; simplify_eq/=.
  - intros Heq. rewrite Heq in Hlp. cbn [length] in Hlp.
    rewrite Nat.mod_1_r in Hlp. cbn in Hlp. by injection Hlp.
Qed.

(** X5.  When [active_players] has no duplicate, [get_player_on_left]
    returns, leaves the session as it was, and: it returns [None]
    exactly for a player who is not active or is the only active one;
    the player it returns is active and is not the asking player; and
    two different players never get the same left neighbour. *)
Theorem left_neighbour_is_another_active_player (s : GameSession) (p : string) :
  NoDup (active_players s) →
  ∃ r, get_player_on_left p s = Ok r s
       ∧ (r = None ↔ p ∉ active_players s ∨ active_players s = [p])
       ∧ ∀ q, r = Some q →
              q ∈ active_players s ∧ q ≠ p
              ∧ ∀ p', get_player_on_left p' s = Ok (Some q) s → p' = p.
Proof.
  intros Hnd. destruct (decide (p ∈ active_players s)) as [Hp|Hp].
  - destruct (left_of_seat p s Hnd Hp) as (j & lp & Hj & Hlp & Hone & Hrun).
    eexists. split; [exact Hrun|]. destruct (decide (lp = p)) as [->|Hne].
    + split; [|done]. split; [intros _; right; by apply Hone|done].
    + split.
      { split; [done|]. intros [Hno|Hone']; [done|]. by apply Hone in Hone'. }
      intros q [= <-]. split; [by eapply list_elem_of_lookup_2|]. split; [done|].
      intros p' Hrun'.
      assert (Hp' : p' ∈ active_players s).
      { destruct (decide (p' ∈ active_players s)) as [|Hno]; [done|].
        unfold get_player_on_left in Hrun'. munfold_in Hrun'.
        by rewrite decide_True in Hrun' by done. }
      destruct (left_of_seat p' s Hnd Hp') as (j' & lp' & Hj' & Hlp' & _ & Hrun2).
      rewrite Hrun2 in Hrun'. destruct (decide (lp' = p')); [done|].
      injection Hrun' as ->.
      assert (Heq : (j + 1) mod length (active_players s)
                    = (j' + 1) mod length (active_players s))
        by (by eapply NoDup_lookup).
      apply next_index_inj in Heq;
        [|by eapply lookup_lt_Some|by eapply lookup_lt_Some].
      subst j'. congruence.
  - exists None. split.
    + unfold get_player_on_left. munfold. by rewrite decide_True by done.
    + split; [|done]. split; [by left|done].
Qed.

(** X6.  When [active_players] has no duplicate and at least two names,
    [_advance_to_next_active_player] hands the turn to the player
    [get_player_on_left] names for the current player, and changes
    nothing but [current_player_idx]. *)
Theorem advance_passes_turn_to_left_neighbour (s : GameSession) (p : string) :
  NoDup (active_players s) →
  2 ≤ length (active_players s) →
  current_player s = Ok p s →
  ∃ q i,
    get_player_on_left p s = Ok (Some q) s
    ∧ _advance_to_next_active_player s = Ok tt (set_current_player_idx i s)
    ∧ current_player (set_current_player_idx i s) = Ok q (set_current_player_idx i s).
Proof.
  intros Hnd Hlen Hcur.
  assert (Hne : active_players s ≠ []).
  { intros Hnil. rewrite Hnil in Hlen. simpl in Hlen. lia. }
  destruct (current_player_active s Hne) as (p' & Hcur' & Hp).
  assert (p' = p) as -> by congruence.
  destruct (get_player_on_left_run p s Hp) as (j & lp & Hj & Hlp & _).
  destruct (left_of_seat p s Hnd Hp) as (j' & lp' & Hj' & Hlp' & Hone & Hrun).
  assert (j' = j) as ->.
  { apply py_index_lookup in Hj. by eapply NoDup_lookup. }
  assert (lp' = lp) as -> by congruence.
  destruct (advance_run s) as (i & Hadv & Hi).
  specialize (Hi p j Hcur Hj). subst i.
  exists lp, ((j + 1) mod length (active_players s)).
  split; [|split; [done|]].
  - rewrite Hrun. destruct (decide (lp = p)) as [Heq|]; [|done].
    apply Hone in Heq. rewrite Heq in Hlen. simpl in Hlen. lia.
  - apply current_player_at. by fsimpl.
Qed.

(** The fields of the session [_resolve_round] leaves. *)
Lemma resolved_fields sb w idx f k a s :
  let s1 := retire_winners (clear_round (settle_pile sb w s)) in
  resolved_winner (resolved sb w idx f k a s) = Some w
  ∧ current_player_idx (resolved sb w idx f k a s) = idx
  ∧ active_players (resolved sb w idx f k a s) = active_players s1
  ∧ winners (resolved sb w idx f k a s) = winners s1
  ∧ players (resolved sb w idx f k a s) = players (settle_pile sb w s)
  ∧ player_order (resolved sb w idx f k a s) = player_order s
  ∧ current_pile (resolved sb w idx f k a s) = []
  ∧ round_in_progress (resolved sb w idx f k a s) = false
  ∧ game_started (resolved sb w idx f k a s) = game_started s
  ∧ finished (resolved sb w idx f k a s) = f
  ∧ kazhutha (resolved sb w idx f k a s) = k.
Proof.
  cbv zeta. unfold resolved, retire_winners, clear_round, settle_pile.
  destruct sb; fsimpl; repeat split; reflexivity.
Qed.

Lemma retire_winners_fields s :
  active_players (retire_winners s) = filter (λ p, ¬ leaves s p) (active_players s)
  ∧ winners (retire_winners s) = winners s ++ filter (leaves s) (active_players s)
  ∧ players (retire_winners s) = players s.
Proof. unfold retire_winners. fsimpl. repeat split; reflexivity. Qed.

Lemma clear_round_fields s :
  active_players (clear_round s) = active_players s
  ∧ winners (clear_round s) = winners s
  ∧ players (clear_round s) = players s.
Proof. unfold clear_round. fsimpl. repeat split; reflexivity. Qed.

Lemma settle_pile_fields sb w s :
  active_players (settle_pile sb w s) = active_players s
  ∧ winners (settle_pile sb w s) = winners s
  ∧ players (settle_pile sb w s)
    = (if sb then dict_set w (sort_hand (cards_of w s ++ (current_pile s).*2)) (players s)
       else players s)
  ∧ discarded_cards (settle_pile sb w s)
    = (if sb then discarded_cards s else discarded_cards s ++ (current_pile s).*2).
Proof. unfold settle_pile. destruct sb; fsimpl; repeat split; reflexivity. Qed.

(** X7.  On a session that satisfies the invariant and whose pile is not
    empty, [_resolve_round] gives the turn to the round winner it
    records, as long as that player is still active; a round winner who
    is no longer active has left with an empty hand and is in
    [winners]. *)
Theorem round_winner_leads_next (suit_broken : bool) (s : GameSession) :
  inv s →
  current_pile s ≠ [] →
  ∃ s' w,
    _resolve_round suit_broken s = Ok tt s'
    ∧ resolved_winner s' = Some w
    ∧ (w ∈ active_players s' → current_player s' = Ok w s')
    ∧ (w ∉ active_players s' → w ∈ winners s' ∧ cards_of w s' = []).
Proof.
  intros Hinv Hpile.
  destruct (round_winner_exists s Hinv Hpile) as (w & c & Hmax & _ & _ & _ & Hw).
  pose proof (inv_active_keys s w Hinv Hw) as Hwk.
  destruct (resolve_round_run suit_broken s w c Hpile Hmax Hwk) as (idx & f & k & a & Hrun & Hidx & _).
  { by apply (inv_active s Hinv). }
  { apply (inv_active_nodup s Hinv). }
  { intros p Hp. by apply inv_active_keys. }
  exists (resolved suit_broken w idx f k a s), w. split; [done|].
  destruct (resolved_fields suit_broken w idx f k a s)
    as (Hrw & Hci & Hact & Hwin & Hpl & _).
  cbv zeta in Hact, Hwin.
  split; [done|]. split.
  - intros Hin. apply current_player_at. rewrite Hci, Hact.
    apply py_index_lookup, Hidx. by rewrite <- Hact.
  - intros Hout. rewrite Hact in Hout. rewrite Hwin.
    destruct (retire_winners_fields (clear_round (settle_pile suit_broken w s)))
      as (Hact2 & Hwin2 & _).
    destruct (clear_round_fields (settle_pile suit_broken w s)) as (Hact3 & _ & Hpl3).
    destruct (settle_pile_fields suit_broken w s) as (Hact4 & _).
    rewrite Hact2, Hact3, Hact4 in Hout. rewrite Hwin2, Hact3, Hact4.
    assert (Hl : leaves (clear_round (settle_pile suit_broken w s)) w).
    { destruct (decide (leaves (clear_round (settle_pile suit_broken w s)) w)) as [|Hno];
        [done|]. destruct Hout. by apply list_elem_of_filter. }
    split.
    + apply elem_of_app. right. by apply list_elem_of_filter.
    + destruct Hl as [Hlen _]. unfold cards_of in *. rewrite Hpl, <- Hpl3.
      by apply nil_length_inv.
Qed.

(** ** The lobby *)

Lemma dict_del_set_new {V} k (v : V) d :
  k ∉ dict_keys d → dict_del k (dict_set k v d) = d.
Proof.
  unfold dict_keys. induction d as [|[k' v'] d IH]; csimpl; intros Hk.
  - by rewrite decide_True.
  - apply not_elem_of_cons in Hk as [Hne Hk].
    rewrite decide_False by done. csimpl. rewrite decide_False by done.
    f_equal. by apply IH.
Qed.

Lemma py_remove_app_new (k : string) l : k ∉ l → py_remove k (l ++ [k]) = Some l.
Proof.
  induction l as [|x l IH]; csimpl; intros Hk.
  - by rewrite decide_True.
  - apply not_elem_of_cons in Hk as [Hne Hk].
    rewrite decide_False by done. by rewrite IH.
Qed.

(** X8.  In the lobby of a session that satisfies the invariant, a
    player who joins with [add_player] and then leaves with
    [remove_player] leaves the session exactly as it was before joining. *)
Theorem join_then_leave_restores_lobby (s s1 : GameSession) (p : string) :
  inv s →
  add_player p s = Ok true s1 →
  remove_player p s1 = Ok tt s.
Proof.
  intros Hinv Hadd.
  pose proof (inv_order s Hinv) as Hord.
  unfold add_player in Hadd. munfold_in Hadd.
  destruct (bool_decide (p ∈ dict_keys (players s))) eqn:Hin; [done|].
  apply bool_decide_eq_false in Hin.
  destruct (game_started s) eqn:Hst; [done|]. cbn [orb] in Hadd.
  destruct (8 <=? length (players s)); [done|].
  injection Hadd as <-.
  unfold remove_player. munfold. fsimpl.
  rewrite decide_False.
  2:{ intros Hno. apply Hno. rewrite dict_keys_set_new by done.
      apply elem_of_app. right. by left. }
  cbv beta. fsimpl. rewrite Hst. cbn [negb]. cbv beta. fsimpl.
  rewrite py_remove_app_new by (by rewrite Hord).
  rewrite dict_del_set_new by done.
  destruct s. reflexivity.
Qed.

(** ** Disconnecting and reconnecting *)

Lemma current_player_total s :
  player_order s ≠ [] ∨ active_players s ≠ [] → ∃ q, current_player s = Ok q s.
Proof.
  intros Hne. destruct (decide (active_players s = [])) as [Hnil|Hact].
  - destruct Hne as [Hpo|]; [|done].
    unfold current_player. munfold. rewrite decide_True by done.
    destruct (player_order s) as [|q po] eqn:Hq; [done|]. by exists q.
  - destruct (current_player_active s Hact) as (q & Hq & _). by exists q.
Qed.

Lemma current_player_same_seats p s s' :
  active_players s' = active_players s → player_order s' = player_order s →
  current_player_idx s' = current_player_idx s →
  current_player s = Ok p s ↔ current_player s' = Ok p s'.
Proof.
  intros Ha Hp Hi. split; intros H.
  - by apply (current_player_ext p s s').
  - by apply (current_player_ext p s' s).
Qed.

Lemma set_waiting_for_player_same s :
  set_waiting_for_player (waiting_for_player s) s = s.
Proof. by destruct s. Qed.

(** [remove_player] during a game, for a member of the session. *)
Lemma remove_player_run p s :
  game_started s = true →
  p ∈ dict_keys (players s) →
  player_order s ≠ [] →
  ∃ w, remove_player p s
       = Ok tt (set_waiting_for_player w
                  (set_connected_players (connected_players s ∖ {[p]}) s))
       ∧ ((w = Some p ∧ current_player s = Ok p s ∧ p ∈ active_players s)
          ∨ (w = waiting_for_player s
             ∧ ¬ (current_player s = Ok p s ∧ p ∈ active_players s))).
Proof.
  intros Hst Hp Hpo. unfold remove_player. munfold.
  rewrite decide_False by (by intros ?). rewrite Hst. cbn [negb]. cbv beta.
  destruct (current_player_total s (or_introl Hpo)) as (q & Hq).
  pose proof (current_player_ext q s
                (set_connected_players (connected_players s ∖ {[p]}) s)
                eq_refl eq_refl eq_refl Hq) as Hq'.
  rewrite Hq'. fsimpl.
  destruct (bool_decide (p = q)) eqn:Hpq; cbn [andb];
    [destruct (bool_decide (p ∈ active_players s)) eqn:Hpa|].
  - apply bool_decide_eq_true in Hpq as ->. apply bool_decide_eq_true in Hpa.
    exists (Some q). split; [done|]. by left.
  - apply bool_decide_eq_false in Hpa.
    exists (waiting_for_player s).
    split; [|right; split; [done|]; by intros [_ ?]].
    by rewrite <- (set_waiting_for_player_same
                     (set_connected_players (connected_players s ∖ {[p]}) s)) at 1.
  - apply bool_decide_eq_false in Hpq.
    exists (waiting_for_player s).
    split; [|right; split; [done|]; intros [Hc _]; congruence].
    by rewrite <- (set_waiting_for_player_same
                     (set_connected_players (connected_players s ∖ {[p]}) s)) at 1.
Qed.

(** [player_reconnected] on a session that satisfies the invariant: the
    branch that would seat the player again is never taken, and what is
    left depends on [waiting_for_player]. *)
Lemma player_reconnected_run p s :
  inv s →
  let s0 := set_connected_players ({[p]} ∪ connected_players s) s in
  (waiting_for_player s ≠ Some p → player_reconnected p s = Ok tt s0)
  ∧ (∀ i, waiting_for_player s = Some p → py_index p (active_players s) = Some i →
          player_reconnected p s
          = Ok tt (set_waiting_for_player None (set_current_player_idx i s0)))
  ∧ (waiting_for_player s = Some p → p ∉ active_players s →
     ∃ msg, player_reconnected p s = Raise (ValueError msg) s0).
Proof.
  intros Hinv s0.
  assert (Hhead : player_reconnected p s
    = (w ← gets waiting_for_player;
       if decide (w = Some p) then
         active ← gets active_players;
         idx ← index_of p active;
         modify (set_current_player_idx idx) ;;
         modify (set_waiting_for_player None)
       else ret tt) s0).
  { unfold player_reconnected. munfold. fsimpl. fold s0.
    destruct (dict_get p (players s)) as [h|] eqn:Hh; [|done].
    destruct (0 <? length h) eqn:Hlen; [|done].
    destruct (decide (p ∉ active_players s0)) as [Hna|]; [|done].
    rewrite (inv_benched s Hinv p h Hh Hna) in Hlen. done. }
  rewrite Hhead. munfold. subst s0. fsimpl. repeat split.
  - intros Hw. by rewrite decide_False.
  - intros i Hw Hi. rewrite decide_True by done.
    unfold index_of. fsimpl. by rewrite Hi.
  - intros Hw Hna. rewrite decide_True by done.
    unfold index_of. fsimpl. apply py_index_None in Hna. rewrite Hna.
    by eexists.
Qed.

Lemma player_reconnected_frame p s :
  inv s →
  game_started (final (player_reconnected p s)) = game_started s
  ∧ finished (final (player_reconnected p s)) = finished s
  ∧ original_players (final (player_reconnected p s)) = original_players s
  ∧ connected_players (final (player_reconnected p s)) = {[p]} ∪ connected_players s
  ∧ (waiting_for_player (final (player_reconnected p s)) = waiting_for_player s
     ∨ waiting_for_player (final (player_reconnected p s)) = None).
Proof.
  intros Hinv. destruct (player_reconnected_run p s Hinv) as (Hother & Hseat & Hgone).
  destruct (decide (waiting_for_player s = Some p)) as [Hw|Hw].
  - destruct (decide (p ∈ active_players s)) as [Hp|Hp].
    + destruct (py_index_elem p _ Hp) as (i & Hi & _).
      rewrite (Hseat i Hw Hi). cbn [final]. fsimpl. repeat split. by right.
    + destruct (Hgone Hw Hp) as (msg & ->). cbn [final]. fsimpl. repeat split. by left.
  - rewrite (Hother Hw). cbn [final]. fsimpl. repeat split. by left.
Qed.

Lemma can_rejoin_run p s :
  can_rejoin p s
  = Ok (if negb (game_started s) then (false, "Game not started - use normal join")
        else if finished s then (false, "Game is finished")
        else if decide (p ∉ original_players s)
             then (false, "You were not part of this game")
        else if decide (p ∈ connected_players s)
             then (false, "Player with this name is already connected")
        else (true, "OK")) s.
Proof.
  unfold can_rejoin. munfold.
  destruct (game_started s); cbn [negb]; [|done].
  destruct (finished s); [done|].
  destruct (decide (p ∉ original_players s)); [done|].
  by destruct (decide (p ∈ connected_players s)).
Qed.

(** X9.  In a game in progress on a session that satisfies the
    invariant, an original player who disconnects ([remove_player]) is
    let back in by [can_rejoin], and once [player_reconnected] has run
    for that player [can_rejoin] refuses the name as already
    connected. *)
Theorem disconnected_player_may_rejoin_once (s : GameSession) (p : string) :
  inv s →
  game_started s = true →
  finished s = false →
  p ∈ original_players s →
  p ∈ dict_keys (players s) →
  ∃ s1,
    remove_player p s = Ok tt s1
    ∧ can_rejoin p s1 = Ok (true, "OK") s1
    ∧ can_rejoin p (final (player_reconnected p s1))
      = Ok (false, "Player with this name is already connected")
          (final (player_reconnected p s1)).
Proof.
  intros Hinv Hst Hfin Horig Hp.
  assert (Hpo : player_order s ≠ []).
  { rewrite (inv_order s Hinv). intros Hnil. rewrite Hnil in Hp.
    by apply elem_of_nil in Hp. }
  destruct (remove_player_run p s Hst Hp Hpo) as (w & Hrun & _).
  pose proof (remove_player_inv p s Hinv) as Hinv1.
  rewrite Hrun in Hinv1. cbn [final] in Hinv1.
  eexists. split; [exact Hrun|].
  remember (set_waiting_for_player w
              (set_connected_players (connected_players s ∖ {[p]}) s)) as s1 eqn:Hs1.
  assert (Hf1 : game_started s1 = true ∧ finished s1 = false
                ∧ original_players s1 = original_players s
                ∧ connected_players s1 = connected_players s ∖ {[p]}).
  { subst s1. fsimpl. done. }
  destruct Hf1 as (Hst1 & Hfin1 & Horig1 & Hconn1).
  destruct (player_reconnected_frame p s1 Hinv1) as (Hst2 & Hfin2 & Horig2 & Hconn2 & _).
  split.
  - rewrite can_rejoin_run, Hst1, Hfin1, Horig1, Hconn1. cbn [negb].
    rewrite decide_False by (by intros ?).
    rewrite decide_False by set_solver. done.
  - rewrite can_rejoin_run, Hst2, Hfin2, Horig2, Hconn2, Hst1, Hfin1, Horig1.
    cbn [negb]. rewrite decide_False by (by intros ?).
    rewrite decide_True by set_solver. done.
Qed.

(** X10.  On a session that satisfies the invariant and is not waiting
    for [p], when the game has started and [p] is a member, disconnecting
    [p] and reconnecting [p] both return and leave the game where it
    was: the same hands, active players, winners and pile, the same
    current player [q]; the session waits for [p] in between exactly when
    [p] is the current player and is active, and no longer afterwards;
    [p] is connected at the end. *)
Theorem disconnect_then_reconnect_keeps_game (s : GameSession) (p q : string) :
  inv s →
  game_started s = true →
  p ∈ dict_keys (players s) →
  waiting_for_player s ≠ Some p →
  current_player s = Ok q s →
  ∃ s1 s2,
    remove_player p s = Ok tt s1
    ∧ player_reconnected p s1 = Ok tt s2
    ∧ (waiting_for_player s1 = Some p ↔ q = p ∧ p ∈ active_players s)
    ∧ players s2 = players s
    ∧ active_players s2 = active_players s
    ∧ winners s2 = winners s
    ∧ current_pile s2 = current_pile s
    ∧ current_player s2 = Ok q s2
    ∧ p ∈ connected_players s2
    ∧ waiting_for_player s2 ≠ Some p.
Proof.
  intros Hinv Hst Hp Hw Hcur.
  assert (Hpo : player_order s ≠ []).
  { rewrite (inv_order s Hinv). intros Hnil. rewrite Hnil in Hp.
    by apply elem_of_nil in Hp. }
  destruct (remove_player_run p s Hst Hp Hpo) as (w & Hrun & Hcase).
  pose proof (remove_player_inv p s Hinv) as Hinv1.
  rewrite Hrun in Hinv1. cbn [final] in Hinv1.
  remember (set_waiting_for_player w
              (set_connected_players (connected_players s ∖ {[p]}) s)) as s1 eqn:Hs1.
  assert (Hf1 : players s1 = players s ∧ active_players s1 = active_players s
                ∧ winners s1 = winners s ∧ current_pile s1 = current_pile s
                ∧ player_order s1 = player_order s
                ∧ current_player_idx s1 = current_player_idx s
                ∧ waiting_for_player s1 = w).
  { subst s1. fsimpl. done. }
  destruct Hf1 as (Hpl1 & Hact1 & Hwin1 & Hpile1 & Hord1 & Hidx1 & Hw1).
  destruct (player_reconnected_run p s1 Hinv1) as (Hother & Hseat & _).
  exists s1. destruct Hcase as [(-> & Hcurp & Hpa)|(-> & Hnot)].
  - assert (q = p) as -> by congruence.
    destruct (py_index_elem p _ Hpa) as (i & Hi & Hlook).
    rewrite <- Hact1 in Hi. specialize (Hseat i Hw1 Hi).
    eexists. do 2 (split; [done|]). split; [by rewrite Hw1|].
    fsimpl. do 4 (split; [done|]). split; [|split; [set_solver|done]].
    apply current_player_at. fsimpl. by rewrite Hact1.
  - assert (Hw1' : waiting_for_player s1 ≠ Some p) by (by rewrite Hw1).
    specialize (Hother Hw1').
    eexists. do 2 (split; [done|]).
    split; [split; [by intros ?|intros [-> ?]; by destruct Hnot]|].
    fsimpl. do 4 (split; [done|]). split; [|split; [set_solver|done]].
    by apply (current_player_ext q s).
Qed.

(** X11.  On a session that satisfies the invariant and is waiting for
    [p]: when [p] is still active, [player_reconnected] returns and the
    turn is [p]'s afterwards, whoever held it, and the session waits for
    nobody; when [p] is no longer active, [player_reconnected] raises a
    [ValueError] (the lookup of [p] in [active_players] fails) after it
    has recorded [p] as connected. *)
Theorem reconnect_of_awaited_player (s : GameSession) (p : string) :
  inv s →
  waiting_for_player s = Some p →
  (p ∈ active_players s →
   ∃ s', player_reconnected p s = Ok tt s'
         ∧ current_player s' = Ok p s'
         ∧ waiting_for_player s' = None)
  ∧ (p ∉ active_players s →
     ∃ msg, player_reconnected p s
            = Raise (ValueError msg)
                (set_connected_players ({[p]} ∪ connected_players s) s)).
Proof.
  intros Hinv Hw. destruct (player_reconnected_run p s Hinv) as (_ & Hseat & Hgone).
  split.
  - intros Hp. destruct (py_index_elem p _ Hp) as (i & Hi & Hlook).
    eexists. split; [exact (Hseat i Hw Hi)|]. split; [|done].
    apply current_player_at. by fsimpl.
  - intros Hp. exact (Hgone Hw Hp).
Qed.

(** ** What the moves of the game leave alone *)

Lemma same_table_refl s : same_table s s.
Proof. by split. Qed.

Lemma same_table_trans s1 s2 s3 : same_table s1 s2 → same_table s2 s3 → same_table s1 s3.
Proof. intros [] []. split; congruence. Qed.

Lemma round_opened_table c s : same_table s (round_opened c s).
Proof.
  unfold round_opened.
  destruct (game_first_card_played s), (decide (current_pile s = []));
    split; fsimpl; reflexivity.
Qed.

Lemma card_played_table p c s :
  p ∈ dict_keys (players s) → same_table s (card_played p c s).
Proof.
  intros Hp. unfold card_played. split; fsimpl; try reflexivity.
  by apply dict_keys_set.
Qed.

Lemma turn_set_table i s : same_table s (set_current_player_idx i s).
Proof. split; fsimpl; reflexivity. Qed.

Lemma last_action_set_table a s : same_table s (set_last_action a s).
Proof. split; fsimpl; reflexivity. Qed.

Lemma kazhutha_set_table k s : same_table s (set_kazhutha k s).
Proof. split; fsimpl; reflexivity. Qed.

Lemma finished_set_table f s : same_table s (set_finished f s).
Proof. split; fsimpl; reflexivity. Qed.

Lemma resolved_winner_set_table w s : same_table s (set_resolved_winner w s).
Proof. split; fsimpl; reflexivity. Qed.

Lemma resolved_pile_set_table l s : same_table s (set_resolved_pile l s).
Proof. split; fsimpl; reflexivity. Qed.

(** Peels the assignments to fields that are not of the table. *)
Ltac table_step :=
  lazymatch goal with
  | |- same_table ?s (?f ?v ?s1) =>
      apply (same_table_trans s s1 (f v s1));
      [|first [apply turn_set_table | apply last_action_set_table
              | apply kazhutha_set_table | apply finished_set_table
              | apply resolved_winner_set_table | apply resolved_pile_set_table]]
  end.

Lemma resolved_table sb w idx f k a s :
  w ∈ dict_keys (players s) → same_table s (resolved sb w idx f k a s).
Proof.
  intros Hw. pose proof (settle_pile_keys sb w s Hw) as Hk.
  unfold resolved, retire_winners, clear_round. split; fsimpl; try exact Hk;
    unfold settle_pile; destruct sb; fsimpl; reflexivity.
Qed.

Lemma hand_taken_table p lp s :
  p ∈ dict_keys (players s) → lp ∈ dict_keys (players s) →
  same_table s (hand_taken p lp s).
Proof.
  intros Hp Hlp. unfold hand_taken. split; fsimpl; try reflexivity.
  rewrite !dict_keys_set; [done|done| |].
  - by rewrite dict_keys_set.
  - by rewrite !dict_keys_set by (by rewrite ?dict_keys_set).
Qed.

Lemma play_card_table p cd s : inv s → same_table s (final (play_card p cd s)).
Proof.
  intros Hinv.
  destruct (play_card_outcomes p cd s Hinv)
    as [[-> _]|[(c & cs & _ & _ & _ & ->)|(c & h & s' & Hp & Hh & _ & _ & _ & _ & -> & Hs')]];
    cbn [final].
  - apply same_table_refl.
  - destruct (game_first_card_played s); [apply same_table_refl|].
    split; fsimpl; reflexivity.
  - assert (Hplayed : same_table s (card_played p c (round_opened c s))).
    { eapply same_table_trans; [apply round_opened_table|].
      apply card_played_table.
      rewrite (table_members _ _ (round_opened_table c s)). by eapply dict_get_keys. }
    destruct Hs' as [(sb & w & idx & f & k & a & Hw & ->)|(i & ->)].
    + eapply same_table_trans; [exact Hplayed|]. apply resolved_table.
      rewrite (table_members _ _ Hplayed). by apply inv_active_keys.
    + eapply same_table_trans; [exact Hplayed|]. apply turn_set_table.
Qed.

Lemma take_hand_table p s : inv s → same_table s (final (take_hand_from_left p s)).
Proof.
  intros Hinv.
  destruct (take_hand_run p s Hinv)
    as [[m ->]|(lp & idx & f & k & a & _ & _ & _ & _ & Hp & Hlp & _ & _ & _ & -> & _)];
    cbn [final]; [apply same_table_refl|].
  do 7 table_step. apply hand_taken_table; by apply inv_active_keys.
Qed.

(** X12.  On a session that satisfies the invariant, [play_card] and
    [take_hand_from_left] leave the table alone whether they succeed,
    fail or raise: the session id and host, the members and their
    seats, [game_started], [original_players], [connected_players] and
    [waiting_for_player] are as before. *)
Theorem moves_leave_the_table_alone (s : GameSession) (p : string)
    (cd : list (string * string)) :
  inv s →
  same_table s (final (play_card p cd s))
  ∧ same_table s (final (take_hand_from_left p s)).
Proof.
  intros Hinv. split; [by apply play_card_table|by apply take_hand_table].
Qed.

(** ** The second invariant *)

(** A session with the seats, the start flag and the round of another
    satisfies [inv_play] when that one does. *)
Lemma inv_play_same_fields s s' :
  player_order s' = player_order s → game_started s' = game_started s →
  round_in_progress s' = round_in_progress s → current_pile s' = current_pile s →
  inv_play s → inv_play s'.
Proof.
  intros Hpo Hst Hr Hpile [Hcap Hseats Hround].
  split; rewrite ?Hpo, ?Hst, ?Hr, ?Hpile; done.
Qed.

Lemma new_session_inv_play game_id host_name : inv_play (new_session game_id host_name).
Proof. split; cbn; [lia|done|done]. Qed.

Lemma add_player_inv_play p s : inv s → inv_play s → inv_play (final (add_player p s)).
Proof.
  intros Hinv Hplay. unfold add_player. munfold.
  destruct (bool_decide (p ∈ dict_keys (players s))); [done|].
  destruct (game_started s) eqn:Hst; [done|]. cbn [orb].
  destruct (8 <=? length (players s)) eqn:Hlen; [done|].
  apply Nat.leb_gt in Hlen. cbn [final]. destruct Hplay as [Hcap Hseats Hround].
  split; fsimpl.
  - rewrite length_app, (inv_order s Hinv). unfold dict_keys.
    rewrite length_fmap. simpl. lia.
  - by rewrite Hst.
  - done.
Qed.

Lemma remove_player_inv_play p s :
  inv s → inv_play s → inv_play (final (remove_player p s)).
Proof.
  intros Hinv Hplay. destruct (game_started s) eqn:Hst.
  { destruct (remove_player_same p s Hinv Hst) as (_ & Hpo & _ & Hpile & Hr & _ & _ & Hst' & _).
    by apply (inv_play_same_fields s). }
  unfold remove_player. munfold.
  destruct (decide (p ∉ dict_keys (players s))); [done|].
  rewrite Hst. cbn [negb]. fsimpl.
  destruct Hplay as [Hcap Hseats Hround].
  destruct (py_remove p (player_order s)) as [po'|] eqn:Hrem; cbn [final].
  - split; fsimpl; [|by rewrite Hst|done].
    apply py_remove_length in Hrem. lia.
  - split; fsimpl; [done|by rewrite Hst|done].
Qed.

Lemma player_reconnected_inv_play p s :
  inv s → inv_play s → inv_play (final (player_reconnected p s)).
Proof.
  intros Hinv.
  destruct (player_reconnected_same p s Hinv) as (_ & Hpo & _ & Hpile & Hr & _ & _ & Hst & _).
  by apply inv_play_same_fields.
Qed.

Lemma reset_game_inv_play s : inv_play s → inv_play (final (reset_game s)).
Proof.
  intros [Hcap Hseats Hround]. unfold reset_game. munfold.
  destruct (clear_hands_run (dict_keys (players s)) s) as (d & -> & _); [done|].
  cbn [final]. split; fsimpl; done.
Qed.

Lemma start_game_with_inv_play deck s :
  inv s → inv_play s → inv_play (final (start_game_with deck s)).
Proof.
  intros Hinv [Hcap Hseats Hround].
  destruct (Nat.lt_ge_cases (length (players s)) 2) as [Hlt|Hge].
  { unfold start_game_with. munfold.
    destruct (Nat.ltb_spec (length (players s)) 2); [done|lia]. }
  destruct (start_game_with_run deck s Hinv Hge) as (d & idx & -> & _).
  cbn [final]. split; fsimpl; [done| |done].
  intros _. rewrite (inv_order s Hinv). unfold dict_keys. by rewrite length_fmap.
Qed.

Lemma take_hand_inv_play p s :
  inv s → inv_play s → inv_play (final (take_hand_from_left p s)).
Proof.
  intros Hinv Hplay.
  destruct (take_hand_table p s Hinv) as [_ _ Hpo _ Hst _ _ _].
  destruct (take_hand_run p s Hinv)
    as [[m Hrun]|(lp & idx & f & k & a & _ & _ & Hpile & _ & _ & _ & _ & _ & _ & Hrun & _)];
    rewrite Hrun in Hpo, Hst |- *; cbn [final] in *; [done|].
  destruct Hplay as [Hcap Hseats Hround].
  split; rewrite ?Hpo, ?Hst; [done|done|].
  unfold hand_taken. fsimpl. done.
Qed.

Lemma play_card_inv_play p cd s :
  inv s → inv_play s → inv_play (final (play_card p cd s)).
Proof.
  intros Hinv Hplay.
  destruct (play_card_table p cd s Hinv) as [_ _ Hpo _ Hst _ _ _].
  destruct Hplay as [Hcap Hseats Hround].
  split; rewrite ?Hpo, ?Hst; [done|done|]. clear Hpo Hst.
  destruct (play_card_outcomes p cd s Hinv)
    as [[-> _]|[(c & cs & _ & _ & _ & ->)|(c & h & s' & _ & _ & _ & _ & _ & _ & -> & Hs')]];
    cbn [final].
  - done.
  - by destruct (game_first_card_played s).
  - destruct Hs' as [(sb & w & idx & f & k & a & Hw & ->)|(i & ->)].
    + destruct (resolved_fields sb w idx f k a (card_played p c (round_opened c s)))
        as (_ & _ & _ & _ & _ & _ & _ & -> & _). done.
    + intros _. remember (round_opened c s) as s1. unfold card_played. fsimpl.
      intros Hnil. by apply app_eq_nil in Hnil as [_ ?].
Qed.

(** ** Calls that return *)

(** The last check of [play_card], when it turns the card down. *)
Lemma play_card_rejects p cd c h cs s :
  game_started s = true → finished s = false →
  current_player s = Ok p s → p ∈ active_players s →
  card_of_dict cd s = Ok c s →
  dict_get p (players s) = Some h → c ∈ h →
  (game_first_card_played s = false → c = ace_of_spades) →
  current_suit (round_opened c s) = Some cs →
  Exists (λ d, suit d = cs) h → suit c ≠ cs →
  play_card p cd s
  = Ok (false, Some ("You must play a " +:+ Suit_value cs)) (round_opened c s).
Proof.
  intros Hst Hfin Hcur Hp Hcard Hh Hc Hace Hcs Hex Hne.
  unfold play_card. munfold.
  rewrite Hst, Hfin. cbn [negb orb]. rewrite Hcur.
  rewrite decide_False by (by intros ?).
  rewrite decide_False by (by intros ?).
  rewrite Hcard, (hand_of_Some _ _ _ Hh).
  rewrite decide_False by (by intros ?).
  assert (negb (game_first_card_played s)
          && bool_decide (suit c ≠ SPADES ∨ rank c ≠ ACE) = false) as ->.
  { destruct (game_first_card_played s); [done|]. rewrite (Hace eq_refl).
    cbn [negb andb]. apply bool_decide_eq_false. intros [?|?]; done. }
  assert (Htail : ∀ s1,
    current_suit s1 = Some cs →
    match current_suit s1 with
    | Some cs0 =>
        if bool_decide (Exists (λ c0, suit c0 = cs0) h) && bool_decide (suit c ≠ cs0)
        then λ s0, Ok (false, Some ("You must play a " +:+ Suit_value cs0)) s0
        else play_accepted p c
    | None => play_accepted p c
    end s1 = Ok (false, Some ("You must play a " +:+ Suit_value cs)) s1).
  { intros s1 ->. by rewrite !bool_decide_eq_true_2. }
  revert Hcs. unfold round_opened.
  destruct (game_first_card_played s) eqn:Hf; cbn [negb]; cbv beta;
    (destruct (decide (current_pile s = [])) as [Hpile|Hpile];
     [rewrite ?decide_True by exact Hpile|rewrite ?decide_False by exact Hpile]);
    cbv beta; apply Htail.
Qed.

(** [play_card] returns whenever the current player can be named and the
    card dict can be read. *)
Lemma play_card_returns p cd c q s :
  inv s →
  current_player s = Ok q s →
  card_of_dict cd s = Ok c s →
  ∃ r s', play_card p cd s = Ok r s'.
Proof.
  intros Hinv Hcur Hcard.
  assert (Hout : game_started s = false ∨ finished s = true ∨ p ≠ q
                 ∨ p ∉ active_players s
                 ∨ (game_started s = true ∧ finished s = false ∧ p = q
                    ∧ p ∈ active_players s)).
  { destruct (game_started s); [|by left].
    destruct (finished s); [by right; left|].
    destruct (decide (p = q)); [|by right; right; left].
    destruct (decide (p ∈ active_players s)); [|by right; right; right; left].
    by right; right; right; right. }
  destruct Hout as [Hst|[Hfin|[Hne|[Hna|(Hst & Hfin & Heq & Hp)]]]]; [..|subst q].
  - unfold play_card. munfold. rewrite Hst. by eexists _, _.
  - unfold play_card. munfold. rewrite Hfin, orb_true_r. by eexists _, _.
  - unfold play_card. munfold.
    destruct (negb (game_started s) || finished s); [by eexists _, _|].
    rewrite Hcur. rewrite decide_True by done. by eexists _, _.
  - unfold play_card. munfold.
    destruct (negb (game_started s) || finished s); [by eexists _, _|].
    rewrite Hcur. destruct (decide (p ≠ q)); [by eexists _, _|].
    rewrite decide_True by done. by eexists _, _.
  - destruct (dict_keys_get p (players s) (inv_active_keys s p Hinv Hp)) as (h & Hh).
    destruct (decide (c ∈ h)) as [Hc|Hc].
    2:{ unfold play_card. munfold. rewrite Hst, Hfin. cbn [negb orb]. rewrite Hcur.
        rewrite decide_False by (by intros ?).
        rewrite decide_False by (by intros ?).
        rewrite Hcard, (hand_of_Some _ _ _ Hh).
        rewrite decide_True by done. by eexists _, _. }
    destruct (negb (game_first_card_played s)
              && bool_decide (suit c ≠ SPADES ∨ rank c ≠ ACE)) eqn:Hfirst.
    { unfold play_card. munfold. rewrite Hst, Hfin. cbn [negb orb]. rewrite Hcur.
      rewrite decide_False by (by intros ?).
      rewrite decide_False by (by intros ?).
      rewrite Hcard, (hand_of_Some _ _ _ Hh).
      rewrite decide_False by (by intros ?).
      rewrite Hfirst. by eexists _, _. }
    assert (Hace : game_first_card_played s = false → c = ace_of_spades).
    { intros Hf. rewrite Hf in Hfirst. cbn [negb andb] in Hfirst.
      apply bool_decide_eq_false in Hfirst.
      destruct c as [st rk]. unfold ace_of_spades. cbn [suit rank] in Hfirst.
      destruct (decide (st = SPADES)) as [->|]; [|by destruct Hfirst; left].
      destruct (decide (rk = ACE)) as [->|]; [done|by destruct Hfirst; right]. }
    assert (Hsuit : (∃ cs, current_suit (round_opened c s) = Some cs
                           ∧ Exists (λ d, suit d = cs) h ∧ suit c ≠ cs)
                    ∨ (∀ cs, current_suit (round_opened c s) = Some cs →
                             Exists (λ d, suit d = cs) h → suit c = cs)).
    { destruct (current_suit (round_opened c s)) as [cs|]; [|by right].
      destruct (decide (Exists (λ d, suit d = cs) h)) as [Hex|Hex];
        [|right; by intros ? [= <-] ?].
      destruct (decide (suit c = cs)) as [Heq|Hne]; [right; by intros ? [= <-]|].
      left. by exists cs. }
    destruct Hsuit as [(cs & Hcs & Hex & Hne)|Hsuit].
    { rewrite (play_card_rejects p cd c h cs s); [by eexists _, _|done..]. }
    rewrite (play_card_accepts p cd c h s) by done.
    destruct (round_opened_fields c s) as (Hpl & _ & Hact & Hpile & _).
    destruct (play_accepted_run p c h (round_opened c s)) as [Hres|Hadv].
    + by apply round_opened_inv.
    + by rewrite Hact.
    + by rewrite Hpl.
    + done.
    + rewrite Hpile. apply round_opened_suit.
    + destruct Hres as (sb & w & idx & f & k & a & _ & ->). by eexists _, _.
    + destruct Hadv as (i & ->). by eexists _, _.
Qed.

Lemma remove_player_returns p s : inv s → ∃ s', remove_player p s = Ok tt s'.
Proof.
  intros Hinv.
  destruct (decide (p ∈ dict_keys (players s))) as [Hp|Hp].
  2:{ unfold remove_player. munfold. rewrite decide_True by done. by eexists. }
  assert (Hpo : player_order s ≠ []).
  { rewrite (inv_order s Hinv). intros Hnil. rewrite Hnil in Hp.
    by apply elem_of_nil in Hp. }
  destruct (game_started s) eqn:Hst.
  { destruct (remove_player_run p s Hst Hp Hpo) as (w & -> & _). by eexists. }
  unfold remove_player. munfold. rewrite decide_False by (by intros ?).
  rewrite Hst. cbn [negb]. fsimpl.
  destruct (dict_keys_del p (players s)) as [Hnone|Hsome].
  { apply py_remove_None in Hnone. done. }
  rewrite (inv_order s Hinv), Hsome. by eexists.
Qed.

(** X13.  On a session that satisfies the two invariants no move of the
    game raises, except [play_card] on a card dict that cannot be read:
    [take_hand_from_left] and [remove_player] return for every player
    name, and [play_card] returns for every player name and every card
    dict that [card_of_dict] reads. *)
Theorem game_moves_return (s : GameSession) (p : string)
    (cd : list (string * string)) (c : Card) :
  inv s →
  inv_play s →
  (∃ r s', take_hand_from_left p s = Ok r s')
  ∧ (∃ s', remove_player p s = Ok tt s')
  ∧ (card_of_dict cd s = Ok c s → ∃ r s', play_card p cd s = Ok r s').
Proof.
  intros Hinv Hplay. split; [|split].
  - destruct (take_hand_run p s Hinv)
      as [[m ->]|(lp & idx & f & k & a & _ & _ & _ & _ & _ & _ & _ & _ & _ & -> & _)];
      by eexists _, _.
  - by apply remove_player_returns.
  - intros Hcard. destruct (game_started s) eqn:Hst.
    + assert (Hpo : player_order s ≠ []).
      { pose proof (inv_seats s Hplay Hst) as Hlen. intros Hnil.
        rewrite Hnil in Hlen. simpl in Hlen. lia. }
      destruct (current_player_total s (or_introl Hpo)) as (q & Hq).
      by apply (play_card_returns p cd c q).
    + unfold play_card. munfold. rewrite Hst. by eexists _, _.
Qed.

(** ** Every session the methods can produce *)

Section Sessions.
Context {Rng : Type} (shuffle : Rng → list Card → list Card * Rng).

Lemma reachable_inv_play s : reachable Rng shuffle s → inv_play s.
Proof.
induction 1 as [gid host|c s Hs IH]; [apply new_session_inv_play|].
pose proof (reachable_inv shuffle s Hs) as Hinv.
destruct c; cbn [after_call].
- by apply add_player_inv_play.
- by apply remove_player_inv_play.
- by apply player_reconnected_inv_play.
- by apply reset_game_inv_play.
- by apply start_game_with_inv_play.
- by apply take_hand_inv_play.
- by apply play_card_inv_play.
Qed.

(** X14.  In every session the methods can produce, starting from a new
  session and whatever the calls and their order: [player_order] is the
  list of the keys of [players] and has no duplicate; [active_players]
  has no duplicate and holds members only; the cards of the pile were
  played by active players; a member who is not active holds no card;
  and [round_in_progress] is set exactly when the pile is not empty. *)
Theorem every_session_is_well_formed (s : GameSession) :
reachable Rng shuffle s →
player_order s = dict_keys (players s)
∧ NoDup (player_order s)
∧ NoDup (active_players s)
∧ (∀ p, p ∈ active_players s → p ∈ player_order s)
∧ (∀ p c, (p, c) ∈ current_pile s → p ∈ active_players s)
∧ (∀ p h, dict_get p (players s) = Some h → p ∉ active_players s → h = [])
∧ (round_in_progress s = true ↔ current_pile s ≠ []).
Proof.
intros Hs. pose proof (reachable_inv shuffle s Hs) as Hinv.
pose proof (reachable_inv_play s Hs) as Hplay.
split; [apply (inv_order s Hinv)|].
split; [rewrite (inv_order s Hinv); apply (inv_keys s Hinv)|].
split; [apply (inv_active_nodup s Hinv)|].
split; [apply (inv_active s Hinv)|].
split; [apply (inv_pile s Hinv)|].
split; [apply (inv_benched s Hinv)|].
split; [apply (inv_in_round s Hplay)|].
intros Hpile. destruct (current_pile s) as [|[p c] rest] eqn:Hp; [done|].
by destruct (inv_round s Hinv p c rest Hp) as (? & _).
Qed.

(** X15.  In every session the methods can produce there are at most
  eight members, and a started game has at least two. *)
Theorem session_has_two_to_eight_members (s : GameSession) :
reachable Rng shuffle s →
length (players s) ≤ 8
∧ (game_started s = true → 2 ≤ length (players s)).
Proof.
intros Hs. pose proof (reachable_inv shuffle s Hs) as Hinv.
destruct (reachable_inv_play s Hs) as [Hcap Hseats _].
rewrite (inv_order s Hinv) in Hcap, Hseats. unfold dict_keys in Hcap, Hseats.
rewrite length_fmap in Hcap, Hseats. done.
Qed.

End Sessions.

(** ** The view of a player *)

Lemma can_take_from_left_run pn s :
  ∃ r, can_take_from_left pn s = Ok r s
       ∧ ∀ q, r = Some q ↔ ∃ p, pn = Some p ∧ may_take p q s.
Proof.
  unfold may_take.
  destruct pn as [[|ch p']|]; cbn [can_take_from_left].
  1,3: exists None; split; [done|]; intros q; split; [done|];
       intros (p & Hp & Hne & _); by simplify_eq.
  set (p := String ch p') in *. munfold.
  destruct (decide (p ∉ active_players s)) as [Hna|Hp].
  { exists None. split; [done|]. intros q. split; [done|].
    intros (p0 & [= <-] & _ & ? & _). done. }
  apply dec_stable in Hp.
  destruct (current_player_active s) as (cp & Hcp & _).
  { intros Hnil. rewrite Hnil in Hp. by apply elem_of_nil in Hp. }
  rewrite Hcp. destruct (decide (p ≠ cp)) as [Hne|Heq].
  { exists None. split; [done|]. intros q. split; [done|].
    intros (p0 & [= <-] & _ & _ & Hc & _). congruence. }
  apply dec_stable in Heq as <-.
  destruct (game_started s) eqn:Hst; cbn [negb orb].
  2:{ exists None. split; [done|]. intros q. split; [done|].
      intros (p0 & _ & _ & _ & _ & ? & _). done. }
  destruct (finished s) eqn:Hfin; cbn [orb].
  { exists None. split; [done|]. intros q. split; [done|].
    intros (p0 & _ & _ & _ & _ & _ & ? & _). done. }
  destruct (round_in_progress s) eqn:Hr.
  { exists None. split; [done|]. intros q. split; [done|].
    intros (p0 & _ & _ & _ & _ & _ & _ & ? & _). done. }
  destruct (get_player_on_left_run p s Hp) as (j & lp & _ & _ & Hleft).
  rewrite Hleft. destruct (decide (lp = p)) as [->|Hlp].
  { exists None. split; [done|]. intros q. split; [done|].
    intros (p0 & [= <-] & _ & _ & _ & _ & _ & _ & Hl & _). congruence. }
  destruct lp as [|ch2 lp'].
  { exists None. split; [done|]. intros q. split; [done|].
    intros (p0 & [= <-] & _ & _ & _ & _ & _ & _ & Hl & Hq & _).
    rewrite Hleft in Hl. by injection Hl as <-. }
  set (lp := String ch2 lp') in *. fold (cards_of lp s).
  destruct (0 <? length (cards_of lp s)) eqn:Hlen.
  - exists (Some lp). split; [done|]. intros q. split.
    + intros [= <-]. exists p. do 9 (split; [done|]).
      intros Hnil. by rewrite Hnil in Hlen.
    + intros (p0 & [= <-] & _ & _ & _ & _ & _ & _ & Hl & _). congruence.
  - exists None. split; [done|]. intros q. split; [done|].
    intros (p0 & [= <-] & _ & _ & _ & _ & _ & _ & Hl & _ & Hcards).
    assert (q = lp) as -> by congruence.
    apply Nat.ltb_ge in Hlen. destruct (cards_of lp s); [done|simpl in Hlen; lia].
Qed.

Lemma get_state_run pn s :
  ∃ st, get_state pn s = Ok st s
        ∧ can_take_from_left pn s = Ok (State.can_take_from_left st) s
        ∧ State.players st = player_entry s <$> players s
        ∧ State.your_hand st = hand_shown pn s
        ∧ State.discarded_count st = length (discarded_cards s)
        ∧ State.current_pile st = pile_entry <$> current_pile s
        ∧ (∀ q, State.current_player st = Some q
                ↔ active_players s ≠ [] ∧ current_player s = Ok q s).
Proof.
  destruct (can_take_from_left_run pn s) as (r & Hr & _).
  unfold get_state. munfold. rewrite Hr.
  destruct (decide (active_players s = [])) as [Hnil|Hact].
  - eexists. split; [done|]. cbn. do 5 (split; [done|]).
    intros q. split; [done|]. by intros [? _].
  - destruct (current_player_active s Hact) as (cp & Hcp & _). rewrite Hcp.
    eexists. split; [done|]. cbn. do 5 (split; [done|]).
    intros q. split; [by intros [= <-]|]. intros [_ Hq]. congruence.
Qed.

(** X16.  [get_state] returns for every session and every player name,
    present or not, and leaves the session as it was: the reads that
    could raise are all guarded. *)
Theorem get_state_always_returns (player_name : option string) (s : GameSession) :
  ∃ st, get_state player_name s = Ok st s.
Proof. destruct (get_state_run player_name s) as (st & Hst & _). by exists st. Qed.

(** Running a method step by step, without unfolding it whole. *)
Lemma mbind_Ok_inv {A B} (m : M A) (k : A → M B) s b s' :
  mbind k m s = Ok b s' → ∃ a s1, m s = Ok a s1 ∧ k a s1 = Ok b s'.
Proof.
  cbv [mbind M_bind bind]. destruct (m s) as [a s1|e s1]; [|done]. by exists a, s1.
Qed.

Lemma mbind_run {A B} (m : M A) (k : A → M B) s a :
  m s = Ok a s → mbind k m s = k a s.
Proof. cbv [mbind M_bind bind]. by intros ->. Qed.

(** Reads a field, in a hypothesis. *)
Ltac mgets H :=
  lazymatch type of H with
  | mbind ?k (gets ?f) ?s = _ =>
      change (mbind k (gets f) s) with (k (f s) s) in H; cbv beta in H
  end.

(** Steps over the statements of a run whose outcome alone matters. *)
Ltac mskip H :=
  repeat (cbv beta in H;
          lazymatch type of H with
          | mbind _ _ _ = Ok _ _ =>
              let a := fresh "a" in
              let s1 := fresh "s" in
              apply mbind_Ok_inv in H as (a & s1 & _ & H)
          end).

(** Once the checks of [take_hand_from_left] have passed the call does
    not return failure. *)
Lemma take_hand_not_refused p q m t s s' :
  game_started s = true → finished s = false → round_in_progress s = false →
  p ∈ active_players s → current_player s = Ok p s →
  get_player_on_left p s = Ok (Some q) s → q ≠ EmptyString → cards_of q s ≠ [] →
  take_hand_from_left p s ≠ Ok (false, m, t) s'.
Proof.
  intros Hst Hfin Hr Hp Hcur Hleft Hq Hcards H.
  unfold take_hand_from_left in H.
  do 2 mgets H. rewrite Hst, Hfin in H. cbn [negb orb] in H.
  do 2 mgets H. rewrite Hr in H. cbn [andb] in H.
  mgets H. rewrite decide_False in H by (by intros ?).
  rewrite (mbind_run _ _ _ _ Hcur) in H. cbv beta in H.
  rewrite decide_False in H by (by intros ?).
  rewrite (mbind_run _ _ _ _ Hleft) in H. cbv beta in H.
  destruct q as [|ch q']; [done|].
  set (q := String ch q') in *.
  unfold cards_of in Hcards.
  destruct (dict_get q (players s)) as [lh|] eqn:Hlh; [|done]. cbn in Hcards.
  rewrite (mbind_run _ _ _ _ (hand_of_Some _ _ _ Hlh)) in H. cbv beta in H.
  destruct (length lh =? 0) eqn:Hlen.
  { apply Nat.eqb_eq in Hlen. by destruct lh. }
  mskip H.
  destruct (py_remove _ _); [|discriminate H].
  mskip H. discriminate H.
Qed.

Lemma take_hand_from_nameless p s :
  game_started s = true → finished s = false → current_pile s = [] →
  p ∈ active_players s → current_player s = Ok p s →
  get_player_on_left p s = Ok (Some EmptyString) s →
  take_hand_from_left p s = Ok (false, "No player to take from", None) s.
Proof.
  intros Hst Hfin Hpile Hp Hcur Hleft.
  unfold take_hand_from_left. munfold.
  rewrite Hst, Hfin. cbn [negb orb]. cbv beta.
  rewrite Hpile. cbn [length Nat.ltb Nat.leb]. rewrite andb_false_r.
  rewrite decide_False by (by intros ?).
  rewrite Hcur. rewrite decide_False by (by intros ?).
  by rewrite Hleft.
Qed.

Lemma take_hand_succeeds p q s :
  inv s → inv_play s → may_take p q s →
  ∃ msg s', take_hand_from_left p s = Ok (true, msg, Some q) s'.
Proof.
  intros Hinv Hplay (Hne & Hp & Hcur & Hst & Hfin & Hr & Hleft & Hq & Hcards).
  destruct (take_hand_run p s Hinv)
    as [[m Hrun]|(lp & idx & f & k & a & _ & _ & _ & _ & _ & _ & _ & Hleft' & _ & Hrun & _)].
  - by destruct (take_hand_not_refused p q m None s s).
  - rewrite Hleft in Hleft'. injection Hleft' as <-. by eexists _, _.
Qed.

(** X17.  On a session that satisfies the two invariants, the hint
    'can_take_from_left' of [get_state] agrees with the move: the view
    sent to a named player [p] offers the hand of [q] exactly when
    [take_hand_from_left] by [p] would succeed and take the hand
    of [q]. *)
Theorem offered_hand_is_the_hand_taken (s : GameSession) (p q : string)
    (st : State.t) :
  inv s →
  inv_play s →
  p ≠ EmptyString →
  get_state (Some p) s = Ok st s →
  State.can_take_from_left st = Some q
  ↔ ∃ msg s', take_hand_from_left p s = Ok (true, msg, Some q) s'.
Proof.
  intros Hinv Hplay Hne Hget.
  destruct (get_state_run (Some p) s) as (st' & Hget' & Hcan & _).
  rewrite Hget in Hget'. injection Hget' as <-.
  destruct (can_take_from_left_run (Some p) s) as (r & Hr & Hspec).
  rewrite Hcan in Hr. injection Hr as <-. rewrite Hspec. split.
  - intros (p0 & [= <-] & Hmay). by apply take_hand_succeeds.
  - intros (msg & s' & Htake). exists p. split; [done|].
    destruct (take_hand_run p s Hinv)
      as [[m Hrun]|(lp & idx & f & k & a & Hst & Hfin & Hpile & Hcur & Hp & Hlp & Hlpne
                    & Hleft & Hcards & Hrun & _)].
    { rewrite Hrun in Htake. discriminate Htake. }
    rewrite Hrun in Htake. injection Htake as _ <- _.
    unfold may_take. do 5 (split; [done|]).
    split.
    { destruct (round_in_progress s) eqn:Hr; [|done].
      by destruct (inv_in_round s Hplay Hr). }
    split; [done|]. split; [|done].
    intros ->.
    rewrite (take_hand_from_nameless p s) in Hrun by done. discriminate Hrun.
Qed.

(** ** What a view shows of the hands *)

Lemma same_view_length p q d d' :
  same_view p d d' →
  length (default [] (dict_get q d)) = length (default [] (dict_get q d')).
Proof.
  intros [Hmap _]. revert d' Hmap.
  induction d as [|[k h] d IH]; intros [|[k' h'] d'] Hmap; try done.
  csimpl in Hmap. injection Hmap as -> Hlen Hmap. csimpl.
  destruct (decide (k' = q)); [done|]. by apply IH.
Qed.

Lemma same_view_entries p d d' s s' :
  same_view p d d' →
  host_name s' = host_name s → active_players s' = active_players s →
  winners s' = winners s → kazhutha s' = kazhutha s →
  connected_players s' = connected_players s →
  player_entry s <$> d = player_entry s' <$> d'.
Proof.
  intros [Hmap _] Hh Ha Hw Hk Hc. revert d' Hmap.
  induction d as [|[k h] d IH]; intros [|[k' h'] d'] Hmap; try done.
  csimpl in Hmap. injection Hmap as -> Hlen Hmap. csimpl.
  f_equal; [|by apply IH].
  unfold player_entry. cbn [fst snd]. by rewrite Hlen, Hh, Ha, Hw, Hk, Hc.
Qed.

Lemma get_player_on_left_same_seats p s s' :
  active_players s' = active_players s →
  ∀ r, get_player_on_left p s = Ok r s ↔ get_player_on_left p s' = Ok r s'.
Proof.
  intros Ha r. destruct (decide (p ∈ active_players s)) as [Hp|Hp].
  - destruct (get_player_on_left_run p s Hp) as (j & lp & Hj & Hlp & ->).
    rewrite <- Ha in Hp.
    destruct (get_player_on_left_run p s' Hp) as (j' & lp' & Hj' & Hlp' & ->).
    rewrite Ha in Hj', Hlp'.
    assert (j' = j) as -> by congruence. assert (lp' = lp) as -> by congruence.
    split; by intros [= <-].
  - unfold get_player_on_left. munfold. rewrite Ha.
    rewrite !decide_True by done. split; by intros [= <-].
Qed.

Lemma may_take_same_view p q d' s :
  same_view (Some p) (players s) d' →
  may_take p q s ↔ may_take p q (set_players d' s).
Proof.
  intros Hview. unfold may_take.
  rewrite <- (current_player_same_seats p s (set_players d' s)) by reflexivity.
  rewrite <- (get_player_on_left_same_seats p s (set_players d' s)) by reflexivity.
  assert (Hc : cards_of q s ≠ [] ↔ cards_of q (set_players d' s) ≠ []).
  { pose proof (same_view_length (Some p) q _ _ Hview) as Hlen.
    unfold cards_of. fsimpl.
    destruct (default [] (dict_get q (players s))),
             (default [] (dict_get q d')); done. }
  rewrite <- Hc. fsimpl. done.
Qed.

(** X18.  The view [get_state] builds for a player depends on the hands
    of the others through their sizes only: on two sessions that differ
    in [players] alone, where [players] has the same names in the same
    order with hands of the same sizes and the same hand for the named
    player, [get_state] returns the same view. *)
Theorem get_state_hides_other_hands (s : GameSession) (player_name : option string)
    (d' : list (string * list Card)) (st : State.t) :
  same_view player_name (players s) d' →
  get_state player_name s = Ok st s →
  get_state player_name (set_players d' s) = Ok st (set_players d' s).
Proof.
  intros Hview Hget.
  assert (Hcan : ∀ r, can_take_from_left player_name s = Ok r s →
                      can_take_from_left player_name (set_players d' s)
                      = Ok r (set_players d' s)).
  { intros r Hr.
    destruct (can_take_from_left_run player_name s) as (r1 & Hr1 & Hspec1).
    destruct (can_take_from_left_run player_name (set_players d' s))
      as (r2 & Hr2 & Hspec2).
    rewrite Hr in Hr1. injection Hr1 as <-. rewrite Hr2. f_equal.
    destruct r2 as [q|].
    - destruct (proj1 (Hspec2 q) eq_refl) as (p & -> & Hmay).
      symmetry. apply Hspec1. exists p. split; [done|].
      by apply (may_take_same_view p q d' s).
    - destruct r as [q|]; [|done].
      destruct (proj1 (Hspec1 q) eq_refl) as (p & -> & Hmay).
      apply Hspec2. exists p. split; [done|].
      by apply (may_take_same_view p q d' s). }
  unfold get_state in *. munfold. munfold_in Hget.
  destruct (can_take_from_left player_name s) as [r s1|e s1] eqn:Hr; [|done].
  destruct (can_take_from_left_run player_name s) as (r1 & Hr1 & _).
  rewrite Hr in Hr1. injection Hr1 as <- ->.
  rewrite (Hcan r eq_refl). fsimpl.
  assert (Hentries : player_entry s <$> players s
                     = player_entry (set_players d' s) <$> d').
  { by apply (same_view_entries player_name). }
  assert (Hhand : hand_shown player_name s = hand_shown player_name (set_players d' s)).
  { destruct Hview as [_ Hown]. unfold hand_shown. fsimpl.
    destruct player_name as [[|ch p']|]; [done| |done]. by rewrite (Hown _ eq_refl). }
  destruct (decide (active_players s = [])) as [Hnil|Hact].
  - injection Hget as <-. f_equal. by rewrite Hentries, Hhand.
  - destruct (current_player_active s Hact) as (cp & Hcp & _).
    rewrite Hcp in Hget.
    rewrite (current_player_ext cp s (set_players d' s) eq_refl eq_refl eq_refl Hcp).
    injection Hget as <-. f_equal. by rewrite Hentries, Hhand.
Qed.

(** ** Dealing *)

Lemma even_share_succ n j m :
  j < n → even_share n j (S m) = even_share n j m + (if decide (m mod n = j) then 1 else 0).
Proof.
  intros Hj. unfold even_share.
  assert (Hn : n ≠ 0) by lia.
  pose proof (Nat.div_mod_eq m n) as Hm.
  pose proof (Nat.mod_upper_bound m n Hn) as Hr.
  destruct (decide (m mod n + 1 = n)) as [Hlast|Hmid].
  - assert (Hq : S m = n * (m / n + 1) + 0) by nia.
    assert (Hdiv : S m / n = m / n + 1).
    { symmetry. apply (Nat.div_unique _ _ _ 0); [lia|done]. }
    assert (Hmod : S m mod n = 0).
    { symmetry. apply (Nat.mod_unique _ _ (m / n + 1)); [lia|done]. }
    rewrite Hdiv, Hmod.
    repeat destruct (decide _); lia.
  - assert (Hq : S m = n * (m / n) + (m mod n + 1)) by lia.
    assert (Hdiv : S m / n = m / n).
    { symmetry. apply (Nat.div_unique _ _ _ (m mod n + 1)); [lia|done]. }
    assert (Hmod : S m mod n = m mod n + 1).
    { symmetry. apply (Nat.mod_unique _ _ (m / n)); [lia|done]. }
    rewrite Hdiv, Hmod.
    repeat destruct (decide _); lia.
Qed.

Lemma dealt_count_share n j i m :
  j < n → even_share n j i + dealt_count n j i m = even_share n j (i + m).
Proof.
  intros Hj. revert i. induction m as [|m IH]; intros i; simpl.
  - by rewrite !Nat.add_0_r.
  - replace (i + S m) with (S i + m) by lia.
    rewrite <- (IH (S i)), even_share_succ by done. lia.
Qed.

Lemma dealt_count_from_first_seat n j m :
  j < n → dealt_count n j 0 m = even_share n j m.
Proof.
  intros Hj. pose proof (dealt_count_share n j 0 m Hj) as H. simpl in H.
  rewrite <- H. unfold even_share. rewrite Nat.Div0.div_0_l, Nat.Div0.mod_0_l.
  destruct (decide (j < 0)); lia.
Qed.

(** The dealing loop gives the seat [j] of [names] the cards whose place
    in the deck, counted from [i], is [j] modulo the number of seats. *)
Lemma deal_sizes names deck i s :
  NoDup names → names ≠ [] →
  (∀ q, q ∈ names → q ∈ dict_keys (players s)) →
  ∃ d, deal names deck i s = Ok tt (set_players d s)
       ∧ ∀ j q, names !! j = Some q →
                length (default [] (dict_get q d))
                = length (cards_of q s) + dealt_count (length names) j i (length deck).
Proof.
  intros Hnd Hne. revert i s. induction deck as [|card deck IH]; intros i s Hnames; simpl.
  - exists (players s). rewrite set_players_same. split; [done|].
    intros j q _. unfold cards_of. lia.
  - munfold.
    destruct (names !! (i mod length names)) as [name|] eqn:Hname.
    2:{ apply lookup_ge_None in Hname.
        assert (length names ≠ 0) by by destruct names.
        pose proof (Nat.mod_upper_bound i (length names)). lia. }
    rewrite (item_at_Some _ _ _ _ Hname).
    assert (Hk : name ∈ dict_keys (players s))
      by (apply Hnames; by eapply list_elem_of_lookup_2).
    destruct (dict_keys_get _ _ Hk) as [h Hh].
    rewrite (hand_of_Some _ _ _ Hh).
    destruct (IH (S i) (set_players (dict_set name (h ++ [card]) (players s)) s))
      as (d & -> & Hsizes).
    { intros q Hq. fsimpl. rewrite dict_keys_set by done. by apply Hnames. }
    fsimpl. exists d. split; [done|].
    intros j q Hq. rewrite (Hsizes j q Hq). unfold cards_of. fsimpl.
    rewrite dict_get_set. destruct (decide (i mod length names = j)) as [Hj|Hj].
    + subst j. assert (q = name) as -> by congruence.
      rewrite decide_True by done. rewrite Hh. simpl.
      rewrite length_app. simpl. lia.
    + rewrite decide_False; [lia|]. intros <-. apply Hj.
      by eapply NoDup_lookup.
Qed.

(** ** The order of a hand *)

Lemma compare_suit_names s1 s2 :
  String.compare (Suit_value s1) (Suit_value s2)
  = (suit_place s1 ?= suit_place s2)%Z.
Proof. by destruct s1, s2. Qed.

Lemma value_bounds c : (2 ≤ value c ≤ 14)%Z.
Proof. unfold value. destruct (rank c); lia. Qed.

Lemma suit_place_bounds s : (0 ≤ suit_place s ≤ 3)%Z.
Proof. destruct s; simpl; lia. Qed.

Lemma key_lt_place c d :
  key_lt (sort_key c) (sort_key d) = (card_place c <? card_place d)%Z.
Proof.
  unfold key_lt, sort_key, card_place. cbn [fst snd].
  rewrite compare_suit_names.
  pose proof (value_bounds c). pose proof (value_bounds d).
  destruct (Z.compare_spec (suit_place (suit c)) (suit_place (suit d))) as [Heq|Hlt|Hgt].
  - rewrite Heq. destruct (Z.ltb_spec (- value c) (- value d));
      destruct (Z.ltb_spec (suit_place (suit d) * 100 - value c)
                  (suit_place (suit d) * 100 - value d)); lia.
  - symmetry. apply Z.ltb_lt. lia.
  - symmetry. apply Z.ltb_ge. lia.
Qed.

Lemma key_le_place c d : key_le c d ↔ (card_place c ≤ card_place d)%Z.
Proof. unfold key_le. rewrite key_lt_place. apply Z.ltb_ge. Qed.

Lemma sort_insert_sorted c l : hand_sorted l → hand_sorted (sort_insert c l).
Proof.
  induction l as [|d l IH]; simpl; [done|]. intros [Hd Hl].
  rewrite key_lt_place. destruct (Z.ltb_spec (card_place d) (card_place c)) as [Hlt|Hge].
  - simpl. split; [|by apply IH].
    rewrite (sort_insert_perm c l). apply Forall_cons. split; [|done].
    apply key_le_place. lia.
  - simpl. split; [|done]. apply Forall_cons. split; [by apply key_le_place|].
    eapply Forall_impl; [exact Hd|]. intros x Hx. apply key_le_place.
    apply key_le_place in Hx. lia.
Qed.

Lemma sort_hand_sorted l : hand_sorted (sort_hand l).
Proof.
  unfold sort_hand. induction l as [|c l IH]; simpl; [done|].
  by apply sort_insert_sorted.
Qed.

Lemma py_remove_sorted (c : Card) l l' :
  hand_sorted l → py_remove c l = Some l' → hand_sorted l'.
Proof.
  revert l'. induction l as [|d l IH]; intros l'; simpl; [done|]. intros [Hd Hl].
  destruct (decide (d = c)) as [->|Hne]; [by intros [= <-]|].
  destruct (py_remove c l) as [l2|] eqn:Hr; simpl; [|done]. intros [= <-].
  simpl. split; [|by apply IH].
  apply Forall_forall. intros x Hx. rewrite Forall_forall in Hd. apply Hd.
  by eapply py_remove_elem_of.
Qed.

(** A hand in order is the hand [sort_hand] gives. *)
Lemma sort_hand_id l : hand_sorted l → sort_hand l = l.
Proof.
  unfold sort_hand. induction l as [|c l IH]; simpl; [done|].
  intros [Hc Hl]. rewrite IH by done.
  destruct l as [|d l]; simpl; [done|].
  rewrite key_lt_place. apply Forall_cons in Hc as [Hcd _].
  apply key_le_place in Hcd.
  destruct (Z.ltb_spec (card_place d) (card_place c)); [lia|done].
Qed.

Lemma sort_hands_hands names s :
  (∀ q, q ∈ names → q ∈ dict_keys (players s)) →
  ∃ d, sort_hands names s = Ok tt (set_players d s)
       ∧ ∀ q, dict_get q d
              = if decide (q ∈ names) then sort_hand <$> dict_get q (players s)
                else dict_get q (players s).
Proof.
  revert s. induction names as [|name names IH]; intros s Hnames; cbn [sort_hands].
  - exists (players s). rewrite set_players_same. split; [done|].
    intros q. rewrite decide_False; [done|apply not_elem_of_nil].
  - munfold.
    assert (Hk : name ∈ dict_keys (players s)) by (apply Hnames; left).
    destruct (dict_keys_get _ _ Hk) as [h Hh].
    rewrite (hand_of_Some _ _ _ Hh).
    destruct (IH (set_players (dict_set name (sort_hand h) (players s)) s))
      as (d & -> & Hd).
    { intros q Hq. fsimpl. rewrite dict_keys_set by done. apply Hnames. by right. }
    fsimpl. exists d. split; [done|].
    intros q. rewrite (Hd q). fsimpl. rewrite dict_get_set.
    destruct (decide (name = q)) as [->|Hne].
    + rewrite (decide_True (P := q ∈ q :: names)) by left. rewrite Hh. simpl.
      destruct (decide (q ∈ names)); [|done]. simpl.
      by rewrite (sort_hand_id _ (sort_hand_sorted h)).
    + destruct (decide (q ∈ names)) as [Hin|Hin].
      * by rewrite decide_True by (by right).
      * rewrite decide_False; [done|]. by intros [?|?]%elem_of_cons.
Qed.

(** The hands [start_game] leaves: in order, and as many cards for the
    seat [j] as it held plus its share of the deck. *)
Lemma start_game_with_hands deck s :
  inv s →
  2 ≤ length (players s) →
  (∀ q h, dict_get q (players (final (start_game_with deck s))) = Some h → hand_sorted h)
  ∧ ∀ j q, player_order s !! j = Some q →
           length (cards_of q (final (start_game_with deck s)))
           = length (cards_of q s)
             + dealt_count (length (players s)) j 0 (length deck).
Proof.
  intros Hinv Hlen.
  pose proof (inv_keys s Hinv) as Hnd. pose proof (inv_order s Hinv) as Hord.
  assert (Hne : dict_keys (players s) ≠ []).
  { unfold dict_keys. intros Hnil. apply (f_equal length) in Hnil.
    rewrite length_fmap in Hnil. simpl in Hnil. lia. }
  destruct (deal_run (dict_keys (players s)) deck 0 s) as (d1 & Hdeal & Hk1 & _);
    [done|done|].
  destruct (deal_sizes (dict_keys (players s)) deck 0 s Hnd Hne) as (d1' & Hdeal' & Hsizes);
    [done|].
  rewrite Hdeal in Hdeal'. injection Hdeal' as <-.
  destruct (sort_hands_hands (dict_keys d1) (set_players d1 s)) as (d2 & Hsort & Hd2);
    [done|].
  assert (Hpl : players (final (start_game_with deck s)) = d2).
  { unfold start_game_with. munfold.
    destruct (Nat.ltb_spec (length (players s)) 2) as [|_]; [lia|].
    rewrite Hdeal. fsimpl. rewrite Hsort. fsimpl.
    lazymatch goal with
    | |- context [find_ace_holder ?o ?i ?S] =>
        destruct (find_ace_holder_run o i S)
          as [(j & q & h & Hj & Hq & Ha & ->)|[Hnone ->]]
    end.
    - intros q Hq. fsimpl.
      destruct (sort_hands_run (dict_keys d1) (set_players d1 s)) as (d2' & Hs' & Hk2 & _);
        [done|].
      rewrite Hsort in Hs'. injection Hs' as <-.
      change (players (set_players d1 s)) with d1 in Hk2.
      by rewrite Hk2, Hk1, <- Hord.
    - by fsimpl.
    - by fsimpl. }
  unfold cards_of. rewrite Hpl.
  change (players (set_players d1 s)) with d1 in Hd2. split.
  - intros q h Hq. rewrite (Hd2 q) in Hq.
    destruct (decide (q ∈ dict_keys d1)) as [Hin|Hin].
    + destruct (dict_get q d1) as [h1|]; [|done]. injection Hq as <-.
      apply sort_hand_sorted.
    + apply dict_get_keys in Hq. done.
  - intros j q Hq. rewrite Hord in Hq. rewrite (Hd2 q).
    assert (Hin : q ∈ dict_keys d1).
    { rewrite Hk1. by eapply list_elem_of_lookup_2. }
    rewrite decide_True by done.
    specialize (Hsizes j q Hq). unfold cards_of in Hsizes.
    destruct (dict_keys_get q d1 Hin) as (h1 & Hh1). rewrite Hh1 in Hsizes |- *.
    simpl in *. rewrite sort_hand_length, Hsizes.
    unfold dict_keys. by rewrite length_fmap.
Qed.

(** ** Hands stay in order *)

Lemma hands_sorted_same s s' : players s' = players s → hands_sorted s → hands_sorted s'.
Proof. unfold hands_sorted. by intros ->. Qed.

Lemma hands_sorted_set p h s s' :
  players s' = dict_set p h (players s) → hand_sorted h →
  hands_sorted s → hands_sorted s'.
Proof.
  unfold hands_sorted. intros -> Hh Hs q hq. rewrite dict_get_set.
  destruct (decide (p = q)); [by intros [= <-]|apply Hs].
Qed.

Lemma new_session_sorted game_id host_name : hands_sorted (new_session game_id host_name).
Proof.
  intros q h. cbn. destruct (decide (host_name = q)); [|done]. by intros [= <-].
Qed.

Lemma add_player_sorted p s : hands_sorted s → hands_sorted (final (add_player p s)).
Proof.
  intros Hs. unfold add_player. munfold.
  destruct (bool_decide (p ∈ dict_keys (players s)) || game_started s); [done|].
  destruct (8 <=? length (players s)); [done|]. cbn [final].
  by apply (hands_sorted_set p [] s).
Qed.

Lemma remove_player_sorted p s :
  inv s → hands_sorted s → hands_sorted (final (remove_player p s)).
Proof.
  intros Hinv Hs. destruct (game_started s) eqn:Hst.
  { destruct (remove_player_same p s Hinv Hst) as (Hpl & _).
    by apply (hands_sorted_same s). }
  unfold remove_player. munfold.
  destruct (decide (p ∉ dict_keys (players s))); [done|].
  rewrite Hst. cbn [negb]. fsimpl.
  assert (Hdel : ∀ s', players s' = dict_del p (players s) → hands_sorted s').
  { intros s' Hpl q h. rewrite Hpl. intros Hq. apply (Hs q h).
    apply elem_of_dict_get; [apply (inv_keys s Hinv)|].
    eapply elem_of_dict_del. by apply dict_get_elem_of. }
  destruct (py_remove p (player_order s)); cbn [final]; by apply Hdel.
Qed.

Lemma player_reconnected_sorted p s :
  inv s → hands_sorted s → hands_sorted (final (player_reconnected p s)).
Proof.
  intros Hinv. destruct (player_reconnected_same p s Hinv) as (Hpl & _).
  by apply hands_sorted_same.
Qed.

Lemma reset_game_sorted s : hands_sorted s → hands_sorted (final (reset_game s)).
Proof.
  intros Hs. unfold reset_game. munfold.
  destruct (clear_hands_run (dict_keys (players s)) s) as (d & -> & _ & Hd); [done|].
  cbn [final]. intros q h. fsimpl. intros Hq.
  destruct (Hd q h Hq) as [[_ ->]|[_ Hget]]; [done|by apply (Hs q)].
Qed.

Lemma start_game_with_sorted deck s :
  inv s → hands_sorted s → hands_sorted (final (start_game_with deck s)).
Proof.
  intros Hinv Hs. destruct (Nat.lt_ge_cases (length (players s)) 2) as [Hlt|Hge].
  { unfold start_game_with. munfold.
    destruct (Nat.ltb_spec (length (players s)) 2); [done|lia]. }
  by destruct (start_game_with_hands deck s Hinv Hge) as [Hsorted _].
Qed.

Lemma take_hand_sorted p s :
  inv s → hands_sorted s → hands_sorted (final (take_hand_from_left p s)).
Proof.
  intros Hinv Hs.
  destruct (take_hand_run p s Hinv)
    as [[m ->]|(lp & idx & f & k & a & _ & _ & _ & _ & _ & _ & _ & _ & _ & -> & _)];
    cbn [final]; [done|].
  assert (Hpl : players (hand_taken p lp s)
                = dict_set p (sort_hand (cards_of p s ++ cards_of lp s))
                    (dict_set lp [] (dict_set p (cards_of p s ++ cards_of lp s)
                                       (players s)))).
  { unfold hand_taken. by fsimpl. }
  remember (hand_taken p lp s) as s1 eqn:Hs1. clear Hs1.
  intros q h. fsimpl. rewrite Hpl, !dict_get_set.
  destruct (decide (p = q)); [intros [= <-]; apply sort_hand_sorted|].
  destruct (decide (lp = q)); [by intros [= <-]|]. apply Hs.
Qed.

Lemma card_played_sorted p c s :
  hands_sorted s → hands_sorted (card_played p c s).
Proof.
  intros Hs.
  apply (hands_sorted_set p (default [] (py_remove c (cards_of p s))) s);
    [unfold card_played; by fsimpl| |done].
  unfold cards_of. destruct (dict_get p (players s)) as [h|] eqn:Hh; simpl; [|done].
  destruct (py_remove c h) as [h'|] eqn:Hr; simpl; [|done].
  eapply py_remove_sorted; [|done]. by apply (Hs p).
Qed.

Lemma resolved_sorted sb w idx f k a s :
  hands_sorted s → hands_sorted (resolved sb w idx f k a s).
Proof.
  intros Hs.
  destruct (resolved_fields sb w idx f k a s) as (_ & _ & _ & _ & Hpl & _).
  destruct (settle_pile_fields sb w s) as (_ & _ & Hpl2 & _).
  rewrite Hpl2 in Hpl. destruct sb.
  - by apply (hands_sorted_set w _ s _ Hpl); [apply sort_hand_sorted|].
  - by apply (hands_sorted_same s).
Qed.

Lemma play_card_sorted p cd s :
  inv s → hands_sorted s → hands_sorted (final (play_card p cd s)).
Proof.
  intros Hinv Hs.
  destruct (play_card_outcomes p cd s Hinv)
    as [[-> _]|[(c & cs & _ & _ & _ & ->)|(c & h & s' & _ & _ & _ & _ & _ & _ & -> & Hs')]];
    cbn [final].
  - done.
  - by destruct (game_first_card_played s).
  - assert (Hplayed : hands_sorted (card_played p c (round_opened c s))).
    { apply card_played_sorted.
      destruct (round_opened_fields c s) as (Hpl & _).
      by apply (hands_sorted_same s). }
    destruct Hs' as [(sb & w & idx & f & k & a & _ & ->)|(i & ->)].
    + by apply resolved_sorted.
    + by apply (hands_sorted_same (card_played p c (round_opened c s))).
Qed.

(** ** Starting again *)

(** [reset_game] on a session that satisfies the invariant. *)
Lemma reset_game_run s :
  inv s →
  ∃ s1, reset_game s = Ok tt s1
        ∧ inv s1
        ∧ game_started s1 = false ∧ finished s1 = false
        ∧ player_order s1 = player_order s
        ∧ dict_keys (players s1) = dict_keys (players s)
        ∧ winners s1 = [] ∧ kazhutha s1 = None
        ∧ game_first_card_played s1 = false
        ∧ host_name s1 = host_name s
        ∧ connected_players s1 = connected_players s.
Proof.
  intros Hinv. pose proof (reset_game_inv s Hinv) as Hinv1. revert Hinv1.
  unfold reset_game. munfold.
  destruct (clear_hands_run (dict_keys (players s)) s) as (d & -> & Hk & _); [done|].
  cbn [final]. intros Hinv1. eexists. split; [done|]. split; [exact Hinv1|].
  fsimpl. done.
Qed.

Section Deals.
Context {Rng : Type} (shuffle : Rng → list Card → list Card * Rng).
Hypothesis shuffle_perm : ∀ g deck, (shuffle g deck).1 ≡ₚ deck.

Lemma start_game_run g s :
inv s →
2 ≤ length (players s) →
∃ s', start_game Rng shuffle g s = Ok tt s'
      ∧ cards_in_hands s' ≡ₚ cards_in_hands s ++ ordered_deck
      ∧ current_pile s' = current_pile s
      ∧ discarded_cards s' = discarded_cards s
      ∧ winners s' = winners s
      ∧ finished s' = finished s
      ∧ kazhutha s' = kazhutha s
      ∧ player_order s' = player_order s
      ∧ active_players s' = player_order s
      ∧ game_started s' = true
      ∧ game_first_card_played s' = false.
Proof using shuffle_perm.
intros Hinv Hlen.
destruct (start_game_with_run (_create_deck Rng shuffle g) s Hinv Hlen)
  as (d & idx & Hrun & _ & Hcards & _).
eexists. split; [exact Hrun|].
unfold cards_in_hands. fsimpl. split; [|done].
by rewrite Hcards, (create_deck_perm shuffle shuffle_perm g).
Qed.

(** X19.  [start_game] does not clear the table: on a session that
  satisfies the invariant and has at least two members, started or
  not, it returns, every member is active again, and the hands hold
  what they held and a whole deck besides; the pile, the discard pile,
  [winners], [finished] and [kazhutha] are as before. *)
Theorem start_game_deals_on_top (g : Rng) (s : GameSession) :
inv s →
2 ≤ length (players s) →
∃ s', start_game Rng shuffle g s = Ok tt s'
      ∧ cards_in_hands s' ≡ₚ cards_in_hands s ++ ordered_deck
      ∧ current_pile s' = current_pile s
      ∧ discarded_cards s' = discarded_cards s
      ∧ winners s' = winners s
      ∧ finished s' = finished s
      ∧ kazhutha s' = kazhutha s
      ∧ active_players s' = player_order s.
Proof using shuffle_perm.
intros Hinv Hlen.
destruct (start_game_run g s Hinv Hlen)
  as (s' & Hrun & Hcards & Hpile & Hdis & Hwin & Hfin & Hk & _ & Hact & _).
by exists s'.
Qed.

(** X20.  Playing again: on a session that satisfies the invariant and
  has at least two members, whatever its state, [reset_game] followed
  by [start_game] returns and leaves a game in progress with the same
  members in the same seats, no winner, no kazhutha, no card played,
  and exactly one deck, all of it in the hands. *)
Theorem play_again_deals_a_fresh_deck (g : Rng) (s : GameSession) :
inv s →
2 ≤ length (players s) →
∃ s1 s2,
  reset_game s = Ok tt s1
  ∧ start_game Rng shuffle g s1 = Ok tt s2
  ∧ cards_in_hands s2 ≡ₚ ordered_deck
  ∧ conserved s2
  ∧ player_order s2 = player_order s
  ∧ active_players s2 = player_order s
  ∧ game_started s2 = true ∧ finished s2 = false
  ∧ winners s2 = [] ∧ kazhutha s2 = None
  ∧ game_first_card_played s2 = false.
Proof using shuffle_perm.
intros Hinv Hlen.
destruct (reset_game_run s Hinv)
  as (s1 & Hreset & Hinv1 & Hst1 & Hfin1 & Hpo1 & Hk1 & Hwin1 & Hkaz1 & _).
assert (Hlen1 : 2 ≤ length (players s1)).
{ apply (f_equal length) in Hk1. unfold dict_keys in Hk1.
  rewrite !length_fmap in Hk1. lia. }
destruct (start_game_run g s1 Hinv1 Hlen1)
  as (s2 & Hrun & Hcards & Hpile & Hdis & Hwin & Hfin & Hkaz & Hpo & Hact & Hst & Hfirst).
pose proof (lobby_no_cards s1 Hinv1 Hst1) as Hnone.
unfold cards_in_game in Hnone.
apply app_eq_nil in Hnone as [Hhands [Hdis1 Hpile1]%app_eq_nil].
rewrite Hhands in Hcards. simpl in Hcards.
exists s1, s2. do 3 (split; [done|]). split.
{ unfold conserved, cards_in_game. rewrite Hdis, Hdis1, Hpile.
  destruct (current_pile s1); [|done]. simpl. by rewrite app_nil_r. }
by rewrite Hpo, Hact, Hwin, Hfin, Hkaz, Hpo1, Hwin1, Hfin1, Hkaz1.
Qed.

(** X21.  [start_game] deals as evenly as the deck allows: started from
  the lobby of a session that satisfies the invariant with [n] members,
  two at least, it leaves the member in seat [j] of [player_order] with
  [52 / n] cards, and one more for each of the first [52 mod n]
  seats. *)
Theorem start_game_deals_evenly (g : Rng) (s s' : GameSession) (j : nat) (q : string) :
inv s →
game_started s = false →
2 ≤ length (players s) →
start_game Rng shuffle g s = Ok tt s' →
player_order s !! j = Some q →
length (cards_of q s')
= 52 / length (players s) + (if decide (j < 52 mod length (players s)) then 1 else 0).
Proof using shuffle_perm.
intros Hinv Hst Hlen Hrun Hq.
destruct (start_game_with_hands (_create_deck Rng shuffle g) s Hinv Hlen) as [_ Hsizes].
specialize (Hsizes j q Hq). unfold start_game in Hrun. rewrite Hrun in Hsizes.
cbn [final] in Hsizes. rewrite Hsizes.
rewrite (Permutation_length (create_deck_perm shuffle shuffle_perm g)).
rewrite ordered_deck_length.
assert (Hj : j < length (players s)).
{ apply lookup_lt_Some in Hq. rewrite (inv_order s Hinv) in Hq.
  unfold dict_keys in Hq. by rewrite length_fmap in Hq. }
rewrite dealt_count_from_first_seat by done. unfold even_share.
assert (Hempty : cards_of q s = []).
{ destruct (inv_lobby s Hinv Hst) as (Hact & _).
  unfold cards_of. destruct (dict_get q (players s)) as [h|] eqn:Hh; [|done].
  simpl. apply (inv_benched s Hinv q h Hh). rewrite Hact. apply not_elem_of_nil. }
by rewrite Hempty.
Qed.

(** X22.  In every session the methods can produce every hand is in the
  order of [sort_hand]: the suits in the order of their names and,
  within a suit, the higher card first; sorting such a hand again
  changes nothing. *)
Theorem hands_are_always_in_order (s : GameSession) (p : string) (h : list Card) :
reachable Rng shuffle s →
dict_get p (players s) = Some h →
hand_sorted h ∧ sort_hand h = h.
Proof.
intros Hs Hh.
assert (Hsorted : hands_sorted s).
{ clear p h Hh. induction Hs as [gid host|c s Hs IH]; [apply new_session_sorted|].
  pose proof (reachable_inv shuffle s Hs) as Hinv.
  destruct c; cbn [after_call].
  - by apply add_player_sorted.
  - by apply remove_player_sorted.
  - by apply player_reconnected_sorted.
  - by apply reset_game_sorted.
  - by apply start_game_with_sorted.
  - by apply take_hand_sorted.
  - by apply play_card_sorted. }
split; [by apply (Hsorted p)|]. apply sort_hand_id. by apply (Hsorted p).
Qed.

End Deals.

(** ** The turn after a card *)

Lemma remove_dups_all_same (p : string) l :
  l ≠ [] → (∀ x, x ∈ l → x = p) → remove_dups l = [p].
Proof.
  induction l as [|x l IH]; [done|]. intros _ Hall.
  assert (x = p) as -> by (apply Hall; left).
  destruct l as [|y l]; [done|].
  assert (Hrec : remove_dups (y :: l) = [p]).
  { apply IH; [done|]. intros z Hz. apply Hall. by right. }
  assert (y = p) as -> by (apply Hall; right; left).
  cbn [remove_dups] in *. destruct (decide_rel elem_of p (p :: l)) as [|Hno];
    [exact Hrec|]. destruct Hno. left.
Qed.

Lemma Ok_final {A} (r : Res A) a s : r = Ok a s → final r = s.
Proof. by intros ->. Qed.

(** An accepted card either resolves the round or passes the turn to the
    next seat of [active_players]. *)
Lemma play_accepted_turn p c h s :
  inv s → p ∈ active_players s → dict_get p (players s) = Some h → c ∈ h →
  (current_pile s = [] →
   original_suit s = Some (suit c) ∧ current_suit s = Some (suit c)
   ∧ round_in_progress s = true) →
  (∃ sb w idx f k a,
     play_accepted p c s = Ok (true, None) (resolved sb w idx f k a (card_played p c s)))
  ∨ (∃ i, play_accepted p c s
          = Ok (true, None) (set_current_player_idx i (card_played p c s))
          ∧ 2 ≤ length (active_players s)
          ∧ ∀ q j, current_player s = Ok q s →
                   py_index q (active_players s) = Some j →
                   i = (j + 1) mod length (active_players s)).
Proof.
  intros Hinv Hp Hh Hc Hopen.
  destruct (play_accepted_run p c h s Hinv Hp Hh Hc Hopen)
    as [(sb & w & idx & f & k & a & _ & Hrun)|(i & Hrun)].
  { left. by exists sb, w, idx, f, k, a. }
  right.
  destruct (py_remove_elem c h Hc) as [h' Hr].
  assert (Hpile2 : current_pile (card_played p c s) ≠ []).
  { rewrite (card_played_eq p c h h' s Hh Hr). fsimpl. by destruct (current_pile s). }
  assert (Hnot : ∀ sb w idx f k a,
    play_accepted p c s ≠ Ok (true, None) (resolved sb w idx f k a (card_played p c s))).
  { intros sb w idx f k a Hrun'.
    apply Ok_final in Hrun, Hrun'. rewrite Hrun in Hrun'.
    destruct (resolved_fields sb w idx f k a (card_played p c s))
      as (_ & _ & _ & _ & _ & _ & Hnil & _).
    rewrite <- Hrun' in Hnil. clear Hrun Hrun'.
    remember (card_played p c s) as s1 eqn:Hs1. clear Hs1. by fsimpl. }
  destruct (decide (Some (suit c) = original_suit s)) as [Hsame|Hbreak].
  2:{ destruct (play_accepted_breaks p c h s Hinv Hp Hh Hc Hopen Hbreak)
        as (w & cw & idx & f & k & a & _ & Hrun' & _).
      by destruct (Hnot true w idx f k a). }
  destruct (decide (length (remove_dups (current_pile s ++ [(p, c)]).*1)
                    = length (active_players s))) as [Hall|Hsome].
  { exfalso.
    pose proof (card_played_eq p c h h' s Hh Hr) as Hs2.
    pose proof (card_played_inv p c h s Hinv Hp Hh Hopen) as Hinv2.
    destruct (resolve_round_inv_run false _ Hinv2 Hpile2)
      as (w & idx & f & k & a & _ & Hres).
    apply (Hnot false w idx f k a).
    unfold play_accepted. munfold. rewrite (hand_of_Some _ _ _ Hh), Hr. cbv beta.
    fsimpl. rewrite decide_False by (by intros ?). cbv beta. fsimpl.
    rewrite (proj2 (Nat.eqb_eq _ _) Hall). rewrite <- Hs2. by rewrite Hres. }
  destruct (play_accepted_passes p c h s Hh Hc Hsame Hsome) as (i' & Hrun' & Hi').
  assert (i' = i) as ->.
  { apply Ok_final in Hrun, Hrun'. rewrite Hrun in Hrun'. clear Hrun Hi'.
    apply (f_equal current_player_idx) in Hrun'.
    remember (card_played p c s) as s1 eqn:Hs1. clear Hs1. by fsimpl. }
  exists i. split; [done|]. split; [|done].
  destruct (active_players s) as [|x [|y l]] eqn:Hact; [by apply elem_of_nil in Hp| |simpl; lia].
  exfalso. apply Hsome. apply list_elem_of_singleton in Hp as <-.
  rewrite (remove_dups_all_same p); [done| |].
  - rewrite fmap_app. by destruct ((current_pile s).*1).
  - intros z Hz. rewrite fmap_app in Hz. apply elem_of_app in Hz as [Hz|Hz].
    + apply list_elem_of_fmap in Hz as ([z' cz] & -> & Hz).
      pose proof (inv_pile s Hinv z' cz Hz) as Hin. rewrite Hact in Hin.
      by apply list_elem_of_singleton in Hin.
    + simpl in Hz. by apply list_elem_of_singleton in Hz.
Qed.

(** X23.  On a session that satisfies the invariant, when [play_card]
    succeeds and the round goes on (the pile is not empty afterwards),
    the turn passes to the player [get_player_on_left] names for the
    one who played, and [active_players] is as before. *)
Theorem card_in_suit_passes_turn_left (s s' : GameSession) (p : string)
    (cd : list (string * string)) (r : option string) :
  inv s →
  play_card p cd s = Ok (true, r) s' →
  current_pile s' ≠ [] →
  ∃ q, get_player_on_left p s = Ok (Some q) s
       ∧ current_player s' = Ok q s'
       ∧ active_players s' = active_players s.
Proof.
  intros Hinv Hplay Hpile'.
  destruct (play_card_cases p cd s)
    as [[_ Hno]|(c & h & _ & _ & Hcur & Hp & _ & Hh & Hc & _ & Hsuit)];
    [by destruct (Hno r s')|].
  destruct Hsuit as [(cs & _ & _ & _ & Hrej)|[_ Hacc]].
  { rewrite Hrej in Hplay. discriminate Hplay. }
  rewrite Hacc in Hplay.
  destruct (round_opened_fields c s) as (Hpl & Hpo & Hact & Hpile & _ & _ & Hidx).
  pose proof (round_opened_inv c s Hinv) as Hinv1.
  pose proof (round_opened_suit c s) as Hopen. rewrite <- Hpile in Hopen.
  pose proof (current_player_ext p s (round_opened c s) Hact Hpo Hidx Hcur) as Hcur1.
  rewrite <- Hpl in Hh. rewrite <- Hact in Hp.
  remember (round_opened c s) as s1 eqn:Hs1. clear Hs1.
  destruct (play_accepted_turn p c h s1 Hinv1 Hp Hh Hc Hopen)
    as [(sb & w & idx & f & k & a & Hrun)|(i & Hrun & Hlen & Hi)].
  { rewrite Hrun in Hplay. apply Ok_final in Hplay. cbn [final] in Hplay.
    destruct (resolved_fields sb w idx f k a (card_played p c s1))
      as (_ & _ & _ & _ & _ & _ & Hnil & _).
    rewrite Hplay in Hnil. done. }
  rewrite Hrun in Hplay. apply Ok_final in Hplay. cbn [final] in Hplay. subst s'.
  assert (Hact' : active_players (set_current_player_idx i (card_played p c s1))
                  = active_players s1 ∧
                  current_player_idx (set_current_player_idx i (card_played p c s1)) = i).
  { unfold card_played. by fsimpl. }
  destruct Hact' as [Hact' Hidx'].
  rewrite Hact in Hp, Hlen, Hi, Hact'.
  destruct (left_of_seat p s (inv_active_nodup s Hinv) Hp)
    as (j & lp & Hj & Hlp & Hone & Hleft).
  destruct (py_index_elem p _ Hp) as (j' & Hj' & Hlook).
  assert (j' = j) as ->.
  { eapply NoDup_lookup; [apply (inv_active_nodup s Hinv)|done..]. }
  specialize (Hi p j Hcur1 Hj'). subst i.
  exists lp. split; [|split; [|done]].
  - rewrite Hleft. destruct (decide (lp = p)) as [Heq|]; [|done].
    apply Hone in Heq. rewrite Heq in Hlen. simpl in Hlen. lia.
  - apply current_player_at. by rewrite Hact', Hidx'.
Qed.

(** ** After the game *)

Lemma play_card_after_game p cd s :
  finished s = true →
  play_card p cd s = Ok (false, Some "Game not in progress") s.
Proof. intros Hfin. unfold play_card. munfold. by rewrite Hfin, orb_true_r. Qed.

Lemma take_hand_after_game p s :
  finished s = true →
  take_hand_from_left p s = Ok (false, "Game not in progress", None) s.
Proof. intros Hfin. unfold take_hand_from_left. munfold. by rewrite Hfin, orb_true_r. Qed.

(** What a move leaves of a finished game. *)
Lemma after_move_finished m s :
  inv s → game_started s = true → finished s = true →
  game_started (after_move m s) = true
  ∧ finished (after_move m s) = true
  ∧ players (after_move m s) = players s
  ∧ active_players (after_move m s) = active_players s
  ∧ winners (after_move m s) = winners s
  ∧ kazhutha (after_move m s) = kazhutha s
  ∧ current_pile (after_move m s) = current_pile s
  ∧ discarded_cards (after_move m s) = discarded_cards s.
Proof.
  intros Hinv Hst Hfin. destruct m as [p cd|p|p|p]; cbn [after_move].
  - by rewrite play_card_after_game.
  - by rewrite take_hand_after_game.
  - destruct (decide (p ∈ dict_keys (players s))) as [Hp|Hp].
    + assert (Hpo : player_order s ≠ []).
      { rewrite (inv_order s Hinv). intros Hnil. rewrite Hnil in Hp.
        by apply elem_of_nil in Hp. }
      destruct (remove_player_run p s Hst Hp Hpo) as (w & -> & _).
      cbn [final]. by fsimpl.
    + unfold remove_player. munfold. by rewrite decide_True by done.
  - destruct (player_reconnected_run p s Hinv) as (Hother & Hseat & Hgone).
    destruct (decide (waiting_for_player s = Some p)) as [Hw|Hw].
    + destruct (decide (p ∈ active_players s)) as [Hp|Hp].
      * destruct (py_index_elem p _ Hp) as (i & Hi & _).
        rewrite (Hseat i Hw Hi). cbn [final]. by fsimpl.
      * destruct (Hgone Hw Hp) as (msg & ->). cbn [final]. by fsimpl.
    + rewrite (Hother Hw). cbn [final]. by fsimpl.
Qed.

(** X24.  Once a started game is finished the result stands: on a
    session that satisfies the invariant, [play_card] and
    [take_hand_from_left] are turned down with "Game not in progress",
    and no sequence of the four moves changes the hands, the active
    players, [winners], [kazhutha], the pile or the discard pile, or
    clears [finished]. *)
Theorem finished_game_stands (s s' : GameSession) (p : string)
    (cd : list (string * string)) :
  inv s →
  game_started s = true →
  finished s = true →
  rtc move_step s s' →
  play_card p cd s' = Ok (false, Some "Game not in progress") s'
  ∧ take_hand_from_left p s' = Ok (false, "Game not in progress", None) s'
  ∧ finished s' = true
  ∧ players s' = players s
  ∧ active_players s' = active_players s
  ∧ winners s' = winners s
  ∧ kazhutha s' = kazhutha s
  ∧ current_pile s' = current_pile s
  ∧ discarded_cards s' = discarded_cards s.
Proof.
  intros Hinv Hst Hfin Hsteps.
  assert (Hkeep : finished s' = true
                  ∧ players s' = players s
                  ∧ active_players s' = active_players s
                  ∧ winners s' = winners s
                  ∧ kazhutha s' = kazhutha s
                  ∧ current_pile s' = current_pile s
                  ∧ discarded_cards s' = discarded_cards s).
  { induction Hsteps as [s|s s1 s2 [m ->] _ IH]; [done|].
    destruct (after_move_finished m s Hinv Hst Hfin)
      as (Hst1 & Hfin1 & Hpl & Hact & Hwin & Hk & Hpile & Hdis).
    destruct (IH (after_move_inv m s Hinv) Hst1 Hfin1) as (? & ? & ? & ? & ? & ? & ?).
    repeat split; congruence. }
  destruct Hkeep as (Hfin' & Hrest).
  split; [by apply play_card_after_game|].
  split; [by apply take_hand_after_game|]. done.
Qed.

(** ** The further properties on concrete sessions *)

Lemma opening_session_inv_play : inv_play opening_session.
Proof.
  apply start_game_with_inv_play; [apply two_player_lobby_inv|].
  apply add_player_inv_play; [apply new_session_inv|apply new_session_inv_play].
Qed.

Lemma awaited_gone_session_inv : inv awaited_gone_session.
Proof.
  apply take_hand_inv. do 4 apply play_card_inv.
  apply remove_player_inv, opening_session_inv.
Qed.

Lemma finished_session_inv : inv finished_session.
Proof. apply take_hand_inv, opening_session_inv. Qed.

Lemma plain_session_reachable : reachable unit no_shuffle plain_session.
Proof.
  assert (Hcalls : reachable unit no_shuffle
                     (after_call unit no_shuffle (Call_start_game unit tt)
                        (after_call unit no_shuffle (Call_add_player unit "B")
                           (new_session "GAME01" "A")))).
  { do 2 apply reachable_call. apply reachable_new. }
  assert (Heq : after_call unit no_shuffle (Call_start_game unit tt)
                  (after_call unit no_shuffle (Call_add_player unit "B")
                     (new_session "GAME01" "A"))
                = plain_session) by (vm_compute; reflexivity).
  by rewrite <- Heq.
Qed.


Lemma play_card_failure_keeps_session_witness :
  inv opening_session
  ∧ play_card "A" (to_dict (mkCard SPADES KING)) opening_session
    = Ok (false, Some "First card must be Ace of Spades")
        (final (play_card "A" (to_dict (mkCard SPADES KING)) opening_session))
  ∧ (final (play_card "A" (to_dict (mkCard SPADES KING)) opening_session)
     = opening_session
     ∨ (game_first_card_played opening_session = false
        ∧ current_pile opening_session ≠ []
        ∧ card_of_dict (to_dict (mkCard SPADES KING)) opening_session
          = Ok ace_of_spades opening_session
        ∧ final (play_card "A" (to_dict (mkCard SPADES KING)) opening_session)
          = set_game_first_card_played true opening_session)).
Proof.
  split; [exact opening_session_inv|].
  assert (Hrun : play_card "A" (to_dict (mkCard SPADES KING)) opening_session
                 = Ok (false, Some "First card must be Ace of Spades")
                     (final (play_card "A" (to_dict (mkCard SPADES KING))
                               opening_session))).
  { vm_compute. reflexivity. }
  split; [exact Hrun|].
  exact (play_card_failure_keeps_session _ _ _ _ _ opening_session_inv Hrun).
Defined.

Lemma take_hand_failure_keeps_session_witness :
  inv opening_session
  ∧ take_hand_from_left "B" opening_session
    = Ok (false, "You can only take hand on your turn", None)
        (final (take_hand_from_left "B" opening_session))
  ∧ final (take_hand_from_left "B" opening_session) = opening_session.
Proof.
  split; [exact opening_session_inv|].
  assert (Hrun : take_hand_from_left "B" opening_session
                 = Ok (false, "You can only take hand on your turn", None)
                     (final (take_hand_from_left "B" opening_session))).
  { vm_compute. reflexivity. }
  split; [exact Hrun|].
  by destruct (take_hand_failure_keeps_session _ _ _ _ _ opening_session_inv Hrun).
Defined.

Lemma left_neighbour_is_another_active_player_witness :
  NoDup (active_players opening_session)
  ∧ ∃ r, get_player_on_left "A" opening_session = Ok r opening_session
         ∧ r = Some "B".
Proof.
  assert (Hnd : NoDup (active_players opening_session))
    by apply (inv_active_nodup _ opening_session_inv).
  split; [exact Hnd|].
  destruct (left_neighbour_is_another_active_player opening_session "A" Hnd)
    as (r & Hrun & _).
  exists r. split; [exact Hrun|].
  vm_compute in Hrun. by injection Hrun as <-.
Defined.

Lemma advance_passes_turn_to_left_neighbour_witness :
  NoDup (active_players opening_session)
  ∧ 2 ≤ length (active_players opening_session)
  ∧ current_player opening_session = Ok "A" opening_session
  ∧ ∃ q i,
      get_player_on_left "A" opening_session = Ok (Some q) opening_session
      ∧ _advance_to_next_active_player opening_session
        = Ok tt (set_current_player_idx i opening_session)
      ∧ current_player (set_current_player_idx i opening_session)
        = Ok q (set_current_player_idx i opening_session).
Proof.
  assert (Hnd : NoDup (active_players opening_session))
    by apply (inv_active_nodup _ opening_session_inv).
  assert (Hlen : 2 ≤ length (active_players opening_session)) by (vm_compute; lia).
  assert (Hcur : current_player opening_session = Ok "A" opening_session)
    by (vm_compute; reflexivity).
  split; [exact Hnd|]. split; [exact Hlen|]. split; [exact Hcur|].
  exact (advance_passes_turn_to_left_neighbour opening_session "A" Hnd Hlen Hcur).
Defined.

Lemma round_winner_leads_next_witness :
  inv opened_session
  ∧ current_pile opened_session ≠ []
  ∧ ∃ s' w,
      _resolve_round true opened_session = Ok tt s'
      ∧ resolved_winner s' = Some w
      ∧ (w ∈ active_players s' → current_player s' = Ok w s')
      ∧ (w ∉ active_players s' → w ∈ winners s' ∧ cards_of w s' = []).
Proof.
  assert (Hpile : current_pile opened_session ≠ []) by (by vm_compute).
  split; [exact opened_session_inv|]. split; [exact Hpile|].
  exact (round_winner_leads_next true opened_session opened_session_inv Hpile).
Defined.

Lemma join_then_leave_restores_lobby_witness :
  inv (new_session "GAME01" "A")
  ∧ add_player "B" (new_session "GAME01" "A") = Ok true two_player_lobby
  ∧ remove_player "B" two_player_lobby = Ok tt (new_session "GAME01" "A").
Proof.
  assert (Hadd : add_player "B" (new_session "GAME01" "A") = Ok true two_player_lobby)
    by (vm_compute; reflexivity).
  split; [apply new_session_inv|]. split; [exact Hadd|].
  exact (join_then_leave_restores_lobby _ _ _ (new_session_inv "GAME01" "A") Hadd).
Defined.

Lemma disconnected_player_may_rejoin_once_witness :
  inv opening_session
  ∧ game_started opening_session = true
  ∧ finished opening_session = false
  ∧ "A" ∈ original_players opening_session
  ∧ "A" ∈ dict_keys (players opening_session)
  ∧ ∃ s1,
      remove_player "A" opening_session = Ok tt s1
      ∧ can_rejoin "A" s1 = Ok (true, "OK") s1
      ∧ can_rejoin "A" (final (player_reconnected "A" s1))
        = Ok (false, "Player with this name is already connected")
            (final (player_reconnected "A" s1)).
Proof.
  assert (Horig : "A" ∈ original_players opening_session) by (vm_compute; left).
  assert (Hkey : "A" ∈ dict_keys (players opening_session)) by (vm_compute; left).
  assert (Hst : game_started opening_session = true) by (vm_compute; reflexivity).
  assert (Hfin : finished opening_session = false) by (vm_compute; reflexivity).
  split; [exact opening_session_inv|]. split; [exact Hst|]. split; [exact Hfin|].
  split; [exact Horig|]. split; [exact Hkey|].
  exact (disconnected_player_may_rejoin_once opening_session "A" opening_session_inv
           Hst Hfin Horig Hkey).
Defined.

Lemma disconnect_then_reconnect_keeps_game_witness :
  inv opening_session
  ∧ game_started opening_session = true
  ∧ "A" ∈ dict_keys (players opening_session)
  ∧ (waiting_for_player opening_session = None)
  ∧ current_player opening_session = Ok "A" opening_session
  ∧ ∃ s1 s2,
      remove_player "A" opening_session = Ok tt s1
      ∧ player_reconnected "A" s1 = Ok tt s2
      ∧ waiting_for_player s1 = Some "A"
      ∧ players s2 = players opening_session
      ∧ current_player s2 = Ok "A" s2.
Proof.
  assert (Hst : game_started opening_session = true) by (vm_compute; reflexivity).
  assert (Hkey : "A" ∈ dict_keys (players opening_session)) by (vm_compute; left).
  assert (Hw : waiting_for_player opening_session = None) by (vm_compute; reflexivity).
  assert (Hw' : waiting_for_player opening_session ≠ Some "A") by (by rewrite Hw).
  assert (Hcur : current_player opening_session = Ok "A" opening_session)
    by (vm_compute; reflexivity).
  assert (Hact : "A" ∈ active_players opening_session) by (vm_compute; left).
  split; [exact opening_session_inv|]. split; [exact Hst|]. split; [exact Hkey|].
  split; [exact Hw|]. split; [exact Hcur|].
  destruct (disconnect_then_reconnect_keeps_game opening_session "A" "A"
              opening_session_inv Hst Hkey Hw' Hcur)
    as (s1 & s2 & Hrem & Hrec & Hwait & Hpl & _ & _ & _ & Hcur2 & _).
  exists s1, s2. split; [exact Hrem|]. split; [exact Hrec|].
  split; [apply Hwait; by split|]. by split.
Defined.

Lemma reconnect_of_awaited_player_witness :
  inv awaited_gone_session
  ∧ waiting_for_player awaited_gone_session = Some "A"
  ∧ active_players awaited_gone_session = ["B"]
  ∧ ∃ msg, player_reconnected "A" awaited_gone_session
           = Raise (ValueError msg)
               (set_connected_players
                  ({["A"]} ∪ connected_players awaited_gone_session)
                  awaited_gone_session).
Proof.
  assert (Hw : waiting_for_player awaited_gone_session = Some "A")
    by (vm_compute; reflexivity).
  assert (Hact : active_players awaited_gone_session = ["B"])
    by (vm_compute; reflexivity).
  split; [exact awaited_gone_session_inv|]. split; [exact Hw|]. split; [exact Hact|].
  destruct (reconnect_of_awaited_player awaited_gone_session "A"
              awaited_gone_session_inv Hw) as [_ Hgone].
  apply Hgone. rewrite Hact. by intros ?%list_elem_of_singleton.
Defined.

Lemma moves_leave_the_table_alone_witness :
  inv opening_session
  ∧ same_table opening_session
      (final (play_card "A" (to_dict ace_of_spades) opening_session))
  ∧ same_table opening_session (final (take_hand_from_left "A" opening_session)).
Proof.
  split; [exact opening_session_inv|].
  exact (moves_leave_the_table_alone opening_session "A" (to_dict ace_of_spades)
           opening_session_inv).
Defined.

Lemma game_moves_return_witness :
  inv opening_session
  ∧ inv_play opening_session
  ∧ card_of_dict (to_dict ace_of_spades) opening_session
    = Ok ace_of_spades opening_session
  ∧ (∃ r s', take_hand_from_left "A" opening_session = Ok r s')
  ∧ (∃ s', remove_player "A" opening_session = Ok tt s')
  ∧ ∃ r s', play_card "A" (to_dict ace_of_spades) opening_session = Ok r s'.
Proof.
  pose proof (card_of_to_dict ace_of_spades opening_session) as Hcard.
  split; [exact opening_session_inv|]. split; [exact opening_session_inv_play|].
  split; [exact Hcard|].
  destruct (game_moves_return opening_session "A" (to_dict ace_of_spades) ace_of_spades
              opening_session_inv opening_session_inv_play) as (Htake & Hrem & Hplay).
  split; [exact Htake|]. split; [exact Hrem|]. exact (Hplay Hcard).
Defined.

Lemma every_session_is_well_formed_witness :
  reachable unit no_shuffle plain_session
  ∧ player_order plain_session = dict_keys (players plain_session)
  ∧ NoDup (active_players plain_session)
  ∧ (round_in_progress plain_session = true ↔ current_pile plain_session ≠ []).
Proof.
  split; [exact plain_session_reachable|].
  destruct (every_session_is_well_formed no_shuffle plain_session plain_session_reachable)
    as (Hord & _ & Hnd & _ & _ & _ & Hround).
  split; [exact Hord|]. split; [exact Hnd|exact Hround].
Defined.

Lemma session_has_two_to_eight_members_witness :
  reachable unit no_shuffle plain_session
  ∧ length (players plain_session) ≤ 8
  ∧ (game_started plain_session = true → 2 ≤ length (players plain_session)).
Proof.
  split; [exact plain_session_reachable|].
  exact (session_has_two_to_eight_members no_shuffle plain_session
           plain_session_reachable).
Defined.

Lemma offered_hand_is_the_hand_taken_witness :
  inv opening_session
  ∧ inv_play opening_session
  ∧ ∃ st, get_state (Some "A") opening_session = Ok st opening_session
          ∧ State.can_take_from_left st = Some "B"
          ∧ ∃ msg s', take_hand_from_left "A" opening_session
                      = Ok (true, msg, Some "B") s'.
Proof.
  split; [exact opening_session_inv|]. split; [exact opening_session_inv_play|].
  destruct (get_state_run (Some "A") opening_session) as (st & Hget & _).
  assert (Hcan : State.can_take_from_left st = Some "B").
  { assert (Hc : State.can_take_from_left
                   <$> (match get_state (Some "A") opening_session with
                        | Ok st0 _ => Some st0
                        | Raise _ _ => None
                        end) = Some (Some "B")) by (vm_compute; reflexivity).
    rewrite Hget in Hc. by injection Hc. }
  exists st. split; [exact Hget|]. split; [exact Hcan|].
  apply (offered_hand_is_the_hand_taken opening_session "A" "B" st
           opening_session_inv opening_session_inv_play); [done|exact Hget|exact Hcan].
Defined.

Lemma get_state_hides_other_hands_witness :
  same_view (Some "A") (players opening_session) other_hands
  ∧ other_hands ≠ players opening_session
  ∧ ∃ st, get_state (Some "A") opening_session = Ok st opening_session
          ∧ get_state (Some "A") (set_players other_hands opening_session)
            = Ok st (set_players other_hands opening_session).
Proof.
  assert (Hview : same_view (Some "A") (players opening_session) other_hands).
  { split; [vm_compute; reflexivity|]. intros q [= <-]. vm_compute. reflexivity. }
  split; [exact Hview|]. split.
  { apply (bool_decide_unpack _). by vm_compute. }
  destruct (get_state_run (Some "A") opening_session) as (st & Hget & _).
  exists st. split; [exact Hget|].
  exact (get_state_hides_other_hands opening_session (Some "A") other_hands st Hview Hget).
Defined.

Lemma start_game_deals_on_top_witness :
  (∀ g deck, (no_shuffle g deck).1 ≡ₚ deck)
  ∧ inv plain_session
  ∧ 2 ≤ length (players plain_session)
  ∧ ∃ s', start_game unit no_shuffle tt plain_session = Ok tt s'
          ∧ cards_in_hands s' ≡ₚ cards_in_hands plain_session ++ ordered_deck.
Proof.
  assert (Hlen : 2 ≤ length (players plain_session)) by (vm_compute; lia).
  split; [exact no_shuffle_perm|]. split; [exact plain_session_inv|].
  split; [exact Hlen|].
  destruct (start_game_deals_on_top no_shuffle no_shuffle_perm tt plain_session
              plain_session_inv Hlen) as (s' & Hrun & Hcards & _).
  exists s'. by split.
Defined.

Lemma play_again_deals_a_fresh_deck_witness :
  (∀ g deck, (no_shuffle g deck).1 ≡ₚ deck)
  ∧ inv finished_session
  ∧ 2 ≤ length (players finished_session)
  ∧ ∃ s1 s2,
      reset_game finished_session = Ok tt s1
      ∧ start_game unit no_shuffle tt s1 = Ok tt s2
      ∧ conserved s2
      ∧ finished s2 = false.
Proof.
  assert (Hlen : 2 ≤ length (players finished_session)) by (vm_compute; lia).
  split; [exact no_shuffle_perm|]. split; [exact finished_session_inv|].
  split; [exact Hlen|].
  destruct (play_again_deals_a_fresh_deck no_shuffle no_shuffle_perm tt finished_session
              finished_session_inv Hlen)
    as (s1 & s2 & Hreset & Hrun & _ & Hcons & _ & _ & _ & Hfin & _).
  exists s1, s2. by do 3 (split; [done|]).
Defined.

Lemma start_game_deals_evenly_witness :
  (∀ g deck, (no_shuffle g deck).1 ≡ₚ deck)
  ∧ inv two_player_lobby
  ∧ game_started two_player_lobby = false
  ∧ 2 ≤ length (players two_player_lobby)
  ∧ start_game unit no_shuffle tt two_player_lobby = Ok tt plain_session
  ∧ player_order two_player_lobby !! 1 = Some "B"
  ∧ length (cards_of "B" plain_session) = 26.
Proof.
  assert (Hst : game_started two_player_lobby = false) by (vm_compute; reflexivity).
  assert (Hlen : 2 ≤ length (players two_player_lobby)) by (vm_compute; lia).
  assert (Hrun : start_game unit no_shuffle tt two_player_lobby = Ok tt plain_session)
    by (vm_compute; reflexivity).
  assert (Hseat : player_order two_player_lobby !! 1 = Some "B")
    by (vm_compute; reflexivity).
  split; [exact no_shuffle_perm|]. split; [exact two_player_lobby_inv|].
  split; [exact Hst|]. split; [exact Hlen|]. split; [exact Hrun|]. split; [exact Hseat|].
  rewrite (start_game_deals_evenly no_shuffle no_shuffle_perm tt two_player_lobby
             plain_session 1 "B" two_player_lobby_inv Hst Hlen Hrun Hseat).
  by vm_compute.
Defined.

Lemma hands_are_always_in_order_witness :
  reachable unit no_shuffle plain_session
  ∧ ∃ h, dict_get "A" (players plain_session) = Some h
         ∧ hand_sorted h ∧ sort_hand h = h.
Proof.
  split; [exact plain_session_reachable|].
  destruct (dict_get "A" (players plain_session)) as [h|] eqn:Hh.
  - exists h. split; [reflexivity|].
    exact (hands_are_always_in_order no_shuffle plain_session "A" h
             plain_session_reachable Hh).
  - exfalso. vm_compute in Hh. discriminate Hh.
Defined.

Lemma card_in_suit_passes_turn_left_witness :
  inv opening_session
  ∧ play_card "A" (to_dict ace_of_spades) opening_session = Ok (true, None) opened_session
  ∧ current_pile opened_session ≠ []
  ∧ ∃ q, get_player_on_left "A" opening_session = Ok (Some q) opening_session
         ∧ current_player opened_session = Ok q opened_session
         ∧ active_players opened_session = active_players opening_session.
Proof.
  assert (Hrun : play_card "A" (to_dict ace_of_spades) opening_session
                 = Ok (true, None) opened_session) by (vm_compute; reflexivity).
  assert (Hpile : current_pile opened_session ≠ []) by (by vm_compute).
  split; [exact opening_session_inv|]. split; [exact Hrun|]. split; [exact Hpile|].
  exact (card_in_suit_passes_turn_left opening_session opened_session "A"
           (to_dict ace_of_spades) None opening_session_inv Hrun Hpile).
Defined.

Lemma finished_game_stands_witness :
  inv finished_session
  ∧ game_started finished_session = true
  ∧ finished finished_session = true
  ∧ rtc move_step finished_session
      (after_move (Move_player_reconnected "B") finished_session)
  ∧ play_card "A" (to_dict ace_of_spades)
      (after_move (Move_player_reconnected "B") finished_session)
    = Ok (false, Some "Game not in progress")
        (after_move (Move_player_reconnected "B") finished_session)
  ∧ players (after_move (Move_player_reconnected "B") finished_session)
    = players finished_session.
Proof.
  assert (Hst : game_started finished_session = true) by (vm_compute; reflexivity).
  assert (Hfin : finished finished_session = true) by (vm_compute; reflexivity).
  assert (Hsteps : rtc move_step finished_session
                     (after_move (Move_player_reconnected "B") finished_session)).
  { apply rtc_once. by eexists. }
  split; [exact finished_session_inv|]. split; [exact Hst|]. split; [exact Hfin|].
  split; [exact Hsteps|].
  destruct (finished_game_stands finished_session _ "A" (to_dict ace_of_spades)
              finished_session_inv Hst Hfin Hsteps) as (Hplay & _ & _ & Hpl & _).
  by split.
Defined.
